(** * cli_portfolio: the navigation state machine and its renderer

    A shallow embedding of the two programs of the repository: [main.go]
    (module [Main]) and the full-screen variant with a splash screen, a
    footer clock and a stopwatch (module [Splash]).  Both are Bubble Tea
    programs: a [model] value, an [Update] function from a message to a new
    model and a command, and a [View] function.

    The widgets of the Bubbles library (list, table, progress bar,
    stopwatch) and the Lip Gloss renderer are not part of the repository.
    The state the programs read and write through the widgets' methods is
    modelled in module [Bubbles]; the widgets' own message handlers are
    left as parameters (record [Widgets]) with one reference instance. *)

From Stdlib Require Import ZArith List String Ascii Bool Lia DecimalString.
From Stdlib Require Import Floats.PrimFloat.
Import ListNotations.

Set Warnings "-register-all".

Open Scope string_scope.
Open Scope Z_scope.

(** ** Go values *)

Module Go.

(** A computation that may panic (index out of range, failed type
    assertion). *)
Inductive result (A : Type) : Type :=
| Ok (a : A)
| Panic (why : string).
Arguments Ok {A} a.
Arguments Panic {A} why.

Definition bind {A B : Type} (r : result A) (k : A -> result B) : result B :=
  match r with
  | Ok a => k a
  | Panic why => Panic why
  end.

(** Go's [int] on the 64-bit targets: two's complement wrap-around. *)
Definition wrap (z : Z) : Z := (z + 2 ^ 63) mod 2 ^ 64 - 2 ^ 63.
Definition add (a b : Z) : Z := wrap (a + b).
Definition sub (a b : Z) : Z := wrap (a - b).

(** [len(s)] of a slice. *)
Definition len {A : Type} (s : list A) : Z := Z.of_nat (List.length s).

(** [s[i]]: panics outside [0, len(s)). *)
Definition index {A : Type} (s : list A) (i : Z) : result A :=
  if i <? 0 then Panic "index out of range"
  else match nth_error s (Z.to_nat i) with
       | Some a => Ok a
       | None => Panic "index out of range"
       end.

(** An [error] value, identified with the text its [Error()] method
    returns. *)
Definition error : Type := string.

(** [time.Time], as seconds on the local wall clock. *)
Definition Time : Type := Z.

Definition digit (n : Z) : string :=
  String (ascii_of_nat (48 + Z.to_nat (n mod 10))) EmptyString.
Definition two_digits (n : Z) : string := digit (n / 10) ++ digit n.

(** [t.Format("15:04:05")]. *)
Definition Format_15_04_05 (t : Time) : string :=
  two_digits ((t / 3600) mod 24) ++ ":" ++
  two_digits ((t / 60) mod 60) ++ ":" ++
  two_digits (t mod 60).

(** [%d] of [fmt.Sprintf]. *)
Definition itoa (z : Z) : string := NilZero.string_of_int (Z.to_int z).

(** [math.Min] and [math.Max] on float64, with their special cases. *)
Definition is_nan (x : float) : bool := negb (PrimFloat.eqb x x).
Definition signbit (x : float) : bool :=
  match PrimFloat.classify x with
  | FloatClass.NNormal | FloatClass.NSubn | FloatClass.NZero
  | FloatClass.NInf => true
  | _ => false
  end.
Definition math_Min (x y : float) : float :=
  if PrimFloat.eqb x neg_infinity || PrimFloat.eqb y neg_infinity
  then neg_infinity
  else if is_nan x || is_nan y then nan
  else if PrimFloat.eqb x zero && PrimFloat.eqb x y
       then (if signbit x then x else y)
  else if PrimFloat.ltb x y then x else y.
Definition math_Max (x y : float) : float :=
  if PrimFloat.eqb x infinity || PrimFloat.eqb y infinity
  then infinity
  else if is_nan x || is_nan y then nan
  else if PrimFloat.eqb x zero && PrimFloat.eqb x y
       then (if signbit x then y else x)
  else if PrimFloat.ltb y x then x else y.

End Go.

(** ** Records of the program *)

Record githubRepo : Type := mkRepo {
  Name : string;
  Description : string;
  HTMLURL : string
}.

Record item : Type := mkItem {
  title : string;
  description : string;
  url : string
}.

(** ** Bubble Tea: messages and commands *)

Module Tea.

(** [progress.FrameMsg]: one animation step of a progress bar. *)
Record FrameMsg : Type := mkFrame { frame_id : Z; frame_tag : Z }.

(** Messages of the libraries the programs do not inspect. *)
Inductive LibMsg : Type :=
| MouseMsg
| stopwatch_TickMsg (id : Z)
| stopwatch_StartStopMsg (id : Z) (running : bool)
| stopwatch_ResetMsg (id : Z)
| list_statusMessageTimeoutMsg
| spinner_TickMsg.

(** [tea.Msg], by dynamic type.  A key message is identified with the
    value of [msg.String()]. *)
Inductive Msg : Type :=
| KeyMsg (key : string)
| WindowSizeMsg (Width Height : Z)
| tickMsg (t : Go.Time)
| repoMsg (repos : list githubRepo)
| errMsg (err : Go.error)
| openURLMsg (u : string)
| progress_FrameMsg (f : FrameMsg)
| OtherMsg (o : LibMsg).

(** [tea.Cmd]: what the event loop is asked to run next.  A nil command
    is [None] of [option Cmd]. *)
Inductive Cmd : Type :=
| Quit
| Tick (milliseconds : Z)
| FetchGitHubRepos
| OpenURL (u : string)
| progress_nextFrame
| list_statusTimeout
| stopwatch_tick (id : Z)
| stopwatch_start (id : Z)
| LibCmd (n : Z)
| Batch (cmds : list (option Cmd)).

End Tea.
Import Tea.

(** ** Lip Gloss: styles and rendered text

    The renderer is kept symbolic.  A [Style] is the list of the builder
    calls that made it, and a rendered string is the tree of the calls that
    produce it: literals, Go's [+] on strings, [Style.Render], and the
    [View] methods of the widgets. *)

Module Lipgloss.

Inductive Position : Type := Left | Center | Right.
Inductive BorderKind : Type := NormalBorder | RoundedBorder.

Inductive StyleOpt : Type :=
| Bold (b : bool)
| Foreground (color : string)
| Background (color : string)
| Width (w : Z)
| Height (h : Z)
| Align (p : Position)
| AlignVertical (p : Position)
| Padding (sides : list Z)
| PaddingLeft (n : Z)
| PaddingRight (n : Z)
| MarginTop (n : Z)
| Border (b : BorderKind)
| BorderStyle (b : BorderKind)
| BorderForeground (color : string)
| BorderTop (b : bool)
| BorderBottom (b : bool).

Definition Style : Type := list StyleOpt.
Definition NewStyle : Style := [].

(** The last [Width] set on a style. *)
Fixpoint style_width (st : Style) (acc : option Z) : option Z :=
  match st with
  | [] => acc
  | Width w :: rest => style_width rest (Some w)
  | _ :: rest => style_width rest acc
  end.

(** The four sides of [Padding(...)], in the order top, right, bottom,
    left, by the number of arguments. *)
Definition sides_of (args : list Z) : option (Z * Z * Z * Z) :=
  match args with
  | [a] => Some (a, a, a, a)
  | [v; h] => Some (v, h, v, h)
  | [t; h; b] => Some (t, h, b, h)
  | [t; r; b; l] => Some (t, r, b, l)
  | _ => None
  end.

(** [Style.GetFrameSize()] of a style that sets only paddings: the
    horizontal and the vertical padding. *)
Fixpoint frame_of (st : Style) (acc : Z * Z * Z * Z) : Z * Z :=
  match st with
  | [] => let '(t, r, b, l) := acc in (Go.add l r, Go.add t b)
  | Padding args :: rest =>
      frame_of rest (match sides_of args with Some p => p | None => acc end)
  | PaddingLeft n :: rest =>
      let '(t, r, b, _) := acc in frame_of rest (t, r, b, n)
  | PaddingRight n :: rest =>
      let '(t, _, b, l) := acc in frame_of rest (t, n, b, l)
  | _ :: rest => frame_of rest acc
  end.

Definition GetFrameSize (st : Style) : Z * Z := frame_of st (0, 0, 0, 0).

End Lipgloss.
Import Lipgloss.

(** ** Bubbles: the state of the widgets

    Each record holds the fields of the widget that the programs reach
    through its methods; the methods used by the programs follow below. *)

Module Bubbles.

(** [progress.Model].  [Percent()] reads [targetPercent]; [View()] draws
    [percentShown], which the frame messages animate towards the
    target. *)
Record progress_Model : Type := mkProgress {
  progress_Width : Z;
  targetPercent : float;
  percentShown : float
}.

(** [list.Model] with its paginator.  Filtering is disabled by
    [initialModel], so the visible items are the items. *)
Record list_Model : Type := mkList {
  items : list item;
  Page : Z;
  PerPage : Z;
  TotalPages : Z;
  cursor : Z;
  list_width : Z;
  list_height : Z;
  list_Title : string;
  Styles_Title : Style;
  showTitle : bool;
  showPagination : bool;
  showStatusBar : bool;
  filteringEnabled : bool;
  statusMessage : option (Style * string)
}.

(** [table.Model]: two columns of text and a cursor row. *)
Record table_Model : Type := mkTable {
  columns : list (string * Z);
  rows : list (string * string);
  table_cursor : Z;
  table_width : Z;
  table_height : Z;
  focus : bool;
  styles_Header : Style;
  styles_Selected : Style
}.

(** [stopwatch.Model]. *)
Record stopwatch_Model : Type := mkStopwatch {
  stopwatch_id : Z;
  elapsed_ms : Z;
  Interval_ms : Z;
  running : bool
}.

(** A rendered string. *)
Inductive text : Type :=
| Lit (s : string)
| Cat (a b : text)
| Render (st : Style) (t : text)
| JoinHorizontal (p : Position) (parts : list text)
| progress_View (p : progress_Model)
| list_View (l : list_Model)
| table_View (t : table_Model)
| stopwatch_View (s : stopwatch_Model).

(** The behaviour of the libraries that the programs only call:
    the widgets' [Update] methods, the height the list leaves to its
    items, and [lipgloss.Width]. *)
Record Widgets : Type := mkWidgets {
  list_Update : list_Model -> Msg -> list_Model * option Cmd;
  table_Update : table_Model -> Msg -> table_Model * option Cmd;
  stopwatch_Update : stopwatch_Model -> Msg -> stopwatch_Model * option Cmd;
  progress_animate : progress_Model -> FrameMsg -> float * option Cmd;
  list_chrome_height : list_Model -> Z;
  lipgloss_Width : text -> Z
}.

(** *** progress *)

Definition defaultWidth : Z := 40.

(** [progress.New(progress.WithDefaultGradient())]. *)
Definition progress_New : progress_Model :=
  {| progress_Width := defaultWidth;
     targetPercent := 0%float;
     percentShown := 0%float |}.

Definition Percent (p : progress_Model) : float := targetPercent p.

(** [SetPercent]: the target is clamped to [0, 1]; the command asks for
    the next animation frame. *)
Definition SetPercent (p : progress_Model) (v : float)
  : progress_Model * option Cmd :=
  ({| progress_Width := progress_Width p;
      targetPercent := Go.math_Max 0%float (Go.math_Min 1%float v);
      percentShown := percentShown p |},
   Some progress_nextFrame).

Definition IncrPercent (p : progress_Model) (v : float)
  : progress_Model * option Cmd :=
  SetPercent p (PrimFloat.add (Percent p) v).

Definition set_progress_Width (p : progress_Model) (w : Z) : progress_Model :=
  {| progress_Width := w;
     targetPercent := targetPercent p;
     percentShown := percentShown p |}.

(** [progress.Model.Update] on a frame message: only the animated value
    moves. *)
Definition progress_Update (W : Widgets) (p : progress_Model) (f : FrameMsg)
  : progress_Model * option Cmd :=
  let (shown, cmd) := progress_animate W p f in
  ({| progress_Width := progress_Width p;
      targetPercent := targetPercent p;
      percentShown := shown |}, cmd).

(** *** list and paginator *)

Definition set_items (l : list_Model) (xs : list item) : list_Model :=
  mkList xs (Page l) (PerPage l) (TotalPages l) (cursor l) (list_width l)
    (list_height l) (list_Title l) (Styles_Title l) (showTitle l) (showPagination l)
    (showStatusBar l) (filteringEnabled l) (statusMessage l).

Definition set_paging (l : list_Model) (page perPage total cur : Z)
  : list_Model :=
  mkList (items l) page perPage total cur (list_width l)
    (list_height l) (list_Title l) (Styles_Title l) (showTitle l) (showPagination l)
    (showStatusBar l) (filteringEnabled l) (statusMessage l).

Definition set_cursor (l : list_Model) (page cur : Z) : list_Model :=
  set_paging l page (PerPage l) (TotalPages l) cur.

Definition set_size (l : list_Model) (w h : Z) : list_Model :=
  mkList (items l) (Page l) (PerPage l) (TotalPages l) (cursor l) w h
    (list_Title l) (Styles_Title l) (showTitle l) (showPagination l)
    (showStatusBar l) (filteringEnabled l) (statusMessage l).

Definition set_status (l : list_Model) (s : option (Style * string))
  : list_Model :=
  mkList (items l) (Page l) (PerPage l) (TotalPages l) (cursor l)
    (list_width l) (list_height l) (list_Title l) (Styles_Title l) (showTitle l)
    (showPagination l) (showStatusBar l) (filteringEnabled l) s.

Definition Items (l : list_Model) : list item := items l.
Definition VisibleItems (l : list_Model) : list item := items l.

(** [Index()]: the selected position in the whole slice. *)
Definition Index (l : list_Model) : Z := Page l * PerPage l + cursor l.

(** [SelectedItem()]: nil when the index is outside the items. *)
Definition SelectedItem (l : list_Model) : option item :=
  let i := Index l in
  if (i <? 0) || (Go.len (VisibleItems l) =? 0)
     || (Go.len (VisibleItems l) <=? i)
  then None
  else nth_error (VisibleItems l) (Z.to_nat i).

(** [Paginator.ItemsOnPage]. *)
Definition ItemsOnPage (l : list_Model) (total : Z) : Z :=
  if total <? 1 then 0
  else Z.min (Page l * PerPage l + PerPage l) total - Page l * PerPage l.

Definition OnLastPage (l : list_Model) : bool := Page l =? TotalPages l - 1.

(** [Paginator.SetTotalPages]. *)
Definition SetTotalPages (perPage total count : Z) : Z :=
  if count <? 1 then total
  else if 0 <? Z.rem count perPage
       then Z.quot count perPage + 1
       else Z.quot count perPage.

Definition CursorUp (l : list_Model) : list_Model :=
  let c := cursor l - 1 in
  if (c <? 0) && (Page l =? 0) then set_cursor l (Page l) 0
  else if 0 <=? c then set_cursor l (Page l) c
  else
    let l' := set_cursor l (if 0 <? Page l then Page l - 1 else Page l) c in
    set_cursor l' (Page l') (ItemsOnPage l' (Go.len (VisibleItems l')) - 1).

Definition CursorDown (l : list_Model) : list_Model :=
  let itemsOnPage := ItemsOnPage l (Go.len (VisibleItems l)) in
  let c := cursor l + 1 in
  if c <? itemsOnPage then set_cursor l (Page l) c
  else if negb (OnLastPage l) then set_cursor l (Page l + 1) 0
  else if itemsOnPage <? c then set_cursor l (Page l) 0
  else set_cursor l (Page l) (itemsOnPage - 1).

(** The item delegate of the programs: [projectDelegate.Height()] and
    [projectDelegate.Spacing()]. *)
Definition projectDelegate_Height : Z := 2.
Definition projectDelegate_Spacing : Z := 1.

(** [updatePagination]: the page size follows the height, and the index
    is restored; only the page is brought back in bounds. *)
Definition updatePagination (W : Widgets) (l : list_Model) : list_Model :=
  let index := Index l in
  let availHeight := list_height l - list_chrome_height W l in
  let perPage :=
    Z.max 1 (Z.quot availHeight
               (projectDelegate_Height + projectDelegate_Spacing)) in
  let pages := Go.len (VisibleItems l) in
  let total :=
    if pages <? 1 then SetTotalPages perPage (TotalPages l) 1
    else SetTotalPages perPage (TotalPages l) pages in
  let page := Z.quot index perPage in
  let cur := Z.rem index perPage in
  let page' := if total - 1 <=? page then Z.max 0 (total - 1) else page in
  set_paging l page' perPage total cur.

Definition SetItems (W : Widgets) (l : list_Model) (xs : list item)
  : list_Model :=
  updatePagination W (set_items l xs).

Definition SetSize (W : Widgets) (l : list_Model) (w h : Z) : list_Model :=
  updatePagination W (set_size l w h).

(** [NewStatusMessage]: the message is shown and a timer command hides
    it later. *)
Definition NewStatusMessage (l : list_Model) (st : Style) (s : string)
  : list_Model * option Cmd :=
  (set_status l (Some (st, s)), Some list_statusTimeout).

Definition set_flags (l : list_Model) (ttl pag sta flt : bool) : list_Model :=
  mkList (items l) (Page l) (PerPage l) (TotalPages l) (cursor l)
    (list_width l) (list_height l) (list_Title l) (Styles_Title l)
    ttl pag sta flt (statusMessage l).

Definition set_title (l : list_Model) (t : string) (st : Style)
  : list_Model :=
  mkList (items l) (Page l) (PerPage l) (TotalPages l) (cursor l)
    (list_width l) (list_height l) t st (showTitle l) (showPagination l)
    (showStatusBar l) (filteringEnabled l) (statusMessage l).

(** [list.New(items, delegate, width, height)]: every part of the chrome
    shown, filtering enabled, a fresh paginator. *)
Definition list_New (W : Widgets) (xs : list item) (w h : Z) : list_Model :=
  updatePagination W
    (mkList xs 0 1 1 0 w h "List" NewStyle true true true true None).

Definition SetShowTitle (W : Widgets) (l : list_Model) (v : bool) :=
  updatePagination W
    (set_flags l v (showPagination l) (showStatusBar l) (filteringEnabled l)).
Definition SetShowPagination (W : Widgets) (l : list_Model) (v : bool) :=
  updatePagination W
    (set_flags l (showTitle l) v (showStatusBar l) (filteringEnabled l)).
Definition SetShowStatusBar (W : Widgets) (l : list_Model) (v : bool) :=
  updatePagination W
    (set_flags l (showTitle l) (showPagination l) v (filteringEnabled l)).
Definition SetFilteringEnabled (l : list_Model) (v : bool) :=
  set_flags l (showTitle l) (showPagination l) (showStatusBar l) v.

(** *** table *)

Definition clamp (v low high : Z) : Z := Z.min (Z.max v low) high.

Definition set_table_cursor (t : table_Model) (c : Z) : table_Model :=
  mkTable (columns t) (rows t) c (table_width t) (table_height t) (focus t)
    (styles_Header t) (styles_Selected t).

Definition MoveUp (t : table_Model) (n : Z) : table_Model :=
  set_table_cursor t (clamp (table_cursor t - n) 0 (Go.len (rows t) - 1)).

Definition MoveDown (t : table_Model) (n : Z) : table_Model :=
  set_table_cursor t (clamp (table_cursor t + n) 0 (Go.len (rows t) - 1)).

Definition SetWidth (t : table_Model) (w : Z) : table_Model :=
  mkTable (columns t) (rows t) (table_cursor t) w (table_height t) (focus t)
    (styles_Header t) (styles_Selected t).

Definition SetHeight (t : table_Model) (h : Z) : table_Model :=
  mkTable (columns t) (rows t) (table_cursor t) (table_width t) h (focus t)
    (styles_Header t) (styles_Selected t).

Definition SetStyles (t : table_Model) (header selected : Style)
  : table_Model :=
  mkTable (columns t) (rows t) (table_cursor t) (table_width t)
    (table_height t) (focus t) header selected.

(** [table.DefaultStyles()]. *)
Definition DefaultStyles_Header : Style := [Bold true; Padding [0; 1]].
Definition DefaultStyles_Selected : Style := [Bold true; Foreground "212"].

(** [table.New(WithColumns(c), WithRows(r), WithFocused(true),
    WithHeight(h))]. *)
Definition table_New (c : list (string * Z)) (r : list (string * string))
    (h : Z) : table_Model :=
  mkTable c r 0 0 h true DefaultStyles_Header DefaultStyles_Selected.

(** *** stopwatch *)

(** [stopwatch.NewWithInterval(d)]; [Init()] asks to start it. *)
Definition stopwatch_NewWithInterval (ms : Z) : stopwatch_Model :=
  mkStopwatch 1 0 ms false.

Definition stopwatch_Init (s : stopwatch_Model) : option Cmd :=
  Some (stopwatch_start (stopwatch_id s)).

(** *** A reference instance of the libraries

    The default key maps of the list (browsing, filtering disabled) and
    of the table, the stopwatch's own messages, and an animation that
    reaches its target in one frame. *)

Definition key_in (k : string) (ks : list string) : bool :=
  existsb (String.eqb k) ks.

(** The end of the list's key handling keeps the cursor on the page. *)
Definition keep_in_bounds (l : list_Model) : list_Model :=
  let itemsOnPage := ItemsOnPage l (Go.len (VisibleItems l)) in
  if itemsOnPage - 1 <? cursor l
  then set_cursor l (Page l) (Z.max 0 (itemsOnPage - 1))
  else l.

Definition list_handleBrowsing (l : list_Model) (msg : Msg)
  : list_Model * option Cmd :=
  match msg with
  | KeyMsg k =>
      if key_in k ["q"; "esc"] then (l, Some Quit)
      else if key_in k ["up"; "k"] then (keep_in_bounds (CursorUp l), None)
      else if key_in k ["down"; "j"]
           then (keep_in_bounds (CursorDown l), None)
      else if key_in k ["left"; "h"; "pgup"; "b"; "u"]
           then (keep_in_bounds
                   (set_cursor l (if 0 <? Page l then Page l - 1 else Page l)
                      (cursor l)), None)
      else if key_in k ["right"; "l"; "pgdown"; "f"; "d"]
           then (keep_in_bounds
                   (set_cursor l
                      (if OnLastPage l then Page l else Page l + 1)
                      (cursor l)), None)
      else if key_in k ["home"; "g"] then (keep_in_bounds (set_cursor l 0 0), None)
      else if key_in k ["end"; "G"]
           then
             let l' := set_cursor l (TotalPages l - 1) (cursor l) in
             (keep_in_bounds
                (set_cursor l' (Page l')
                   (ItemsOnPage l' (Go.len (VisibleItems l')) - 1)), None)
      else (keep_in_bounds l, None)
  | _ => (keep_in_bounds l, None)
  end.

Definition reference_list_Update (l : list_Model) (msg : Msg)
  : list_Model * option Cmd :=
  match msg with
  | KeyMsg "ctrl+c" => (l, Some Quit)
  | OtherMsg list_statusMessageTimeoutMsg =>
      list_handleBrowsing (set_status l None) msg
  | _ => list_handleBrowsing l msg
  end.

Definition reference_table_Update (t : table_Model) (msg : Msg)
  : table_Model * option Cmd :=
  if negb (focus t) then (t, None)
  else match msg with
       | KeyMsg k =>
           if key_in k ["up"; "k"] then (MoveUp t 1, None)
           else if key_in k ["down"; "j"] then (MoveDown t 1, None)
           else if key_in k ["b"; "pgup"] then (MoveUp t (table_height t), None)
           else if key_in k ["f"; "pgdown"; " "]
                then (MoveDown t (table_height t), None)
           else if key_in k ["u"; "ctrl+u"]
                then (MoveUp t (Z.quot (table_height t) 2), None)
           else if key_in k ["d"; "ctrl+d"]
                then (MoveDown t (Z.quot (table_height t) 2), None)
           else if key_in k ["home"; "g"] then (MoveUp t (table_cursor t), None)
           else if key_in k ["end"; "G"] then (MoveDown t (Go.len (rows t)), None)
           else (t, None)
       | _ => (t, None)
       end.

Definition reference_stopwatch_Update (s : stopwatch_Model) (msg : Msg)
  : stopwatch_Model * option Cmd :=
  match msg with
  | OtherMsg (stopwatch_StartStopMsg id r) =>
      if id =? stopwatch_id s
      then (mkStopwatch (stopwatch_id s) (elapsed_ms s) (Interval_ms s) r,
            Some (stopwatch_tick (stopwatch_id s)))
      else (s, None)
  | OtherMsg (stopwatch_ResetMsg id) =>
      if id =? stopwatch_id s
      then (mkStopwatch (stopwatch_id s) 0 (Interval_ms s) (running s), None)
      else (s, None)
  | OtherMsg (stopwatch_TickMsg id) =>
      if running s && (id =? stopwatch_id s)
      then (mkStopwatch (stopwatch_id s) (elapsed_ms s + Interval_ms s)
              (Interval_ms s) (running s),
            Some (stopwatch_tick (stopwatch_id s)))
      else (s, None)
  | _ => (s, None)
  end.

Definition reference_progress_animate (p : progress_Model) (f : FrameMsg)
  : float * option Cmd :=
  if PrimFloat.eqb (percentShown p) (targetPercent p)
  then (percentShown p, None)
  else (targetPercent p, Some progress_nextFrame).

Definition reference_chrome_height (l : list_Model) : Z :=
  (if showTitle l then 2 else 0) + (if showStatusBar l then 2 else 0)
  + (if showPagination l then 1 else 0) + 2.

Definition reference_Width (t : text) : Z :=
  match t with
  | Lit s => Z.of_nat (String.length s)
  | Render st _ =>
      match style_width st None with Some w => w | None => 0 end
  | _ => 0
  end.

Definition reference : Widgets :=
  {| list_Update := reference_list_Update;
     table_Update := reference_table_Update;
     stopwatch_Update := reference_stopwatch_Update;
     progress_animate := reference_progress_animate;
     list_chrome_height := reference_chrome_height;
     lipgloss_Width := reference_Width |}.

End Bubbles.
Import Bubbles.

(** ** The outside world of the two programs *)

Module World.

(** What [json.NewDecoder(resp.Body).Decode(&repos)] makes of a body. *)
Inductive Body : Type :=
| Malformed (err : Go.error)
| Decoded (repos : list githubRepo).

Record Response : Type := mkResponse {
  StatusCode : Z;
  Status : string;
  body : Body
}.

(** The two results of [http.Get]. *)
Inductive GetResult : Type :=
| GetFailed (err : Go.error)
| GetResponse (resp : Response).

Definition StatusOK : Z := 200.

(** [exec.Command(cmd, args...).Start()]: nil, or an error. *)
Definition Starter : Type := string -> list string -> option Go.error.

End World.
Import World.

Definition nl : string := String (ascii_of_nat 10) EmptyString.
Definition streq (a b : string) : bool := String.eqb a b.

Declare Scope text_scope.
Delimit Scope text_scope with text.
Bind Scope text_scope with text.
Infix "+++" := Cat (at level 61, left associativity) : text_scope.

(** ** main.go *)

Module Main.

Definition padding : Z := 2.
Definition maxWidth : Z := 80.

Definition itemStyle : Style := [PaddingLeft 4].
Definition selectedItemStyle : Style := [PaddingLeft 2; Foreground "170"].
Definition appStyle : Style := [Padding [1; 2]].
Definition titleStyle : Style :=
  [Foreground "#FFFDF5"; Background "#25A065"; Padding [0; 1]].
Definition statusMessageStyle : Style := [Foreground "#04B575"].
Definition descriptionStyle : Style := [PaddingLeft 4; Foreground "#A49FA5"].
Definition baseTableStyle : Style :=
  [BorderStyle NormalBorder; BorderForeground "240"].

(** [projectDelegate.Render]: what is written to [w] for one item of the
    list.  [listItem] is [None] when its dynamic type is not [item]; the
    checked assertion then writes nothing. *)
Definition projectDelegate_Render (l : list_Model) (index : Z)
    (listItem : option item) : text :=
  match listItem with
  | None => Lit ""
  | Some i =>
      let titleStr := Go.itoa (Go.add index 1) ++ ". " ++ title i in
      let w :=
        if index =? Index l
        then Render selectedItemStyle (Lit ("> " ++ titleStr))
        else Render itemStyle (Lit titleStr) in
      let w := (w +++ Lit nl)%text in
      let desc := description i in
      let desc := if streq desc "" then "No description" else desc in
      (w +++ Render descriptionStyle (Lit desc))%text
  end.

Record model : Type := mkModel {
  cursor : Z;
  sections : list string;
  loading : bool;
  progress : progress_Model;
  page : string;
  loaded : bool;
  reposList : list_Model;
  skillsTable : table_Model;
  errorMsg : string
}.

Definition with_cursor (m : model) (c : Z) : model :=
  mkModel c (sections m) (loading m) (progress m) (page m) (loaded m)
    (reposList m) (skillsTable m) (errorMsg m).
Definition with_progress (m : model) (p : progress_Model) : model :=
  mkModel (cursor m) (sections m) (loading m) p (page m) (loaded m)
    (reposList m) (skillsTable m) (errorMsg m).
Definition with_reposList (m : model) (l : list_Model) : model :=
  mkModel (cursor m) (sections m) (loading m) (progress m) (page m)
    (loaded m) l (skillsTable m) (errorMsg m).
Definition with_skillsTable (m : model) (t : table_Model) : model :=
  mkModel (cursor m) (sections m) (loading m) (progress m) (page m)
    (loaded m) (reposList m) t (errorMsg m).
Definition with_flags (m : model) (ld done : bool) : model :=
  mkModel (cursor m) (sections m) ld (progress m) (page m) done
    (reposList m) (skillsTable m) (errorMsg m).
Definition with_errorMsg (m : model) (e : string) : model :=
  mkModel (cursor m) (sections m) (loading m) (progress m) (page m)
    (loaded m) (reposList m) (skillsTable m) e.

Definition initializeSkillsTable : table_Model :=
  let columns := [("Category", 25); ("Skills", 50)] in
  let rows :=
    [("Programming Languages", "Python, JavaScript, TypeScript, Dart, PHP");
     ("Mobile Development", "Flutter, React Native");
     ("Software Development", "Electron");
     ("Web Development", "React, Symfony, VueJS, NextJS, NodeJS");
     ("Databases", "MySQL, MongoDB, Microsoft SQL Server");
     ("Game Engine", "Unity")] in
  let t := table_New columns rows 10 in
  SetStyles t
    (DefaultStyles_Header ++
       [BorderStyle NormalBorder; BorderForeground "240";
        BorderBottom true; Bold false])%list
    (DefaultStyles_Selected ++
       [Foreground "229"; Background "57"; Bold false])%list.

Definition tickCmd : option Cmd := Some (Tick 50).

Section Program.

Context (W : Widgets).

Definition initialModel : model :=
  let projectList := list_New W [] maxWidth 20 in
  let projectList := SetShowTitle W projectList true in
  let projectList := set_title projectList "GitHub Projects" titleStyle in
  let projectList := SetShowPagination W projectList false in
  let projectList := SetShowStatusBar W projectList false in
  let projectList := SetFilteringEnabled projectList false in
  let skillsTable := initializeSkillsTable in
  {| cursor := 0;
     sections := ["About Me"; "Education"; "Experience"; "Skills";
                  "Projects"; "Contact"; "Exit"];
     loading := false;
     progress := progress_New;
     page := "menu";
     loaded := false;
     reposList := projectList;
     skillsTable := skillsTable;
     errorMsg := "" |}.

Definition Init (m : model) : option Cmd := tickCmd.

(** The body of the command returned by [fetchGitHubRepos()], given
    what [http.Get] answers. *)
Definition fetchGitHubRepos (http_Get : string -> GetResult) : Msg :=
  match
    http_Get
      "https://api.github.com/users/mhommet/repos?sort=updated&per_page=100"
  with
  | GetFailed err => errMsg err
  | GetResponse resp =>
      if negb (StatusCode resp =? StatusOK)
      then errMsg ("failed to fetch repositories: " ++ Status resp)
      else match body resp with
           | Malformed err => errMsg err
           | Decoded repos => repoMsg repos
           end
  end.

Definition openBrowser (GOOS : string) (start : Starter) (u : string)
  : option Go.error :=
  let '(cmd, args) :=
    if streq GOOS "windows" then ("cmd", ["/c"; "start"])
    else if streq GOOS "darwin" then ("open", [])
    else ("xdg-open", []) in
  start cmd (args ++ [u])%list.

(** The body of the command returned by [openURL(url)]. *)
Definition openURL (GOOS : string) (start : Starter) (u : string) : Msg :=
  match openBrowser GOOS start u with
  | Some err => errMsg err
  | None => openURLMsg u
  end.

(** The statements of [Update] after the type switch: the message is
    handed to the widget of the current page. *)
Definition after_switch (m : model) (msg : Msg)
  : Go.result (model * option Cmd) :=
  if streq (page m) "Projects" then
    let (l, cmd) := list_Update W (reposList m) msg in
    Go.Ok (with_reposList m l, cmd)
  else if streq (page m) "Skills" then
    let (t, cmd) := table_Update W (skillsTable m) msg in
    Go.Ok (with_skillsTable m t, cmd)
  else Go.Ok (m, None).

(** [case "up", "k"].  The decrement is guarded by [m.cursor > 0]. *)
Definition key_up (m : model) : model :=
  if streq (page m) "menu" then
    if 0 <? cursor m then with_cursor m (cursor m - 1) else m
  else if streq (page m) "Projects" then
    with_reposList m (CursorUp (reposList m))
  else if streq (page m) "Skills" then
    with_skillsTable m (MoveUp (skillsTable m) 1)
  else m.

(** [case "down", "j"].  The increment is guarded by
    [m.cursor < len(m.sections)-1]. *)
Definition key_down (m : model) : model :=
  if streq (page m) "menu" then
    if cursor m <? Go.len (sections m) - 1
    then with_cursor m (cursor m + 1) else m
  else if streq (page m) "Projects" then
    with_reposList m (CursorDown (reposList m))
  else if streq (page m) "Skills" then
    with_skillsTable m (MoveDown (skillsTable m) 1)
  else m.

(** [case "enter"]. *)
Definition key_enter (m : model) (msg : Msg)
  : Go.result (model * option Cmd) :=
  if streq (page m) "menu" then
    Go.bind (Go.index (sections m) (cursor m)) (fun target =>
      if streq target "Exit" then Go.Ok (m, Some Quit)
      else
        let m := mkModel (cursor m) (sections m) true progress_New target
                   false (reposList m) (skillsTable m) (errorMsg m) in
        if streq (page m) "Projects"
        then Go.Ok (m, Some FetchGitHubRepos)
        else Go.Ok (m, tickCmd))
  else if streq (page m) "Projects" && loaded m then
    if 0 <? Go.len (Items (reposList m)) then
      match SelectedItem (reposList m) with
      | None =>
          Go.Panic "interface conversion: interface is nil, not main.item"
      | Some selected =>
          if negb (streq (url selected) "")
          then Go.Ok (m, Some (OpenURL (url selected)))
          else after_switch m msg
      end
    else after_switch m msg
  else after_switch m msg.

(** [case "b"]. *)
Definition key_b (m : model) : model :=
  if negb (streq (page m) "menu") then
    mkModel 0 (sections m) (loading m) (progress m) "menu" false
      (reposList m) (skillsTable m) (errorMsg m)
  else m.

Definition Update (m : model) (msg : Msg)
  : Go.result (model * option Cmd) :=
  match msg with
  | KeyMsg k =>
      if streq k "q" then Go.Ok (m, Some Quit)
      else if streq k "up" || streq k "k" then after_switch (key_up m) msg
      else if streq k "down" || streq k "j"
           then after_switch (key_down m) msg
      else if streq k "enter" then key_enter m msg
      else if streq k "b" then after_switch (key_b m) msg
      else after_switch m msg
  | WindowSizeMsg width height =>
      let w := Go.sub (Go.sub width (padding * 2)) 4 in
      let w := if maxWidth <? w then maxWidth else w in
      let m := with_progress m (set_progress_Width (progress m) w) in
      let m :=
        if streq (page m) "Projects" then
          let (h, v) := GetFrameSize appStyle in
          with_reposList m
            (SetSize W (reposList m) (Go.sub width h) (Go.sub height v))
        else m in
      Go.Ok (m, None)
  | tickMsg _ =>
      if PrimFloat.eqb (Percent (progress m)) 1%float then
        Go.Ok (with_flags m false true, None)
      else
        let (p, cmd) := IncrPercent (progress m) 0.25%float in
        Go.Ok (with_progress m p, Some (Batch [tickCmd; cmd]))
  | repoMsg repos =>
      let items :=
        map (fun repo => {| title := Name repo;
                            description := Description repo;
                            url := HTMLURL repo |}) repos in
      let m := with_reposList m (SetItems W (reposList m) items) in
      let m := with_flags m false true in
      let (l, statusCmd) :=
        NewStatusMessage (reposList m) statusMessageStyle
          "Press Enter to open selected project in browser" in
      Go.Ok (with_reposList m l, statusCmd)
  | errMsg err =>
      Go.Ok (with_flags (with_errorMsg m err) false true, None)
  | openURLMsg _ => Go.Ok (m, None)
  | progress_FrameMsg f =>
      let (p, cmd) := progress_Update W (progress m) f in
      Go.Ok (with_progress m p, cmd)
  | OtherMsg _ => after_switch m msg
  end.

End Program.

(** [strings.Repeat(s, n)]. *)
Definition Repeat (s : string) (n : Z) : string :=
  String.concat "" (repeat s (Z.to_nat n)).

(** The [for i, section := range m.sections] loop of the menu, from
    index [i] on. *)
Fixpoint menu_lines (cur : Z) (i : Z) (secs : list string) (s : text)
  : text :=
  match secs with
  | [] => s
  | section :: rest =>
      menu_lines cur (i + 1) rest
        (if i =? cur
         then (s +++ Lit (" > " ++ section ++ nl))%text
         else (s +++ Lit ("   " ++ section ++ nl))%text)
  end.

Definition getPageContent (m : model) : text :=
  if streq (page m) "About Me" then
    Lit (nl ++ "About Me:" ++ nl ++
         "I'm a software developer based in France, specializing in software and mobile development but I'm also interested in game development." ++ nl ++
         "I'm currently pursuing an MBA in development and management. I like to learn new languages and frameworks in my free time." ++ nl ++
         "I have a work-study contract at Téïcée as a backend developer." ++ nl)
  else if streq (page m) "Education" then
    Lit (nl ++ "Education:" ++ nl ++
         "2023 - 2025 : Master degree - Fullstack developer" ++ nl ++
         "2022 - 2023 : Bachelor degree - Web developer" ++ nl ++
         "2020 - 2022 : BTEC Higher National Diploma - web and software development" ++ nl)
  else if streq (page m) "Experience" then
    Lit (nl ++ "Experience:" ++ nl ++
         "2022 - today : Fullstack Developer at Téïcée" ++ nl)
  else if streq (page m) "Skills" then
    (Lit (nl ++ "Skills:" ++ nl ++ nl)
     +++ Render baseTableStyle (table_View (skillsTable m)))%text
  else if streq (page m) "Projects" then
    let content := list_View (reposList m) in
    if loaded m
    then (content +++
          Lit (nl ++ nl ++
               "Press Enter to open the selected project in your browser."))%text
    else content
  else if streq (page m) "Contact" then
    Lit (nl ++ "Contact:" ++ nl ++
         "Email: milan.hommet@protonmail.com" ++ nl ++
         "LinkedIn: https://www.linkedin.com/in/milan-hommet-840414315/" ++ nl)
  else Lit (nl ++ "Content for " ++ page m).

Definition View (m : model) : text :=
  let s := Lit "" in
  let titleStyle := [Bold true; Foreground "205"] in
  let s :=
    (s +++ (Render titleStyle (Lit "Welcome to my portfolio - Milan Hommet")
            +++ Lit (nl ++ nl)))%text in
  let s :=
    if negb (streq (errorMsg m) "") then
      (s +++ Lit ("Error: " ++ errorMsg m ++ nl))%text
    else if streq (page m) "menu" then
      let s := menu_lines (cursor m) 0 (sections m) s in
      (s +++ Lit (nl ++ "Controls: ↑/k up • ↓/j down • b back • q quit • ENTER select" ++ nl))%text
    else if loading m then
      let pad := Repeat " " padding in
      let s := (s +++ Lit ("Loading..." ++ nl ++ nl))%text in
      (s +++ (Lit pad +++ progress_View (progress m) +++ Lit nl))%text
    else
      let s := (s +++ getPageContent m)%text in
      let controlsStyle := [Foreground "#888888"] in
      (s +++ (Lit (nl ++ nl)
              +++ Render controlsStyle
                    (Lit "Controls: ↑/k up • ↓/j down • b back • q quit")))%text
  in
  Render appStyle s.

End Main.

(** ** The full-screen program (splash screen, footer clock, stopwatch) *)

Module Splash.

Definition padding : Z := 2.
Definition maxWidth : Z := 9999.

Definition itemStyle : Style := [PaddingLeft 4].
Definition selectedItemStyle : Style := [PaddingLeft 2; Foreground "170"].
Definition appStyle : Style := [Padding [1; 2]; Align Center].
Definition titleStyle : Style :=
  [Foreground "#FFFDF5"; Background "#25A065"; Padding [0; 1]].
Definition statusMessageStyle : Style := [Foreground "#04B575"].
Definition descriptionStyle : Style := [PaddingLeft 4; Foreground "#A49FA5"].
Definition baseTableStyle : Style :=
  [BorderStyle NormalBorder; BorderForeground "240"].

Record model : Type := mkModel {
  cursor : Z;
  sections : list string;
  loading : bool;
  progress : progress_Model;
  page : string;
  loaded : bool;
  reposList : list_Model;
  skillsTable : table_Model;
  errorMsg : string;
  width : Z;
  height : Z;
  showSplash : bool;
  splashTimer : Z;
  stopwatch : stopwatch_Model
}.

Definition with_cursor (m : model) (c : Z) : model :=
  mkModel c (sections m) (loading m) (progress m) (page m) (loaded m)
    (reposList m) (skillsTable m) (errorMsg m) (width m) (height m)
    (showSplash m) (splashTimer m) (stopwatch m).
Definition with_progress (m : model) (p : progress_Model) : model :=
  mkModel (cursor m) (sections m) (loading m) p (page m) (loaded m)
    (reposList m) (skillsTable m) (errorMsg m) (width m) (height m)
    (showSplash m) (splashTimer m) (stopwatch m).
Definition with_reposList (m : model) (l : list_Model) : model :=
  mkModel (cursor m) (sections m) (loading m) (progress m) (page m)
    (loaded m) l (skillsTable m) (errorMsg m) (width m) (height m)
    (showSplash m) (splashTimer m) (stopwatch m).
Definition with_skillsTable (m : model) (t : table_Model) : model :=
  mkModel (cursor m) (sections m) (loading m) (progress m) (page m)
    (loaded m) (reposList m) t (errorMsg m) (width m) (height m)
    (showSplash m) (splashTimer m) (stopwatch m).
Definition with_flags (m : model) (ld done : bool) : model :=
  mkModel (cursor m) (sections m) ld (progress m) (page m) done
    (reposList m) (skillsTable m) (errorMsg m) (width m) (height m)
    (showSplash m) (splashTimer m) (stopwatch m).
Definition with_errorMsg (m : model) (e : string) : model :=
  mkModel (cursor m) (sections m) (loading m) (progress m) (page m)
    (loaded m) (reposList m) (skillsTable m) e (width m) (height m)
    (showSplash m) (splashTimer m) (stopwatch m).
Definition with_size (m : model) (w h : Z) : model :=
  mkModel (cursor m) (sections m) (loading m) (progress m) (page m)
    (loaded m) (reposList m) (skillsTable m) (errorMsg m) w h
    (showSplash m) (splashTimer m) (stopwatch m).
Definition with_splash (m : model) (show : bool) (timer : Z) : model :=
  mkModel (cursor m) (sections m) (loading m) (progress m) (page m)
    (loaded m) (reposList m) (skillsTable m) (errorMsg m) (width m)
    (height m) show timer (stopwatch m).
Definition with_stopwatch (m : model) (s : stopwatch_Model) : model :=
  mkModel (cursor m) (sections m) (loading m) (progress m) (page m)
    (loaded m) (reposList m) (skillsTable m) (errorMsg m) (width m)
    (height m) (showSplash m) (splashTimer m) s.

(** The same in both programs. *)
Definition initializeSkillsTable : table_Model := Main.initializeSkillsTable.
Definition fetchGitHubRepos := Main.fetchGitHubRepos.
Definition openBrowser := Main.openBrowser.
Definition openURL := Main.openURL.

Definition tickCmd : option Cmd := Some (Tick 50).
Definition clockTickCmd : option Cmd := Some (Tick 1000).

Section Program.

Context (W : Widgets).

Definition initialModel : model :=
  let projectList := list_New W [] maxWidth 20 in
  let projectList := SetShowTitle W projectList true in
  let projectList := set_title projectList "GitHub Projects" titleStyle in
  let projectList := SetShowPagination W projectList false in
  let projectList := SetShowStatusBar W projectList false in
  let projectList := SetFilteringEnabled projectList false in
  let skillsTable := initializeSkillsTable in
  {| cursor := 0;
     sections := ["About Me"; "Education"; "Experience"; "Skills";
                  "Projects"; "Contact"; "Exit"];
     loading := false;
     progress := progress_New;
     page := "menu";
     loaded := false;
     reposList := projectList;
     skillsTable := skillsTable;
     errorMsg := "";
     width := maxWidth;
     height := 24;
     showSplash := true;
     splashTimer := 20;
     stopwatch := stopwatch_NewWithInterval 1000 |}.

Definition Init (m : model) : option Cmd :=
  Some (Batch [tickCmd; stopwatch_Init (stopwatch m)]).

(** The statements of [Update] after the second type switch; [swCmd]
    is the command of the stopwatch. *)
Definition after_switch (m : model) (swCmd : option Cmd) (msg : Msg)
  : Go.result (model * option Cmd) :=
  if streq (page m) "Projects" then
    let (l, cmd) := list_Update W (reposList m) msg in
    Go.Ok (with_reposList m l, Some (Batch [cmd; swCmd]))
  else if streq (page m) "Skills" then
    let (t, cmd) := table_Update W (skillsTable m) msg in
    Go.Ok (with_skillsTable m t, cmd)
  else
    let clockCmd := Some (Tick 1000) in
    Go.Ok (m, Some (Batch [swCmd; clockCmd])).

Definition key_up (m : model) : model :=
  if streq (page m) "menu" then
    if 0 <? cursor m then with_cursor m (cursor m - 1) else m
  else if streq (page m) "Projects" then
    with_reposList m (CursorUp (reposList m))
  else if streq (page m) "Skills" then
    with_skillsTable m (MoveUp (skillsTable m) 1)
  else m.

Definition key_down (m : model) : model :=
  if streq (page m) "menu" then
    if cursor m <? Go.len (sections m) - 1
    then with_cursor m (cursor m + 1) else m
  else if streq (page m) "Projects" then
    with_reposList m (CursorDown (reposList m))
  else if streq (page m) "Skills" then
    with_skillsTable m (MoveDown (skillsTable m) 1)
  else m.

Definition key_enter (m : model) (swCmd : option Cmd) (msg : Msg)
  : Go.result (model * option Cmd) :=
  if streq (page m) "menu" then
    Go.bind (Go.index (sections m) (cursor m)) (fun target =>
      if streq target "Exit" then Go.Ok (m, Some Quit)
      else
        let m := mkModel (cursor m) (sections m) true progress_New target
                   false (reposList m) (skillsTable m) (errorMsg m)
                   (width m) (height m) (showSplash m) (splashTimer m)
                   (stopwatch m) in
        if streq (page m) "Projects"
        then Go.Ok (m, Some FetchGitHubRepos)
        else Go.Ok (m, tickCmd))
  else if streq (page m) "Projects" && loaded m then
    if 0 <? Go.len (Items (reposList m)) then
      match SelectedItem (reposList m) with
      | None =>
          Go.Panic "interface conversion: interface is nil, not main.item"
      | Some selected =>
          if negb (streq (url selected) "")
          then Go.Ok (m, Some (OpenURL (url selected)))
          else after_switch m swCmd msg
      end
    else after_switch m swCmd msg
  else after_switch m swCmd msg.

Definition key_b (m : model) : model :=
  if negb (streq (page m) "menu") then
    mkModel 0 (sections m) (loading m) (progress m) "menu" false
      (reposList m) (skillsTable m) (errorMsg m) (width m) (height m)
      (showSplash m) (splashTimer m) (stopwatch m)
  else m.

(** The first block of [Update]: while the splash screen is shown. *)
Definition splash_Update (m : model) (swCmd : option Cmd) (msg : Msg)
  : Go.result (model * option Cmd) :=
  match msg with
  | KeyMsg _ => Go.Ok (with_splash m false (splashTimer m), None)
  | WindowSizeMsg w h => Go.Ok (with_size m w h, None)
  | tickMsg _ =>
      let m := with_splash m (showSplash m) (Go.sub (splashTimer m) 1) in
      if splashTimer m <=? 0
      then Go.Ok (with_splash m false (splashTimer m), None)
      else Go.Ok (m, tickCmd)
  | _ => Go.Ok (m, Some (Batch [swCmd]))
  end.

Definition Update (m : model) (msg : Msg)
  : Go.result (model * option Cmd) :=
  let (sw, swCmd) := stopwatch_Update W (stopwatch m) msg in
  let m := with_stopwatch m sw in
  if showSplash m then splash_Update m swCmd msg
  else
  match msg with
  | KeyMsg k =>
      if streq k "q" then Go.Ok (m, Some Quit)
      else if streq k "up" || streq k "k"
           then after_switch (key_up m) swCmd msg
      else if streq k "down" || streq k "j"
           then after_switch (key_down m) swCmd msg
      else if streq k "enter" then key_enter m swCmd msg
      else if streq k "b" then after_switch (key_b m) swCmd msg
      else after_switch m swCmd msg
  | WindowSizeMsg w h =>
      let m := with_size m w h in
      let pw := Go.sub (Go.sub w (padding * 2)) 4 in
      let pw := if maxWidth <? pw then maxWidth else pw in
      let m := with_progress m (set_progress_Width (progress m) pw) in
      let m :=
        if streq (page m) "Projects" then
          let (fh, fv) := GetFrameSize appStyle in
          with_reposList m
            (SetSize W (reposList m) (Go.sub w fh)
               (Go.sub (Go.sub h fv) 10))
        else m in
      let m :=
        if streq (page m) "Skills" then
          with_skillsTable m
            (SetHeight (SetWidth (skillsTable m) (Go.sub w 20))
               (Go.sub h 15))
        else m in
      Go.Ok (m, None)
  | tickMsg _ =>
      if PrimFloat.eqb (Percent (progress m)) 1%float then
        Go.Ok (with_flags m false true, None)
      else
        let (p, cmd) := IncrPercent (progress m) 0.25%float in
        Go.Ok (with_progress m p, Some (Batch [tickCmd; cmd]))
  | repoMsg repos =>
      let items :=
        map (fun repo => {| title := Name repo;
                            description := Description repo;
                            url := HTMLURL repo |}) repos in
      let m := with_reposList m (SetItems W (reposList m) items) in
      let m := with_flags m false true in
      let (l, statusCmd) :=
        NewStatusMessage (reposList m) statusMessageStyle
          "Press Enter to open selected project in browser" in
      Go.Ok (with_reposList m l, statusCmd)
  | errMsg err =>
      Go.Ok (with_flags (with_errorMsg m err) false true, None)
  | openURLMsg _ => Go.Ok (m, None)
  | progress_FrameMsg f =>
      let (p, cmd) := progress_Update W (progress m) f in
      Go.Ok (with_progress m p, cmd)
  | OtherMsg _ => after_switch m swCmd msg
  end.

End Program.

Section Rendering.

Context (W : Widgets).

(** The ASCII art of the splash screen: a constant of the package that
    is declared in another file. *)
Context (nameArt : string).

Definition getPageContent (m : model) : text :=
  let contentStyle := [Align Center; Width (Go.sub (width m) 10)] in
  if streq (page m) "About Me" then
    Render contentStyle
      (Lit (nl ++ "About Me:" ++ nl ++
            "I'm a software developer based in France, specializing in software and mobile development but I'm also interested in game development." ++ nl ++
            "I'm currently pursuing an MBA in development and management. I like to learn new languages and frameworks in my free time." ++ nl ++
            "I have a work-study contract at T√©√Øc√©e as a backend developer." ++ nl))
  else if streq (page m) "Education" then
    Render contentStyle
      (Lit (nl ++ "Education:" ++ nl ++
            "2023 - 2025 : Master degree - Fullstack developer" ++ nl ++
            "2022 - 2023 : Bachelor degree - Web developer" ++ nl ++
            "2020 - 2022 : BTEC Higher National Diploma - web and software development" ++ nl))
  else if streq (page m) "Experience" then
    Render contentStyle
      (Lit (nl ++ "Experience:" ++ nl ++
            "2022 - today : Fullstack Developer at T√©√Øc√©e" ++ nl))
  else if streq (page m) "Skills" then
    let tableContent :=
      (Lit (nl ++ "Skills:" ++ nl ++ nl)
       +++ Render baseTableStyle (table_View (skillsTable m)))%text in
    Render contentStyle tableContent
  else if streq (page m) "Projects" then
    let content := list_View (reposList m) in
    if loaded m
    then (content +++
          Lit (nl ++ nl ++
               "Press Enter to open the selected project in your browser."))%text
    else content
  else if streq (page m) "Contact" then
    Render contentStyle
      (Lit (nl ++ "Contact:" ++ nl ++
            "Email: milan.hommet@protonmail.com" ++ nl ++
            "LinkedIn: https://www.linkedin.com/in/milan-hommet-840414315/" ++ nl))
  else Render contentStyle (Lit (nl ++ "Content for " ++ page m)).

(** The splash screen. *)
Definition splash_View (m : model) : text :=
  let mainStyle :=
    [Width (width m); Height (height m); Align Center;
     AlignVertical Center] in
  let containerStyle :=
    [Width 80; Align Center; Border NormalBorder;
     BorderForeground "#8A2BE2"; Padding [1; 2]] in
  let nameStyle := [Foreground "#4287f5"; Align Center; Width 76] in
  let titleStyle :=
    [Bold true; Foreground "#ff66c4"; Align Center; Width 76;
     MarginTop 1] in
  let artBox := Render nameStyle (Lit nameArt) in
  let title :=
    Render titleStyle (Lit "Milan Hommet - Fullstack Developer") in
  let content := (artBox +++ Lit nl +++ title)%text in
  let containerContent := Render containerStyle content in
  Render mainStyle containerContent.

(** [View]; [now] is what [time.Now()] returns during the call. *)
Definition View (m : model) (now : Go.Time) : text :=
  if showSplash m then splash_View m
  else
  let mainStyle :=
    [Width (width m); Height (Go.sub (height m) 4); Align Center;
     AlignVertical Center] in
  let innerStyle := [Width (Go.sub (width m) 4); Align Center] in
  let headerContainerStyle :=
    [Width (width m); BorderBottom true; BorderStyle RoundedBorder;
     BorderForeground "#8A2BE2"] in
  let nameStyle :=
    [Foreground "#4287f5"; Bold true; PaddingLeft 4; Width 30] in
  let jobStyle :=
    [Foreground "#ff66c4"; Bold true; PaddingRight 4; Align Right;
     Width 30] in
  let leftContent := Render nameStyle (Lit "Milan Hommet") in
  let rightContent := Render jobStyle (Lit "Fullstack Developer") in
  let header :=
    Render headerContainerStyle
      (JoinHorizontal Center
         [leftContent;
          Render
            [Width (Go.sub (Go.sub (width m) (lipgloss_Width W leftContent))
                      (lipgloss_Width W rightContent))]
            (Lit "");
          rightContent]) in
  let footerStyle :=
    [Width (width m); BorderTop true; BorderStyle RoundedBorder;
     BorderForeground "#8A2BE2"] in
  let clockText :=
    Render [Foreground "#888888"; PaddingLeft 4; Width 20]
      (Lit ("üïí " ++ Go.Format_15_04_05 now)) in
  let timerText :=
    Render [Foreground "#888888"; Align Right; PaddingRight 4; Width 20]
      (Lit "‚è± " +++ stopwatch_View (stopwatch m))%text in
  let footer :=
    Render footerStyle
      (JoinHorizontal Center
         [clockText;
          Render
            [Width (Go.sub (Go.sub (width m) (lipgloss_Width W clockText))
                      (lipgloss_Width W timerText))]
            (Lit "");
          timerText]) in
  let inner := Lit "" in
  let titleStyle :=
    [Bold true; Foreground "205"; Align Center;
     Width (Go.sub (width m) 4)] in
  let inner :=
    (inner +++ (Render titleStyle (Lit "Welcome to my portfolio")
                +++ Lit (nl ++ nl)))%text in
  let content :=
    if negb (streq (errorMsg m) "") then
      Lit ("Error: " ++ errorMsg m ++ nl)
    else if streq (page m) "menu" then
      let menuStyle := [Align Center; Width (Go.sub (width m) 4)] in
      let menuContent :=
        Main.menu_lines (cursor m) 0 (sections m) (Lit "") in
      let content := Render menuStyle menuContent in
      let controlsStyle := [Align Center; Width (Go.sub (width m) 4)] in
      (content +++ (Lit nl +++ Render controlsStyle
                      (Lit "Controls: ‚Üë/k up ‚Ä¢ ‚Üì/j down ‚Ä¢ b back ‚Ä¢ q quit ‚Ä¢ ENTER select")))%text
    else if loading m then
      let loadingStyle := [Align Center; Width (Go.sub (width m) 4)] in
      let content :=
        (Render loadingStyle (Lit "Loading...") +++ Lit (nl ++ nl))%text in
      (content +++ (progress_View (progress m) +++ Lit nl))%text
    else
      let content := getPageContent m in
      let controlsStyle :=
        [Foreground "#888888"; Align Center;
         Width (Go.sub (width m) 4)] in
      (content +++ (Lit (nl ++ nl) +++ Render controlsStyle
                      (Lit "Controls: ‚Üë/k up ‚Ä¢ ‚Üì/j down ‚Ä¢ b back ‚Ä¢ q quit")))%text
  in
  let inner := (inner +++ content)%text in
  (header +++ Lit nl +++ Render mainStyle (Render innerStyle inner)
   +++ Lit nl +++ footer)%text.

End Rendering.

End Splash.

(** ** Vocabulary of the properties *)

Module Props.

(** The event loop without its rendering: the messages are applied in
    order, the commands are dropped, a panic ends the run. *)
Fixpoint Main_run (W : Widgets) (m : Main.model) (msgs : list Msg)
  : Go.result Main.model :=
  match msgs with
  | [] => Go.Ok m
  | msg :: rest =>
      Go.bind (Main.Update W m msg) (fun r => Main_run W (fst r) rest)
  end.

Fixpoint Splash_run (W : Widgets) (m : Splash.model) (msgs : list Msg)
  : Go.result Splash.model :=
  match msgs with
  | [] => Go.Ok m
  | msg :: rest =>
      Go.bind (Splash.Update W m msg) (fun r => Splash_run W (fst r) rest)
  end.

(** The keys of a "move" event. *)
Definition is_up (k : string) : bool := streq k "up" || streq k "k".
Definition is_down (k : string) : bool := streq k "down" || streq k "j".
Definition is_move (k : string) : bool := is_up k || is_down k.

(** A cursor that moves by one and stops at both ends of [0, n-1]. *)
Definition clamped_move (n : Z) (c : Z) (k : string) : Z :=
  if is_up k then Z.max 0 (c - 1) else Z.min (n - 1) (c + 1).

(** The values a progress target takes in the programs. *)
Definition quarter (p : float) : Prop :=
  p = 0%float \/ p = 0.25%float \/ p = 0.5%float \/ p = 0.75%float
  \/ p = 1%float.

(** The target after [n] increments of 0.25 from 0. *)
Definition quarters (n : nat) : float :=
  match n with
  | O => 0%float
  | 1%nat => 0.25%float
  | 2%nat => 0.5%float
  | 3%nat => 0.75%float
  | _ => 1%float
  end.

(** [a <= b] on float64. *)
Definition fle (a b : float) : Prop := PrimFloat.leb a b = true.

(** The three ways a fetch fails, on the answer of [http.Get]. *)
Inductive fetch_failure : GetResult -> Prop :=
| transport_error (err : Go.error) : fetch_failure (GetFailed err)
| non_2xx_status (resp : Response) :
    ~ (200 <= StatusCode resp < 300) -> fetch_failure (GetResponse resp)
| malformed_body (resp : Response) (err : Go.error) :
    body resp = Malformed err -> fetch_failure (GetResponse resp).

(** The errors of the libraries in an answer have a text. *)
Definition errors_have_text (a : GetResult) : Prop :=
  match a with
  | GetFailed err => err <> ""
  | GetResponse resp =>
      match body resp with
      | Malformed err => err <> ""
      | Decoded _ => True
      end
  end.


Definition repos_url : string :=
  "https://api.github.com/users/mhommet/repos?sort=updated&per_page=100".

(** The failure of a fetch answered with status 404. *)
Definition not_found : Msg :=
  Main.fetchGitHubRepos
    (fun _ => GetResponse
                {| StatusCode := 404; Status := "404 Not Found";
                   body := Decoded [] |}).

(** [isLoaded] implies that [isLoading] is false. *)
Definition Main_inv (m : Main.model) : Prop :=
  Main.loaded m = true -> Main.loading m = false.
Definition Splash_inv (s : Splash.model) : Prop :=
  Splash.loaded s = true -> Splash.loading s = false.

(** The model a run ends with ([d] after a panic). *)
Definition final {A : Type} (d : A) (r : Go.result A) : A :=
  match r with
  | Go.Ok a => a
  | Go.Panic _ => d
  end.

(** main.go after the user has moved to "Projects" and pressed enter. *)
Definition Main_projects : Main.model :=
  final (Main.initialModel reference)
    (Main_run reference (Main.initialModel reference)
       [KeyMsg "down"; KeyMsg "down"; KeyMsg "down"; KeyMsg "down";
        KeyMsg "enter"]).

(** The full-screen program after a key has closed the splash screen. *)
Definition Splash_menu : Splash.model :=
  final (Splash.initialModel reference)
    (Splash_run reference (Splash.initialModel reference) [KeyMsg " "]).

(** The same, after the user has moved to "Projects" and pressed enter. *)
Definition Splash_projects : Splash.model :=
  final Splash_menu
    (Splash_run reference Splash_menu
       [KeyMsg "down"; KeyMsg "down"; KeyMsg "down"; KeyMsg "down";
        KeyMsg "enter"]).

(** The state [k] ticks after a page was entered. *)
Definition Main_ticked (k : nat) (m : Main.model) : Prop :=
  Percent (Main.progress m) = quarters k
  /\ Main.loading m = (k <? 5)%nat
  /\ Main.loaded m = (5 <=? k)%nat.
Definition Splash_ticked (k : nat) (s : Splash.model) : Prop :=
  Splash.showSplash s = false
  /\ Percent (Splash.progress s) = quarters k
  /\ Splash.loading s = (k <? 5)%nat
  /\ Splash.loaded s = (5 <=? k)%nat.

(** Three repositories, and the one that is left of them later. *)
Definition three_repos : list githubRepo :=
  [mkRepo "cli_portfolio" "Portfolio in the terminal"
     "https://github.com/mhommet/cli_portfolio";
   mkRepo "dotfiles" "" "https://github.com/mhommet/dotfiles";
   mkRepo "notes" "" "https://github.com/mhommet/notes"].
Definition one_repo : list githubRepo :=
  [mkRepo "cli_portfolio" "Portfolio in the terminal"
     "https://github.com/mhommet/cli_portfolio"].

(** A record whose JSON object has no [html_url]. *)
Definition repo_without_url : githubRepo := mkRepo "notes" "" "".

(** Three repositories are listed, the user moves down, goes back to the
    menu and opens Projects again; the second fetch answers with one
    repository, and the user presses enter. *)
Definition shorter_refetch : list Msg :=
  [repoMsg three_repos; KeyMsg "down"; KeyMsg "b";
   KeyMsg "down"; KeyMsg "down"; KeyMsg "down"; KeyMsg "down";
   KeyMsg "enter"; repoMsg one_repo; KeyMsg "enter"].

(** main.go with the three repositories listed. *)
Definition Main_listed : Main.model :=
  final Main_projects
    (Main_run reference Main_projects [repoMsg three_repos]).

(** The messages of a run but the last. *)
Definition before_last (msgs : list Msg) : list Msg := removelast msgs.

Definition nil_assertion : string :=
  "interface conversion: interface is nil, not main.item".

(** The error banner of main.go for the text [e]. *)
Definition Main_banner (e : string) : text :=
  Render Main.appStyle
    (Lit ""
     +++ (Render [Bold true; Foreground "205"]
            (Lit "Welcome to my portfolio - Milan Hommet")
          +++ Lit (nl ++ nl))
     +++ Lit ("Error: " ++ e ++ nl))%text.

(** A starter that fails with the same error whatever it is asked to run,
    and one that always succeeds. *)
Definition failing_starter (e : Go.error) : Starter := fun _ _ => Some e.
Definition working_starter : Starter := fun _ _ => None.

Definition is_errMsg (msg : Msg) : bool :=
  match msg with
  | errMsg _ => true
  | _ => false
  end.

(** The cursor is inside the menu. *)
Definition Main_cursor_ok (m : Main.model) : Prop :=
  0 <= Main.cursor m <= Go.len (Main.sections m) - 1.
Definition Splash_cursor_ok (s : Splash.model) : Prop :=
  0 <= Splash.cursor s <= Go.len (Splash.sections s) - 1.

(** The page is the menu or one of the sections, and never "Exit". *)
Definition Main_page_ok (m : Main.model) : Prop :=
  Main.page m = "menu"
  \/ (In (Main.page m) (Main.sections m) /\ Main.page m <> "Exit").
Definition Splash_page_ok (s : Splash.model) : Prop :=
  Splash.page s = "menu"
  \/ (In (Splash.page s) (Splash.sections s) /\ Splash.page s <> "Exit").

(** What the widgets' handlers cannot touch in main.go. *)
Definition Main_core (m : Main.model)
  : Z * list string * string * string * bool * bool * progress_Model :=
  (Main.cursor m, Main.sections m, Main.page m, Main.errorMsg m,
   Main.loading m, Main.loaded m, Main.progress m).

(** No handler of the widgets asks for a browser launch. *)
Definition widgets_never_open (W : Widgets) : Prop :=
  (forall l msg u, snd (list_Update W l msg) <> Some (OpenURL u))
  /\ (forall t msg u, snd (table_Update W t msg) <> Some (OpenURL u))
  /\ (forall p f u, snd (progress_animate W p f) <> Some (OpenURL u)).

(** main.go from its first state. *)
Definition Main_from_start (W : Widgets) (msgs : list Msg)
  : Go.result Main.model :=
  Main_run W (Main.initialModel W) msgs.
Definition Splash_from_start (W : Widgets) (msgs : list Msg)
  : Go.result Splash.model :=
  Splash_run W (Splash.initialModel W) msgs.

(** The user opens Projects from the first state of main.go. *)
Definition open_projects : list Msg :=
  [KeyMsg "down"; KeyMsg "down"; KeyMsg "down"; KeyMsg "down";
   KeyMsg "enter"].

(** One line of the menu: the section at position [i], marked when the
    cursor is on it. *)
Definition menu_line (cur i : Z) (section : string) : string :=
  (if i =? cur then " > " else "   ") ++ section ++ nl.

(** The literals [ls] appended to the text [s], one [+=] each. *)
Definition append_lines (s : text) (ls : list string) : text :=
  fold_left (fun acc l => Cat acc (Lit l)) ls s.


End Props.
Import Props.

(** * Proofs *)

(** ** Strings and keys *)

Lemma streq_true (a b : string) : streq a b = true <-> a = b.
Proof. unfold streq. apply String.eqb_eq. Qed.

Lemma streq_false (a b : string) : streq a b = false <-> a <> b.
Proof. unfold streq. apply String.eqb_neq. Qed.

Lemma streq_refl (a : string) : streq a a = true.
Proof. apply streq_true. reflexivity. Qed.

Lemma is_move_cases (k : string) :
  is_move k = true -> k = "up" \/ k = "k" \/ k = "down" \/ k = "j".
Proof.
  unfold is_move, is_up, is_down. intro H.
  repeat (apply orb_prop in H; destruct H as [H | H]);
    apply streq_true in H; auto.
Qed.

Ltac move_key H :=
  destruct (is_move_cases _ H) as [-> | [-> | [-> | ->]]].

(** ** The menu cursor *)

Section MenuCursor.

Context (W : Widgets).

Lemma Main_move_on_menu (m : Main.model) (k : string) :
  Main.page m = "menu" -> is_move k = true ->
  Main.Update W m (KeyMsg k)
  = Go.Ok (Main.with_cursor m
             (if is_up k
              then if 0 <? Main.cursor m then Main.cursor m - 1
                   else Main.cursor m
              else if Main.cursor m <? Go.len (Main.sections m) - 1
                   then Main.cursor m + 1 else Main.cursor m), None).
Proof.
  intros Hp Hk. destruct m as [c secs ld pr pg done rl st e].
  simpl in Hp. subst pg.
  move_key Hk; cbn;
    unfold Main.key_up, Main.key_down, Main.after_switch; cbn;
    try (destruct (0 <? c); reflexivity);
    destruct (c <? Go.len secs - 1); reflexivity.
Qed.

Lemma clamped_move_up (n c : Z) (k : string) :
  0 <= c <= n - 1 -> is_up k = true ->
  (if 0 <? c then c - 1 else c) = clamped_move n c k.
Proof.
  intros Hc Hk. unfold clamped_move. rewrite Hk.
  destruct (Z.ltb_spec 0 c); lia.
Qed.

Lemma clamped_move_down (n c : Z) (k : string) :
  0 <= c <= n - 1 -> is_up k = false ->
  (if c <? n - 1 then c + 1 else c) = clamped_move n c k.
Proof.
  intros Hc Hk. unfold clamped_move. rewrite Hk.
  destruct (Z.ltb_spec c (n - 1)); lia.
Qed.

Lemma clamped_move_range (n c : Z) (k : string) :
  0 <= c <= n - 1 -> 0 <= clamped_move n c k <= n - 1.
Proof. intros Hc. unfold clamped_move. destruct (is_up k); lia. Qed.

End MenuCursor.

Section MenuCursorRuns.

Context (W : Widgets).

Lemma Splash_move_on_menu (s : Splash.model) (k : string) :
  Splash.page s = "menu" -> is_move k = true ->
  exists s' cmd,
    Splash.Update W s (KeyMsg k) = Go.Ok (s', cmd)
    /\ Splash.page s' = "menu"
    /\ Splash.sections s' = Splash.sections s
    /\ Splash.showSplash s' = false
    /\ Splash.cursor s'
       = if Splash.showSplash s then Splash.cursor s
         else if is_up k
              then if 0 <? Splash.cursor s then Splash.cursor s - 1
                   else Splash.cursor s
              else if Splash.cursor s <? Go.len (Splash.sections s) - 1
                   then Splash.cursor s + 1 else Splash.cursor s.
Proof.
  intros Hp Hk.
  destruct s as [c secs ld pr pg done rl st e w h show timer sw].
  simpl in Hp. subst pg. unfold Splash.Update. cbn.
  destruct (stopwatch_Update W sw (KeyMsg k)) as [sw' swCmd]. cbn.
  destruct show; cbn.
  - do 2 eexists. repeat split.
  - move_key Hk; cbn;
      unfold Splash.key_up, Splash.key_down, Splash.after_switch; cbn;
      destruct (0 <? c), (c <? Go.len secs - 1); cbn;
      do 2 eexists; repeat split.
Qed.

Lemma Main_moves (ks : list string) :
  Forall (fun k => is_move k = true) ks ->
  forall m : Main.model,
    Main.page m = "menu" ->
    0 <= Main.cursor m <= Go.len (Main.sections m) - 1 ->
    exists m',
      Main_run W m (map KeyMsg ks) = Go.Ok m'
      /\ Main.page m' = "menu"
      /\ Main.sections m' = Main.sections m
      /\ Main.cursor m'
         = fold_left (clamped_move (Go.len (Main.sections m))) ks
             (Main.cursor m)
      /\ 0 <= Main.cursor m' <= Go.len (Main.sections m) - 1.
Proof.
  induction 1 as [| k ks Hk _ IH]; intros m Hp Hc.
  - exists m. cbn. auto.
  - cbn [map Main_run]. rewrite (Main_move_on_menu W m k Hp Hk).
    cbn [Go.bind fst].
    set (c' := if is_up k then _ else _).
    assert (Hc' : c' = clamped_move (Go.len (Main.sections m))
                         (Main.cursor m) k).
    { subst c'. destruct (is_up k) eqn:Hu.
      - now apply clamped_move_up.
      - now apply clamped_move_down. }
    destruct (IH (Main.with_cursor m c')) as (m' & Hr & Hp' & Hs' & Hf & Hb).
    + exact Hp.
    + cbn. rewrite Hc'. now apply clamped_move_range.
    + exists m'. cbn in Hs', Hf, Hb. rewrite Hc' in Hf. cbn [fold_left].
      auto.
Qed.

Lemma Splash_moves (ks : list string) :
  Forall (fun k => is_move k = true) ks ->
  forall s : Splash.model,
    Splash.page s = "menu" ->
    0 <= Splash.cursor s <= Go.len (Splash.sections s) - 1 ->
    exists s',
      Splash_run W s (map KeyMsg ks) = Go.Ok s'
      /\ Splash.page s' = "menu"
      /\ Splash.sections s' = Splash.sections s
      /\ 0 <= Splash.cursor s' <= Go.len (Splash.sections s) - 1
      /\ (Splash.showSplash s = false ->
          Splash.cursor s'
          = fold_left (clamped_move (Go.len (Splash.sections s))) ks
              (Splash.cursor s)).
Proof.
  induction 1 as [| k ks Hk _ IH]; intros s Hp Hc.
  - exists s. cbn. auto.
  - cbn [map Splash_run].
    destruct (Splash_move_on_menu s k Hp Hk)
      as (s1 & cmd & Hu & Hp1 & Hs1 & Hsh1 & Hc1).
    rewrite Hu. cbn [Go.bind fst].
    assert (Hstep : Splash.showSplash s = false ->
              Splash.cursor s1
              = clamped_move (Go.len (Splash.sections s))
                  (Splash.cursor s) k).
    { intro Hsh. rewrite Hsh in Hc1. rewrite Hc1.
      destruct (is_up k) eqn:Hup.
      - now apply clamped_move_up.
      - now apply clamped_move_down. }
    assert (Hr1 : 0 <= Splash.cursor s1 <= Go.len (Splash.sections s) - 1).
    { destruct (Splash.showSplash s) eqn:Hsh.
      - rewrite Hc1. exact Hc.
      - rewrite (Hstep eq_refl). now apply clamped_move_range. }
    destruct (IH s1) as (s' & Hr & Hp' & Hs' & Hb & Hf).
    + exact Hp1.
    + rewrite Hs1. exact Hr1.
    + exists s'. rewrite Hs1 in Hs', Hb, Hf.
      repeat split; try tauto.
      intro Hsh. cbn [fold_left]. rewrite <- (Hstep Hsh). now apply Hf.
Qed.

End MenuCursorRuns.

(** C1.  On the menu, every sequence of move keys (up, k, down, j) keeps the
    cursor inside [0, sectionCount-1]: the run returns, the page stays the
    menu, and the cursor is the one of a counter that moves by one and stops
    at 0 and at sectionCount-1 (no wrap-around).  In the full-screen program
    the same holds once the splash screen is gone; a key pressed on the
    splash screen leaves the cursor where it is. *)
Theorem menu_cursor_stays_in_range
    (W : Widgets) (m : Main.model) (s : Splash.model) (ks : list string) :
  Forall (fun k => is_move k = true) ks ->
  Main.page m = "menu" ->
  0 <= Main.cursor m <= Go.len (Main.sections m) - 1 ->
  Splash.page s = "menu" ->
  0 <= Splash.cursor s <= Go.len (Splash.sections s) - 1 ->
  (exists m',
      Main_run W m (map KeyMsg ks) = Go.Ok m'
      /\ Main.page m' = "menu"
      /\ Main.cursor m'
         = fold_left (clamped_move (Go.len (Main.sections m))) ks
             (Main.cursor m)
      /\ 0 <= Main.cursor m' <= Go.len (Main.sections m') - 1)
  /\ (exists s',
         Splash_run W s (map KeyMsg ks) = Go.Ok s'
         /\ Splash.page s' = "menu"
         /\ (Splash.showSplash s = false ->
             Splash.cursor s'
             = fold_left (clamped_move (Go.len (Splash.sections s))) ks
                 (Splash.cursor s))
         /\ 0 <= Splash.cursor s' <= Go.len (Splash.sections s') - 1).
Proof.
  intros Hks Hp Hc Hp2 Hc2. split.
  - destruct (Main_moves W ks Hks m Hp Hc) as (m' & Hr & Hp' & Hs & Hf & Hb).
    exists m'. rewrite Hs. auto.
  - destruct (Splash_moves W ks Hks s Hp2 Hc2)
      as (s' & Hr & Hp' & Hs & Hb & Hf).
    exists s'. rewrite Hs. auto.
Qed.

(** At the two ends the cursor does not move. *)
Lemma clamped_move_at_ends (n : Z) :
  0 < n ->
  clamped_move n 0 "up" = 0 /\ clamped_move n 0 "k" = 0
  /\ clamped_move n (n - 1) "down" = n - 1
  /\ clamped_move n (n - 1) "j" = n - 1.
Proof. intro Hn. unfold clamped_move. cbn. lia. Qed.

Lemma menu_cursor_stays_in_range_witness :
  (exists m',
      Main_run reference (Main.initialModel reference)
        (map KeyMsg ["up"; "down"; "j"]) = Go.Ok m'
      /\ Main.page m' = "menu"
      /\ Main.cursor m'
         = fold_left
             (clamped_move
                (Go.len (Main.sections (Main.initialModel reference))))
             ["up"; "down"; "j"] (Main.cursor (Main.initialModel reference))
      /\ 0 <= Main.cursor m' <= Go.len (Main.sections m') - 1)
  /\ (exists s',
         Splash_run reference (Splash.initialModel reference)
           (map KeyMsg ["up"; "down"; "j"]) = Go.Ok s'
         /\ Splash.page s' = "menu"
         /\ (Splash.showSplash (Splash.initialModel reference) = false ->
             Splash.cursor s'
             = fold_left
                 (clamped_move
                    (Go.len (Splash.sections (Splash.initialModel reference))))
                 ["up"; "down"; "j"]
                 (Splash.cursor (Splash.initialModel reference)))
         /\ 0 <= Splash.cursor s' <= Go.len (Splash.sections s') - 1).
Proof.
  apply (menu_cursor_stays_in_range reference (Main.initialModel reference)
           (Splash.initialModel reference) ["up"; "down"; "j"]).
  - repeat constructor.
  - reflexivity.
  - vm_compute. split; discriminate.
  - reflexivity.
  - vm_compute. split; discriminate.
Defined.

(** ** Back after a failed fetch *)

(** C2, as stated, fails: after the failed fetch of the Projects page, the
    "b" key returns to the menu with cursor 0 but the error text is still
    there. *)
Lemma back_does_not_clear_error :
  exists m',
    Main_run reference (Main.initialModel reference)
      [KeyMsg "down"; KeyMsg "down"; KeyMsg "down"; KeyMsg "down";
       KeyMsg "enter"; not_found; KeyMsg "b"] = Go.Ok m'
    /\ Main.page m' = "menu"
    /\ Main.cursor m' = 0
    /\ Main.errorMsg m' = "failed to fetch repositories: 404 Not Found"
    /\ Main.errorMsg m' <> "".
Proof.
  eexists. split; [vm_compute; reflexivity |].
  cbn. repeat split. discriminate.
Qed.

(** C2, amended.  After a fetch failure has set errorMsg, the "b" key on a
    content page returns to the menu with cursor 0 and loaded false, and
    leaves errorMsg as it is: the frame is still the error banner. *)
Theorem back_after_fetch_failure
    (W : Widgets) (m : Main.model) (s : Splash.model) (e : string) :
  Main.page m <> "menu" ->
  Splash.page s <> "menu" ->
  Splash.showSplash s = false ->
  e <> "" ->
  (exists m1 m2,
      Main.Update W m (errMsg e) = Go.Ok (m1, None)
      /\ Main.errorMsg m1 = e
      /\ Main.Update W m1 (KeyMsg "b") = Go.Ok (m2, None)
      /\ Main.page m2 = "menu"
      /\ Main.cursor m2 = 0
      /\ Main.loaded m2 = false
      /\ Main.errorMsg m2 = e
      /\ Main.View m2
         = Render Main.appStyle
             (Lit ""
              +++ (Render [Bold true; Foreground "205"]
                     (Lit "Welcome to my portfolio - Milan Hommet")
                   +++ Lit (nl ++ nl))
              +++ Lit ("Error: " ++ e ++ nl))%text)
  /\ (exists s1 s2 cmd,
         Splash.Update W s (errMsg e) = Go.Ok (s1, None)
         /\ Splash.errorMsg s1 = e
         /\ Splash.Update W s1 (KeyMsg "b") = Go.Ok (s2, cmd)
         /\ Splash.page s2 = "menu"
         /\ Splash.cursor s2 = 0
         /\ Splash.loaded s2 = false
         /\ Splash.errorMsg s2 = e).
Proof.
  intros Hp Hp2 Hsh He. split.
  - destruct m as [c secs ld pr pg done rl st e0]. cbn in Hp.
    apply streq_false in Hp. unfold streq in Hp.
    do 2 eexists. split; [reflexivity |]. split; [reflexivity |].
    cbn. unfold Main.key_b, Main.after_switch. cbn. rewrite Hp. cbn.
    split; [reflexivity |]. repeat (split; [reflexivity |]).
    unfold Main.View. cbn.
    apply streq_false in He. unfold streq in He. rewrite He. reflexivity.
  - destruct s as [c secs ld pr pg done rl st e0 w h show timer sw].
    cbn in Hp2, Hsh. subst show. apply streq_false in Hp2.
    unfold streq in Hp2.
    destruct (stopwatch_Update W sw (errMsg e)) as [sw1 c1] eqn:E1.
    destruct (stopwatch_Update W sw1 (KeyMsg "b")) as [sw2 c2] eqn:E2.
    do 3 eexists.
    split; [unfold Splash.Update; cbn; rewrite E1; reflexivity |].
    split; [reflexivity |].
    split.
    + unfold Splash.Update. cbn. rewrite E2. cbn.
      unfold Splash.key_b, Splash.after_switch. cbn. rewrite Hp2. cbn.
      reflexivity.
    + repeat split.
Qed.

(** ** Quit *)

(** C8, as stated, fails: on the splash screen, the first state of the
    full-screen program, the "q" key only closes the splash screen. *)
Lemma q_on_splash_screen_does_not_quit :
  exists s',
    Splash.Update reference (Splash.initialModel reference) (KeyMsg "q")
    = Go.Ok (s', None)
    /\ Splash.showSplash s' = false
    /\ Splash.page s' = "menu".
Proof. eexists. split; [vm_compute; reflexivity |]. split; reflexivity. Qed.

(** C8, amended.  In main.go the "q" key ends the program from every
    state, whatever the page and the flags.  In the full-screen program it
    does so from every state in which the splash screen is gone; while the
    splash screen is shown it closes the splash screen and nothing else. *)
Theorem q_quits_outside_splash
    (W : Widgets) (m : Main.model) (s : Splash.model) :
  Main.Update W m (KeyMsg "q") = Go.Ok (m, Some Quit)
  /\ Splash.Update W s (KeyMsg "q")
     = let s1 :=
         Splash.with_stopwatch s
           (fst (stopwatch_Update W (Splash.stopwatch s) (KeyMsg "q"))) in
       if Splash.showSplash s
       then Go.Ok (Splash.with_splash s1 false (Splash.splashTimer s), None)
       else Go.Ok (s1, Some Quit).
Proof.
  split; [reflexivity |].
  unfold Splash.Update.
  destruct (stopwatch_Update W (Splash.stopwatch s) (KeyMsg "q")) as [sw c].
  cbn. destruct (Splash.showSplash s); reflexivity.
Qed.

(** ** Select on the menu *)

(** C5, as stated, fails: in the first state of the full-screen program the
    page is the menu and the cursor is on "About Me", but the splash screen
    is shown and the enter key only closes it: no page is entered, loading
    stays false and no command is returned. *)
Lemma enter_on_splash_screen_selects_nothing :
  Splash.page (Splash.initialModel reference) = "menu"
  /\ Go.index (Splash.sections (Splash.initialModel reference))
       (Splash.cursor (Splash.initialModel reference)) = Go.Ok "About Me"
  /\ exists s',
       Splash.Update reference (Splash.initialModel reference)
         (KeyMsg "enter") = Go.Ok (s', None)
       /\ Splash.page s' = "menu"
       /\ Splash.loading s' = false
       /\ Splash.showSplash s' = false.
Proof.
  split; [reflexivity |]. split; [reflexivity |].
  eexists. split; [vm_compute; reflexivity |]. repeat split.
Qed.

(** C5, amended.  On the menu (in the full-screen program: once the splash
    screen is gone), the enter key on the "Exit" entry returns the quit
    command; on any other entry it moves to that page with loading true,
    loaded false and a fresh progress bar, and the command is the fetch
    exactly when the page is Projects, and the first tick otherwise. *)
Theorem select_on_menu
    (W : Widgets) (m : Main.model) (s : Splash.model) (target : string) :
  Main.page m = "menu" ->
  Go.index (Main.sections m) (Main.cursor m) = Go.Ok target ->
  Splash.page s = "menu" ->
  Splash.showSplash s = false ->
  Go.index (Splash.sections s) (Splash.cursor s) = Go.Ok target ->
  (target = "Exit" ->
   Main.Update W m (KeyMsg "enter") = Go.Ok (m, Some Quit)
   /\ exists s', Splash.Update W s (KeyMsg "enter") = Go.Ok (s', Some Quit))
  /\ (target <> "Exit" ->
      (exists m' cmd,
          Main.Update W m (KeyMsg "enter") = Go.Ok (m', cmd)
          /\ Main.page m' = target
          /\ Main.loading m' = true
          /\ Main.loaded m' = false
          /\ Percent (Main.progress m') = 0%float
          /\ (cmd = Some FetchGitHubRepos <-> target = "Projects")
          /\ (target <> "Projects" -> cmd = Some (Tick 50)))
      /\ (exists s' cmd,
             Splash.Update W s (KeyMsg "enter") = Go.Ok (s', cmd)
             /\ Splash.page s' = target
             /\ Splash.loading s' = true
             /\ Splash.loaded s' = false
             /\ Percent (Splash.progress s') = 0%float
             /\ (cmd = Some FetchGitHubRepos <-> target = "Projects")
             /\ (target <> "Projects" -> cmd = Some (Tick 50)))).
Proof.
  intros Hp Hi Hp2 Hsh Hi2.
  destruct m as [c secs ld pr pg done rl st e].
  destruct s as [c2 secs2 ld2 pr2 pg2 done2 rl2 st2 e2 w h show timer sw].
  cbn in Hp, Hi, Hp2, Hsh, Hi2. subst pg pg2 show.
  unfold Splash.Update, Main.Update. cbn.
  destruct (stopwatch_Update W sw (KeyMsg "enter")) as [sw' swCmd]. cbn.
  unfold Main.key_enter, Splash.key_enter. cbn. rewrite Hi, Hi2. cbn.
  split.
  - intros ->. cbn. split; [reflexivity | eexists; reflexivity].
  - intros Hne. apply streq_false in Hne. unfold streq in *.
    rewrite Hne.
    destruct (String.eqb target "Projects") eqn:Hpr.
    + apply String.eqb_eq in Hpr. subst target.
      split; do 2 eexists; (split; [reflexivity |]); cbn;
        repeat split; congruence.
    + apply String.eqb_neq in Hpr.
      split; do 2 eexists; (split; [reflexivity |]); cbn;
        repeat split; try congruence; intro H; discriminate H.
Qed.

(** ** Fetch failures *)

Lemma fetch_failure_is_errMsg (http_Get : string -> GetResult) :
  fetch_failure (http_Get repos_url) ->
  errors_have_text (http_Get repos_url) ->
  exists e, Main.fetchGitHubRepos http_Get = errMsg e /\ e <> "".
Proof.
  unfold Main.fetchGitHubRepos, errors_have_text, repos_url.
  generalize (http_Get
    "https://api.github.com/users/mhommet/repos?sort=updated&per_page=100").
  intros a Hf Ht. destruct Hf as [err | resp Hs | resp err Hb].
  - exists err. auto.
  - destruct (Z.eqb_spec (StatusCode resp) StatusOK) as [E | E].
    + unfold StatusOK in E. lia.
    + cbn. eexists. split; [reflexivity | discriminate].
  - rewrite Hb in Ht |- *.
    destruct (StatusCode resp =? StatusOK); cbn.
    + exists err. auto.
    + eexists. split; [reflexivity | discriminate].
Qed.

(** C4.  Whatever makes the fetch fail (the transport, a status outside
    2xx, a body that does not decode), the command returns one message, an
    [errMsg] with a non-empty text, given that the errors of the libraries
    have a text; [Update] on it returns, stores that text in errorMsg, sets
    loading to false and loaded to true, and asks for no command, so the
    program goes on. *)
Theorem fetch_failure_sets_error
    (W : Widgets) (http_Get : string -> GetResult)
    (m : Main.model) (s : Splash.model) :
  fetch_failure (http_Get repos_url) ->
  errors_have_text (http_Get repos_url) ->
  Splash.showSplash s = false ->
  exists e,
    Main.fetchGitHubRepos http_Get = errMsg e
    /\ Splash.fetchGitHubRepos http_Get = errMsg e
    /\ e <> ""
    /\ (exists m',
           Main.Update W m (errMsg e) = Go.Ok (m', None)
           /\ Main.errorMsg m' = e
           /\ Main.loading m' = false
           /\ Main.loaded m' = true)
    /\ (exists s',
           Splash.Update W s (errMsg e) = Go.Ok (s', None)
           /\ Splash.errorMsg s' = e
           /\ Splash.loading s' = false
           /\ Splash.loaded s' = true).
Proof.
  intros Hf Ht Hsh.
  destruct (fetch_failure_is_errMsg http_Get Hf Ht) as (e & He & Hne).
  exists e. repeat (split; [assumption |]). split.
  - eexists. split; [reflexivity |]. repeat split.
  - unfold Splash.Update.
    destruct (stopwatch_Update W (Splash.stopwatch s) (errMsg e)) as [sw c].
    cbn. rewrite Hsh. eexists. split; [reflexivity |]. repeat split.
Qed.

(** ** Loaded excludes loading *)

Section Invariant.

Context (W : Widgets).

Lemma Main_after_switch_flags (m m' : Main.model) (msg : Msg)
    (cmd : option Cmd) :
  Main.after_switch W m msg = Go.Ok (m', cmd) ->
  Main.loading m' = Main.loading m /\ Main.loaded m' = Main.loaded m.
Proof.
  unfold Main.after_switch. intro H.
  destruct (streq (Main.page m) "Projects").
  - destruct (list_Update W (Main.reposList m) msg).
    injection H as <- _. split; reflexivity.
  - destruct (streq (Main.page m) "Skills").
    + destruct (table_Update W (Main.skillsTable m) msg).
      injection H as <- _. split; reflexivity.
    + injection H as <- _. split; reflexivity.
Qed.

Lemma Main_key_up_flags (m : Main.model) :
  Main.loading (Main.key_up m) = Main.loading m
  /\ Main.loaded (Main.key_up m) = Main.loaded m.
Proof.
  unfold Main.key_up.
  repeat match goal with
         | |- context [if ?b then _ else _] => destruct b
         end; split; reflexivity.
Qed.

Lemma Main_key_down_flags (m : Main.model) :
  Main.loading (Main.key_down m) = Main.loading m
  /\ Main.loaded (Main.key_down m) = Main.loaded m.
Proof.
  unfold Main.key_down.
  repeat match goal with
         | |- context [if ?b then _ else _] => destruct b
         end; split; reflexivity.
Qed.

Lemma Main_key_b_inv (m : Main.model) :
  Main_inv m -> Main_inv (Main.key_b m).
Proof.
  unfold Main.key_b, Main_inv.
  destruct (negb (streq (Main.page m) "menu")); cbn; auto. discriminate.
Qed.

Lemma Main_key_enter_inv (m m' : Main.model) (msg : Msg)
    (cmd : option Cmd) :
  Main_inv m -> Main.key_enter W m msg = Go.Ok (m', cmd) -> Main_inv m'.
Proof.
  unfold Main.key_enter, Main_inv. intros Hinv H.
  destruct (streq (Main.page m) "menu").
  - destruct (Go.index (Main.sections m) (Main.cursor m)) as [t | ];
      cbn in H; [| discriminate].
    destruct (streq t "Exit").
    + injection H as <- _. exact Hinv.
    + cbn in H. destruct (String.eqb t "Projects");
        injection H as <- _; cbn; discriminate.
  - assert (Hsw : forall r, Main.after_switch W m msg = Go.Ok r ->
              Main.loaded (fst r) = true -> Main.loading (fst r) = false).
    { intros [m1 c1] Hr. cbn.
      destruct (Main_after_switch_flags _ _ _ _ Hr) as [-> ->].
      exact Hinv. }
    destruct (streq (Main.page m) "Projects" && Main.loaded m);
      [| exact (Hsw _ H)].
    destruct (0 <? Go.len (Items (Main.reposList m))); [| exact (Hsw _ H)].
    destruct (SelectedItem (Main.reposList m)) as [it |]; [| discriminate].
    destruct (negb (streq (url it) "")); [| exact (Hsw _ H)].
    injection H as <- _. exact Hinv.
Qed.

Lemma Main_Update_inv (m m' : Main.model) (msg : Msg) (cmd : option Cmd) :
  Main_inv m -> Main.Update W m msg = Go.Ok (m', cmd) -> Main_inv m'.
Proof.
  intros Hinv H. destruct msg as [k | w h | t | repos | err | u | f | o];
    cbn in H.
  - destruct (streq k "q"); [injection H as <- _; exact Hinv |].
    destruct (streq k "up" || streq k "k").
    { destruct (Main_after_switch_flags _ _ _ _ H) as [Hl Hd].
      destruct (Main_key_up_flags m) as [Hl' Hd'].
      unfold Main_inv in *. rewrite Hl, Hd, Hl', Hd'. exact Hinv. }
    destruct (streq k "down" || streq k "j").
    { destruct (Main_after_switch_flags _ _ _ _ H) as [Hl Hd].
      destruct (Main_key_down_flags m) as [Hl' Hd'].
      unfold Main_inv in *. rewrite Hl, Hd, Hl', Hd'. exact Hinv. }
    destruct (streq k "enter"); [exact (Main_key_enter_inv _ _ _ _ Hinv H) |].
    destruct (streq k "b").
    { destruct (Main_after_switch_flags _ _ _ _ H) as [Hl Hd].
      pose proof (Main_key_b_inv m Hinv) as Hb.
      unfold Main_inv in *. rewrite Hl, Hd. exact Hb. }
    destruct (Main_after_switch_flags _ _ _ _ H) as [Hl Hd].
    unfold Main_inv in *. rewrite Hl, Hd. exact Hinv.
  - injection H as <- _. unfold Main_inv in *.
    repeat match goal with
           | |- context [if ?b then _ else _] => destruct b
           end; cbn; exact Hinv.
  - destruct (PrimFloat.eqb _ _).
    + injection H as <- _. unfold Main_inv. reflexivity.
    + injection H as <- _. exact Hinv.
  - injection H as <- _. unfold Main_inv. reflexivity.
  - injection H as <- _. unfold Main_inv. reflexivity.
  - injection H as <- _. exact Hinv.
  - unfold progress_Update in H.
    destruct (progress_animate W (Main.progress m) f).
    injection H as <- _. exact Hinv.
  - destruct (Main_after_switch_flags _ _ _ _ H) as [Hl Hd].
    unfold Main_inv in *. rewrite Hl, Hd. exact Hinv.
Qed.

End Invariant.

Section SplashInvariant.

Context (W : Widgets).

Ltac split_ifs :=
  repeat match goal with
         | |- context [if ?b then _ else _] => destruct b
         end.

Lemma Splash_after_switch_flags (s s' : Splash.model) (swCmd : option Cmd)
    (msg : Msg) (cmd : option Cmd) :
  Splash.after_switch W s swCmd msg = Go.Ok (s', cmd) ->
  Splash.loading s' = Splash.loading s /\ Splash.loaded s' = Splash.loaded s.
Proof.
  unfold Splash.after_switch. intro H.
  destruct (streq (Splash.page s) "Projects").
  - destruct (list_Update W (Splash.reposList s) msg).
    injection H as <- _. split; reflexivity.
  - destruct (streq (Splash.page s) "Skills").
    + destruct (table_Update W (Splash.skillsTable s) msg).
      injection H as <- _. split; reflexivity.
    + injection H as <- _. split; reflexivity.
Qed.

Lemma Splash_key_up_flags (s : Splash.model) :
  Splash.loading (Splash.key_up s) = Splash.loading s
  /\ Splash.loaded (Splash.key_up s) = Splash.loaded s.
Proof. unfold Splash.key_up. split_ifs; split; reflexivity. Qed.

Lemma Splash_key_down_flags (s : Splash.model) :
  Splash.loading (Splash.key_down s) = Splash.loading s
  /\ Splash.loaded (Splash.key_down s) = Splash.loaded s.
Proof. unfold Splash.key_down. split_ifs; split; reflexivity. Qed.

Lemma Splash_key_b_inv (s : Splash.model) :
  Splash_inv s -> Splash_inv (Splash.key_b s).
Proof.
  unfold Splash.key_b, Splash_inv.
  destruct (negb (streq (Splash.page s) "menu")); cbn; auto. discriminate.
Qed.

Lemma Splash_key_enter_inv (s s' : Splash.model) (swCmd : option Cmd)
    (msg : Msg) (cmd : option Cmd) :
  Splash_inv s ->
  Splash.key_enter W s swCmd msg = Go.Ok (s', cmd) -> Splash_inv s'.
Proof.
  unfold Splash.key_enter, Splash_inv. intros Hinv H.
  destruct (streq (Splash.page s) "menu").
  - destruct (Go.index (Splash.sections s) (Splash.cursor s)) as [t | ];
      cbn in H; [| discriminate].
    destruct (streq t "Exit").
    + injection H as <- _. exact Hinv.
    + cbn in H. destruct (String.eqb t "Projects");
        injection H as <- _; cbn; discriminate.
  - assert (Hsw : forall r, Splash.after_switch W s swCmd msg = Go.Ok r ->
              Splash.loaded (fst r) = true ->
              Splash.loading (fst r) = false).
    { intros [s1 c1] Hr. cbn.
      destruct (Splash_after_switch_flags _ _ _ _ _ Hr) as [-> ->].
      exact Hinv. }
    destruct (streq (Splash.page s) "Projects" && Splash.loaded s);
      [| exact (Hsw _ H)].
    destruct (0 <? Go.len (Items (Splash.reposList s)));
      [| exact (Hsw _ H)].
    destruct (SelectedItem (Splash.reposList s)) as [it |];
      [| discriminate].
    destruct (negb (streq (url it) "")); [| exact (Hsw _ H)].
    injection H as <- _. exact Hinv.
Qed.

Lemma Splash_splash_Update_inv (s s' : Splash.model) (swCmd : option Cmd)
    (msg : Msg) (cmd : option Cmd) :
  Splash_inv s ->
  Splash.splash_Update s swCmd msg = Go.Ok (s', cmd) -> Splash_inv s'.
Proof.
  unfold Splash_inv. intros Hinv H.
  destruct msg; cbn in H;
    try (injection H as <- _; exact Hinv).
  destruct (_ <=? 0); injection H as <- _; exact Hinv.
Qed.

Lemma Splash_Update_inv (s s' : Splash.model) (msg : Msg)
    (cmd : option Cmd) :
  Splash_inv s -> Splash.Update W s msg = Go.Ok (s', cmd) -> Splash_inv s'.
Proof.
  unfold Splash.Update. intros Hinv0 H.
  destruct (stopwatch_Update W (Splash.stopwatch s) msg) as [sw swCmd].
  set (s0 := Splash.with_stopwatch s sw) in *.
  assert (Hinv : Splash_inv s0) by exact Hinv0.
  clearbody s0. clear Hinv0 s.
  destruct (Splash.showSplash s0);
    [exact (Splash_splash_Update_inv _ _ _ _ _ Hinv H) |].
  destruct msg as [k | w h | t | repos | err | u | f | o]; cbn in H.
  - destruct (streq k "q"); [injection H as <- _; exact Hinv |].
    destruct (streq k "up" || streq k "k").
    { destruct (Splash_after_switch_flags _ _ _ _ _ H) as [Hl Hd].
      destruct (Splash_key_up_flags s0) as [Hl' Hd'].
      unfold Splash_inv in *. rewrite Hl, Hd, Hl', Hd'. exact Hinv. }
    destruct (streq k "down" || streq k "j").
    { destruct (Splash_after_switch_flags _ _ _ _ _ H) as [Hl Hd].
      destruct (Splash_key_down_flags s0) as [Hl' Hd'].
      unfold Splash_inv in *. rewrite Hl, Hd, Hl', Hd'. exact Hinv. }
    destruct (streq k "enter");
      [exact (Splash_key_enter_inv _ _ _ _ _ Hinv H) |].
    destruct (streq k "b").
    { destruct (Splash_after_switch_flags _ _ _ _ _ H) as [Hl Hd].
      pose proof (Splash_key_b_inv s0 Hinv) as Hb.
      unfold Splash_inv in *. rewrite Hl, Hd. exact Hb. }
    destruct (Splash_after_switch_flags _ _ _ _ _ H) as [Hl Hd].
    unfold Splash_inv in *. rewrite Hl, Hd. exact Hinv.
  - injection H as <- _. unfold Splash_inv in *.
    split_ifs; cbn; exact Hinv.
  - destruct (PrimFloat.eqb _ _).
    + injection H as <- _. unfold Splash_inv. reflexivity.
    + injection H as <- _. exact Hinv.
  - injection H as <- _. unfold Splash_inv. reflexivity.
  - injection H as <- _. unfold Splash_inv. reflexivity.
  - injection H as <- _. exact Hinv.
  - unfold progress_Update in H.
    destruct (progress_animate W (Splash.progress s0) f).
    injection H as <- _. exact Hinv.
  - destruct (Splash_after_switch_flags _ _ _ _ _ H) as [Hl Hd].
    unfold Splash_inv in *. rewrite Hl, Hd. exact Hinv.
Qed.

End SplashInvariant.

(** C9.  Loaded implies not loading: it holds in the first state of both
    programs, and every message that [Update] handles takes a state where
    it holds to a state where it holds. *)
Theorem loaded_excludes_loading (W : Widgets) :
  Main_inv (Main.initialModel W)
  /\ Splash_inv (Splash.initialModel W)
  /\ (forall (m m' : Main.model) (msg : Msg) (cmd : option Cmd),
         Main_inv m -> Main.Update W m msg = Go.Ok (m', cmd) -> Main_inv m')
  /\ (forall (s s' : Splash.model) (msg : Msg) (cmd : option Cmd),
         Splash_inv s -> Splash.Update W s msg = Go.Ok (s', cmd) ->
         Splash_inv s').
Proof.
  split; [intro H; reflexivity |]. split; [intro H; reflexivity |].
  split.
  - exact (Main_Update_inv W).
  - exact (Splash_Update_inv W).
Qed.

Lemma loaded_excludes_loading_witness :
  Main_inv (final Main_projects
              (Main_run reference Main_projects [tickMsg 0; not_found])).
Proof.
  pose proof (loaded_excludes_loading reference) as (H0 & _ & Hstep & _).
  refine (Hstep (fst (final (Main_projects, None)
                        (Main.Update reference Main_projects (tickMsg 0))))
            _ not_found None _ _).
  - refine (Hstep Main_projects _ (tickMsg 0) _ _ _).
    + intro H. discriminate H.
    + vm_compute. reflexivity.
  - vm_compute. reflexivity.
Defined.

Lemma back_after_fetch_failure_witness :
  exists m2,
    Main_run reference Main_projects [not_found; KeyMsg "b"] = Go.Ok m2
    /\ Main.page m2 = "menu"
    /\ Main.cursor m2 = 0
    /\ Main.errorMsg m2 = "failed to fetch repositories: 404 Not Found".
Proof.
  destruct (back_after_fetch_failure reference Main_projects Splash_projects
              "failed to fetch repositories: 404 Not Found")
    as [(m1 & m2 & H1 & _ & H2 & Hp & Hc & _ & He & _) _].
  - vm_compute. discriminate.
  - vm_compute. discriminate.
  - reflexivity.
  - discriminate.
  - exists m2. cbn [Main_run]. change not_found with
      (errMsg "failed to fetch repositories: 404 Not Found").
    rewrite H1. cbn [Go.bind fst]. rewrite H2. cbn [Go.bind fst]. auto.
Defined.

Lemma select_on_menu_witness :
  (exists m' cmd,
      Main.Update reference
        (Main.with_cursor (Main.initialModel reference) 4) (KeyMsg "enter")
      = Go.Ok (m', cmd)
      /\ Main.page m' = "Projects"
      /\ Main.loading m' = true
      /\ Main.loaded m' = false
      /\ cmd = Some FetchGitHubRepos)
  /\ (exists s' cmd,
         Splash.Update reference (Splash.with_cursor Splash_menu 4)
           (KeyMsg "enter") = Go.Ok (s', cmd)
         /\ Splash.page s' = "Projects"
         /\ cmd = Some FetchGitHubRepos).
Proof.
  destruct (select_on_menu reference
              (Main.with_cursor (Main.initialModel reference) 4)
              (Splash.with_cursor Splash_menu 4) "Projects")
    as [_ H]; try reflexivity.
  destruct H as [(m' & cmd & H1 & H2 & H3 & H4 & _ & H5 & _)
                   (s' & cmd' & G1 & G2 & _ & _ & _ & G5 & _)].
  - discriminate.
  - split.
    + exists m', cmd. repeat split; try assumption. now apply H5.
    + exists s', cmd'. repeat split; try assumption. now apply G5.
Defined.

Lemma fetch_failure_sets_error_witness :
  exists m',
    Main.Update reference Main_projects not_found = Go.Ok (m', None)
    /\ Main.errorMsg m' = "failed to fetch repositories: 404 Not Found"
    /\ Main.loading m' = false
    /\ Main.loaded m' = true.
Proof.
  destruct (fetch_failure_sets_error reference
              (fun _ => GetResponse
                          {| StatusCode := 404; Status := "404 Not Found";
                             body := Decoded [] |})
              Main_projects Splash_projects)
    as (e & He & _ & _ & (m' & H1 & H2 & H3 & H4) & _).
  - apply non_2xx_status. cbn. lia.
  - exact I.
  - reflexivity.
  - injection He as <-. exists m'. auto.
Defined.

(** ** The progress bar *)

(** Two float constants that compare different are different. *)
Ltac float_discr H :=
  match type of H with
  | ?a = ?b =>
      apply (f_equal (fun x => PrimFloat.eqb x b)) in H;
      vm_compute in H; discriminate H
  end.

Lemma quarters_quarter (k : nat) : quarter (quarters k).
Proof.
  unfold quarter.
  destruct k as [| [| [| [| k]]]]; cbn; auto 6.
Qed.

Lemma quarter_bounds (p : float) :
  quarter p -> fle 0%float p /\ fle p 1%float.
Proof.
  unfold quarter, fle.
  intros [-> | [-> | [-> | [-> | ->]]]]; split; reflexivity.
Qed.

Section Ticks.

Context (W : Widgets).

(** One tick of main.go, by the value of the target. *)
Lemma Main_tick (m : Main.model) (t : Go.Time) :
  quarter (Percent (Main.progress m)) ->
  exists m' cmd,
    Main.Update W m (tickMsg t) = Go.Ok (m', cmd)
    /\ quarter (Percent (Main.progress m'))
    /\ fle (Percent (Main.progress m)) (Percent (Main.progress m'))
    /\ (Percent (Main.progress m) = 1%float ->
        Main.loading m' = false /\ Main.loaded m' = true /\ cmd = None
        /\ Percent (Main.progress m') = 1%float)
    /\ (Percent (Main.progress m) <> 1%float ->
        Main.loading m' = Main.loading m /\ Main.loaded m' = Main.loaded m
        /\ cmd = Some (Batch [Some (Tick 50); Some progress_nextFrame])
        /\ Percent (Main.progress m')
           = PrimFloat.add (Percent (Main.progress m)) 0.25%float).
Proof.
  destruct m as [c secs ld [pw p shown] pg done rl st e].
  unfold quarter, fle, Percent. cbn [Main.progress targetPercent].
  intros [-> | [-> | [-> | [-> | ->]]]];
    do 2 eexists; (split; [vm_compute; reflexivity |]); cbn;
    (split; [auto 6 |]); (split; [reflexivity |]);
    (split; [intro H; try float_discr H; auto |]);
    intro H; try (exfalso; apply H; reflexivity); auto.
Qed.

(** One tick of the full-screen program once the splash screen is gone. *)
Lemma Splash_tick (s : Splash.model) (t : Go.Time) :
  Splash.showSplash s = false ->
  quarter (Percent (Splash.progress s)) ->
  exists s' cmd,
    Splash.Update W s (tickMsg t) = Go.Ok (s', cmd)
    /\ Splash.showSplash s' = false
    /\ quarter (Percent (Splash.progress s'))
    /\ fle (Percent (Splash.progress s)) (Percent (Splash.progress s'))
    /\ (Percent (Splash.progress s) = 1%float ->
        Splash.loading s' = false /\ Splash.loaded s' = true /\ cmd = None
        /\ Percent (Splash.progress s') = 1%float)
    /\ (Percent (Splash.progress s) <> 1%float ->
        Splash.loading s' = Splash.loading s
        /\ Splash.loaded s' = Splash.loaded s
        /\ cmd = Some (Batch [Some (Tick 50); Some progress_nextFrame])
        /\ Percent (Splash.progress s')
           = PrimFloat.add (Percent (Splash.progress s)) 0.25%float).
Proof.
  destruct s as [c secs ld [pw p shown] pg done rl st e w h show timer sw].
  unfold quarter, fle, Percent, Splash.Update.
  cbn [Splash.progress Splash.showSplash Splash.stopwatch targetPercent].
  intros ->.
  destruct (stopwatch_Update W sw (tickMsg t)) as [sw' swCmd].
  intros [-> | [-> | [-> | [-> | ->]]]];
    do 2 eexists; (split; [vm_compute; reflexivity |]); cbn;
    (split; [reflexivity |]);
    (split; [auto 6 |]); (split; [reflexivity |]);
    (split; [intro H; try float_discr H; auto |]);
    intro H; try (exfalso; apply H; reflexivity); auto.
Qed.

Lemma quarters_next (k : nat) :
  (k < 4)%nat ->
  quarters k <> 1%float
  /\ PrimFloat.add (quarters k) 0.25%float = quarters (S k).
Proof.
  intro Hk. destruct k as [| [| [| [| k]]]]; try lia;
    (split; [intro H; float_discr H | reflexivity]).
Qed.

Lemma quarters_done (k : nat) : (4 <= k)%nat -> quarters k = 1%float.
Proof. intro Hk. destruct k as [| [| [| [| k]]]]; try lia; reflexivity. Qed.

Lemma Main_ticked_step (k : nat) (m : Main.model) (t : Go.Time) :
  Main_ticked k m ->
  exists m' cmd,
    Main.Update W m (tickMsg t) = Go.Ok (m', cmd) /\ Main_ticked (S k) m'.
Proof.
  intros (Hp & Hl & Hd).
  destruct (Main_tick m t) as (m' & cmd & Hu & _ & _ & H1 & H2).
  { rewrite Hp. apply quarters_quarter. }
  exists m', cmd. split; [exact Hu |]. unfold Main_ticked.
  destruct (Nat.lt_ge_cases k 4) as [Hk | Hk].
  - destruct (quarters_next k Hk) as [Hne Hadd].
    rewrite Hp in H2. destruct (H2 Hne) as (-> & -> & _ & ->).
    rewrite Hl, Hd, Hadd. repeat split.
    + destruct (Nat.ltb_spec k 5), (Nat.ltb_spec (S k) 5); try lia;
        reflexivity.
    + destruct (Nat.leb_spec 5 k), (Nat.leb_spec 5 (S k)); try lia;
        reflexivity.
  - rewrite Hp in H1. destruct (H1 (quarters_done k Hk)) as (-> & -> & _ & ->).
    rewrite (quarters_done (S k)) by lia. repeat split.
    + destruct (Nat.ltb_spec (S k) 5); try lia; reflexivity.
    + destruct (Nat.leb_spec 5 (S k)); try lia; reflexivity.
Qed.

Lemma Splash_ticked_step (k : nat) (s : Splash.model) (t : Go.Time) :
  Splash_ticked k s ->
  exists s' cmd,
    Splash.Update W s (tickMsg t) = Go.Ok (s', cmd) /\ Splash_ticked (S k) s'.
Proof.
  intros (Hsh & Hp & Hl & Hd).
  destruct (Splash_tick s t Hsh) as (s' & cmd & Hu & Hsh' & _ & _ & H1 & H2).
  { rewrite Hp. apply quarters_quarter. }
  exists s', cmd. split; [exact Hu |]. unfold Splash_ticked.
  split; [exact Hsh' |].
  destruct (Nat.lt_ge_cases k 4) as [Hk | Hk].
  - destruct (quarters_next k Hk) as [Hne Hadd].
    rewrite Hp in H2. destruct (H2 Hne) as (-> & -> & _ & ->).
    rewrite Hl, Hd, Hadd. repeat split.
    + destruct (Nat.ltb_spec k 5), (Nat.ltb_spec (S k) 5); try lia;
        reflexivity.
    + destruct (Nat.leb_spec 5 k), (Nat.leb_spec 5 (S k)); try lia;
        reflexivity.
  - rewrite Hp in H1. destruct (H1 (quarters_done k Hk)) as (-> & -> & _ & ->).
    rewrite (quarters_done (S k)) by lia. repeat split.
    + destruct (Nat.ltb_spec (S k) 5); try lia; reflexivity.
    + destruct (Nat.leb_spec 5 (S k)); try lia; reflexivity.
Qed.

Lemma Main_ticks (ts : list Go.Time) :
  forall (k : nat) (m : Main.model),
    Main_ticked k m ->
    exists m',
      Main_run W m (map tickMsg ts) = Go.Ok m'
      /\ Main_ticked (k + List.length ts) m'.
Proof.
  induction ts as [| t ts IH]; intros k m Hk.
  - exists m. rewrite Nat.add_0_r. split; [reflexivity | exact Hk].
  - destruct (Main_ticked_step k m t Hk) as (m1 & cmd & Hu & Hk1).
    destruct (IH (S k) m1 Hk1) as (m' & Hr & Hk').
    exists m'. cbn [map Main_run List.length]. rewrite Hu. cbn [Go.bind fst].
    rewrite Nat.add_succ_r. split; assumption.
Qed.

Lemma Splash_ticks (ts : list Go.Time) :
  forall (k : nat) (s : Splash.model),
    Splash_ticked k s ->
    exists s',
      Splash_run W s (map tickMsg ts) = Go.Ok s'
      /\ Splash_ticked (k + List.length ts) s'.
Proof.
  induction ts as [| t ts IH]; intros k s Hk.
  - exists s. rewrite Nat.add_0_r. split; [reflexivity | exact Hk].
  - destruct (Splash_ticked_step k s t Hk) as (s1 & cmd & Hu & Hk1).
    destruct (IH (S k) s1 Hk1) as (s' & Hr & Hk').
    exists s'. cbn [map Splash_run List.length]. rewrite Hu.
    cbn [Go.bind fst]. rewrite Nat.add_succ_r. split; assumption.
Qed.

End Ticks.

(** The targets of the progress bar are quarters in every reachable state. *)
Section Quarters.

Context (W : Widgets).

Ltac split_ifs :=
  repeat match goal with
         | |- context [if ?b then _ else _] => destruct b
         end.

Lemma Main_after_switch_progress (m m' : Main.model) (msg : Msg)
    (cmd : option Cmd) :
  Main.after_switch W m msg = Go.Ok (m', cmd) ->
  Main.progress m' = Main.progress m.
Proof.
  unfold Main.after_switch. intro H.
  destruct (streq (Main.page m) "Projects").
  - destruct (list_Update W (Main.reposList m) msg).
    injection H as <- _. reflexivity.
  - destruct (streq (Main.page m) "Skills").
    + destruct (table_Update W (Main.skillsTable m) msg).
      injection H as <- _. reflexivity.
    + injection H as <- _. reflexivity.
Qed.

Lemma Main_keys_progress (m : Main.model) :
  Main.progress (Main.key_up m) = Main.progress m
  /\ Main.progress (Main.key_down m) = Main.progress m
  /\ Main.progress (Main.key_b m) = Main.progress m.
Proof.
  unfold Main.key_up, Main.key_down, Main.key_b.
  repeat split; split_ifs; reflexivity.
Qed.

Lemma Main_Update_quarter (m m' : Main.model) (msg : Msg) (cmd : option Cmd) :
  quarter (Percent (Main.progress m)) ->
  Main.Update W m msg = Go.Ok (m', cmd) ->
  quarter (Percent (Main.progress m')).
Proof.
  intros Hq H.
  destruct (Main_keys_progress m) as (Hu & Hd & Hb).
  destruct msg as [k | w h | t | repos | err | u | f | o].
  - cbn in H.
    destruct (streq k "q"); [injection H as <- _; exact Hq |].
    destruct (streq k "up" || streq k "k").
    { rewrite (Main_after_switch_progress _ _ _ _ H), Hu. exact Hq. }
    destruct (streq k "down" || streq k "j").
    { rewrite (Main_after_switch_progress _ _ _ _ H), Hd. exact Hq. }
    destruct (streq k "enter").
    { unfold Main.key_enter in H.
      destruct (streq (Main.page m) "menu").
      - destruct (Go.index (Main.sections m) (Main.cursor m)) as [tg |];
          cbn in H; [| discriminate].
        destruct (streq tg "Exit"); [injection H as <- _; exact Hq |].
        cbn in H. destruct (String.eqb tg "Projects");
          injection H as <- _; left; reflexivity.
      - destruct (streq (Main.page m) "Projects" && Main.loaded m);
          [| rewrite (Main_after_switch_progress _ _ _ _ H); exact Hq].
        destruct (0 <? Go.len (Items (Main.reposList m)));
          [| rewrite (Main_after_switch_progress _ _ _ _ H); exact Hq].
        destruct (SelectedItem (Main.reposList m)) as [it |];
          [| discriminate].
        destruct (negb (streq (url it) ""));
          [| rewrite (Main_after_switch_progress _ _ _ _ H); exact Hq].
        injection H as <- _. exact Hq. }
    destruct (streq k "b").
    { rewrite (Main_after_switch_progress _ _ _ _ H), Hb. exact Hq. }
    rewrite (Main_after_switch_progress _ _ _ _ H). exact Hq.
  - cbn in H. injection H as <- _. split_ifs; cbn; exact Hq.
  - destruct (Main_tick W m t Hq) as (m1 & c1 & Hu1 & Hq1 & _).
    rewrite Hu1 in H. injection H as <- _. exact Hq1.
  - cbn in H. injection H as <- _. exact Hq.
  - cbn in H. injection H as <- _. exact Hq.
  - cbn in H. injection H as <- _. exact Hq.
  - cbn in H. unfold progress_Update in H.
    destruct (progress_animate W (Main.progress m) f).
    injection H as <- _. exact Hq.
  - cbn in H. rewrite (Main_after_switch_progress _ _ _ _ H). exact Hq.
Qed.

Lemma Main_initial_quarter : quarter (Percent (Main.progress (Main.initialModel W))).
Proof. left. reflexivity. Qed.

End Quarters.

(** Entering a page from the menu starts the count of ticks at 0. *)
Lemma select_on_menu_entry_Main
    (W : Widgets) (m : Main.model) (target : string) :
  Main.page m = "menu" ->
  Go.index (Main.sections m) (Main.cursor m) = Go.Ok target ->
  target <> "Exit" ->
  exists m1 cmd,
    Main.Update W m (KeyMsg "enter") = Go.Ok (m1, cmd) /\ Main_ticked 0 m1.
Proof.
  intros Hp Hi Hne. destruct m as [c secs ld pr pg done rl st e].
  cbn in Hp, Hi. subst pg. cbn. unfold Main.key_enter. cbn. rewrite Hi. cbn.
  apply streq_false in Hne. unfold streq in *. rewrite Hne.
  destruct (String.eqb target "Projects"); do 2 eexists;
    (split; [reflexivity |]); repeat split.
Qed.

Lemma select_on_menu_entry_Splash
    (W : Widgets) (s : Splash.model) (target : string) :
  Splash.page s = "menu" ->
  Splash.showSplash s = false ->
  Go.index (Splash.sections s) (Splash.cursor s) = Go.Ok target ->
  target <> "Exit" ->
  exists s1 cmd,
    Splash.Update W s (KeyMsg "enter") = Go.Ok (s1, cmd)
    /\ Splash_ticked 0 s1.
Proof.
  intros Hp Hsh Hi Hne.
  destruct s as [c secs ld pr pg done rl st e w h show timer sw].
  cbn in Hp, Hsh, Hi. subst pg show. unfold Splash.Update. cbn.
  destruct (stopwatch_Update W sw (KeyMsg "enter")) as [sw' swCmd]. cbn.
  unfold Splash.key_enter. cbn. rewrite Hi. cbn.
  apply streq_false in Hne. unfold streq in *. rewrite Hne.
  destruct (String.eqb target "Projects"); do 2 eexists;
    (split; [reflexivity |]); repeat split.
Qed.

(** C6.  A tick never lowers the target of the progress bar and never takes
    it above 1; entering a page resets it to 0; the tick that finds it at 1
    sets loading to false and loaded to true and asks for no further tick.
    Counting the ticks after a page was entered, loading is true and loaded
    false up to the fourth, and from the fifth on loading is false and
    loaded true: the flags change once.  (In the full-screen program, once
    the splash screen is gone.) *)
Theorem progress_is_monotone_and_completes_once
    (W : Widgets) (m : Main.model) (s : Splash.model) (t : Go.Time) :
  quarter (Percent (Main.progress m)) ->
  quarter (Percent (Splash.progress s)) ->
  Splash.showSplash s = false ->
  (exists m' cmd,
      Main.Update W m (tickMsg t) = Go.Ok (m', cmd)
      /\ fle (Percent (Main.progress m)) (Percent (Main.progress m'))
      /\ fle (Percent (Main.progress m')) 1%float
      /\ (Percent (Main.progress m) = 1%float ->
          Main.loading m' = false /\ Main.loaded m' = true /\ cmd = None)
      /\ (Percent (Main.progress m) <> 1%float ->
          Main.loading m' = Main.loading m
          /\ Main.loaded m' = Main.loaded m))
  /\ (exists s' cmd,
         Splash.Update W s (tickMsg t) = Go.Ok (s', cmd)
         /\ fle (Percent (Splash.progress s)) (Percent (Splash.progress s'))
         /\ fle (Percent (Splash.progress s')) 1%float
         /\ (Percent (Splash.progress s) = 1%float ->
             Splash.loading s' = false /\ Splash.loaded s' = true
             /\ cmd = None)
         /\ (Percent (Splash.progress s) <> 1%float ->
             Splash.loading s' = Splash.loading s
             /\ Splash.loaded s' = Splash.loaded s))
  /\ (forall (target : string) (ts : list Go.Time),
         Main.page m = "menu" ->
         Go.index (Main.sections m) (Main.cursor m) = Go.Ok target ->
         target <> "Exit" ->
         exists m1 cmd m',
           Main.Update W m (KeyMsg "enter") = Go.Ok (m1, cmd)
           /\ Percent (Main.progress m1) = 0%float
           /\ Main_run W m1 (map tickMsg ts) = Go.Ok m'
           /\ Percent (Main.progress m') = quarters (List.length ts)
           /\ Main.loading m' = (List.length ts <? 5)%nat
           /\ Main.loaded m' = (5 <=? List.length ts)%nat)
  /\ (forall (target : string) (ts : list Go.Time),
         Splash.page s = "menu" ->
         Go.index (Splash.sections s) (Splash.cursor s) = Go.Ok target ->
         target <> "Exit" ->
         exists s1 cmd s',
           Splash.Update W s (KeyMsg "enter") = Go.Ok (s1, cmd)
           /\ Percent (Splash.progress s1) = 0%float
           /\ Splash_run W s1 (map tickMsg ts) = Go.Ok s'
           /\ Percent (Splash.progress s') = quarters (List.length ts)
           /\ Splash.loading s' = (List.length ts <? 5)%nat
           /\ Splash.loaded s' = (5 <=? List.length ts)%nat).
Proof.
  intros Hq Hq2 Hsh. repeat split.
  - destruct (Main_tick W m t Hq) as (m' & cmd & Hu & Hq' & Hle & H1 & H2).
    exists m', cmd. split; [exact Hu |]. split; [exact Hle |].
    split; [apply quarter_bounds; exact Hq' |]. split.
    + intro H. destruct (H1 H) as (? & ? & ? & _). auto.
    + intro H. destruct (H2 H) as (? & ? & _). auto.
  - destruct (Splash_tick W s t Hsh Hq2)
      as (s' & cmd & Hu & _ & Hq' & Hle & H1 & H2).
    exists s', cmd. split; [exact Hu |]. split; [exact Hle |].
    split; [apply quarter_bounds; exact Hq' |]. split.
    + intro H. destruct (H1 H) as (? & ? & ? & _). auto.
    + intro H. destruct (H2 H) as (? & ? & _). auto.
  - intros target ts Hp Hi Hne.
    destruct (select_on_menu_entry_Main W m target Hp Hi Hne)
      as (m1 & cmd & Hu & Hk).
    destruct (Main_ticks W ts 0 m1 Hk) as (m' & Hr & Hp' & Hl & Hd).
    exists m1, cmd, m'. destruct Hk as (Hk0 & _). auto 7.
  - intros target ts Hp Hi Hne.
    destruct (select_on_menu_entry_Splash W s target Hp Hsh Hi Hne)
      as (s1 & cmd & Hu & Hk).
    destruct (Splash_ticks W ts 0 s1 Hk) as (s' & Hr & _ & Hp' & Hl & Hd).
    exists s1, cmd, s'. destruct Hk as (_ & Hk0 & _). auto 7.
Qed.

Lemma progress_is_monotone_and_completes_once_witness :
  exists m1 cmd m',
    Main.Update reference (Main.initialModel reference) (KeyMsg "enter")
    = Go.Ok (m1, cmd)
    /\ Main_run reference m1 (map tickMsg [1; 2; 3; 4; 5]) = Go.Ok m'
    /\ Percent (Main.progress m') = 1%float
    /\ Main.loading m' = false
    /\ Main.loaded m' = true.
Proof.
  destruct (progress_is_monotone_and_completes_once reference
              (Main.initialModel reference) Splash_menu 0)
    as (_ & _ & H & _).
  - left. reflexivity.
  - left. reflexivity.
  - reflexivity.
  - destruct (H "About Me" [1; 2; 3; 4; 5])
      as (m1 & cmd & m' & H1 & _ & H2 & H3 & H4 & H5).
    + reflexivity.
    + reflexivity.
    + discriminate.
    + exists m1, cmd, m'. auto.
Defined.

(** ** The list of repositories *)

Section Repositories.

Context (W : Widgets).

Lemma Items_SetItems (l : list_Model) (xs : list item) :
  Items (SetItems W l xs) = xs.
Proof. reflexivity. Qed.


(** The selected item is nil exactly when the index is outside. *)
Lemma SelectedItem_nil (l : list_Model) :
  SelectedItem l = None <-> ~ (0 <= Index l < Go.len (Items l)).
Proof.
  unfold SelectedItem, VisibleItems, Items, Go.len.
  destruct (Z.ltb_spec (Index l) 0); cbn; [split; [lia | reflexivity] |].
  destruct (Z.eqb_spec (Z.of_nat (List.length (items l))) 0); cbn;
    [split; [lia | reflexivity] |].
  destruct (Z.leb_spec (Z.of_nat (List.length (items l))) (Index l)); cbn;
    [split; [lia | reflexivity] |].
  split.
  - intro Hn. apply nth_error_None in Hn. lia.
  - lia.
Qed.

End Repositories.

(** A record without [html_url] is listed, and the enter key on it asks for
    no command. *)
Lemma enter_on_entry_without_url_opens_nothing :
  exists m1 m2,
    Main.Update reference Main_projects (repoMsg [repo_without_url])
    = Go.Ok (m1, Some list_statusTimeout)
    /\ Items (Main.reposList m1) = [mkItem "notes" "" ""]
    /\ Index (Main.reposList m1) = 0
    /\ Main.loaded m1 = true
    /\ Main.Update reference m1 (KeyMsg "enter") = Go.Ok (m2, None).
Proof.
  do 2 eexists. split; [vm_compute; reflexivity |].
  repeat split.
Qed.




Section Launch.

Context (W : Widgets).




End Launch.



(** ** The type assertion on the selected item *)

Section Assertion.

Context (W : Widgets).

(** On the loaded Projects page with a non-empty list, the enter key
    panics exactly when the selected index is outside the items. *)
Lemma enter_panics_iff_index_outside (m : Main.model) :
  Main.page m = "Projects" -> Main.loaded m = true ->
  0 < Go.len (Items (Main.reposList m)) ->
  (Main.Update W m (KeyMsg "enter") = Go.Panic nil_assertion
   <-> ~ (0 <= Index (Main.reposList m)
          < Go.len (Items (Main.reposList m)))).
Proof.
  intros Hp Hl Hlen. rewrite <- SelectedItem_nil.
  destruct m as [c secs ld pr pg done rl st e]. cbn in *. subst pg done.
  unfold Main.key_enter. cbn.
  destruct (Z.ltb_spec 0 (Go.len (Items rl))); [| lia].
  destruct (SelectedItem rl) as [it |].
  - split; [| discriminate].
    destruct (negb (streq (url it) "")); [discriminate |].
    unfold Main.after_switch. cbn.
    destruct (list_Update W rl (KeyMsg "enter")). discriminate.
  - split; reflexivity.
Qed.

(** With an empty list, or on an entry whose URL is empty, the enter key
    goes to the list's own handler and asks for no browser launch; when
    that handler ignores the key, the model is unchanged. *)
Lemma enter_without_target (m : Main.model) :
  Main.page m = "Projects" -> Main.loaded m = true ->
  Items (Main.reposList m) = []
  \/ (exists it, SelectedItem (Main.reposList m) = Some it /\ url it = "") ->
  list_Update W (Main.reposList m) (KeyMsg "enter")
  = (Main.reposList m, None) ->
  Main.Update W m (KeyMsg "enter") = Go.Ok (m, None).
Proof.
  intros Hp Hl Hcase Hlist.
  destruct m as [c secs ld pr pg done rl st e]. cbn in *. subst pg done.
  unfold Main.key_enter, Main.after_switch. cbn.
  destruct Hcase as [He | (it & Hs & Hu)].
  - rewrite He. cbn. rewrite Hlist. reflexivity.
  - rewrite Hs, Hu. cbn. rewrite Hlist.
    destruct (0 <? Go.len (Items rl)); reflexivity.
Qed.

End Assertion.

(** C10, at the failing input.  After a second fetch that answers with
    fewer repositories than the index selected in the first list, the list
    is not empty and the selected item is nil: the enter key panics in the
    type assertion, in both programs. *)
Theorem enter_after_shorter_refetch_panics :
  (exists m,
      Main_run reference Main_projects (before_last shorter_refetch)
      = Go.Ok m
      /\ Main.page m = "Projects"
      /\ Main.loaded m = true
      /\ Go.len (Items (Main.reposList m)) = 1
      /\ Index (Main.reposList m) = 2
      /\ Main.Update reference m (KeyMsg "enter") = Go.Panic nil_assertion)
  /\ Main_run reference Main_projects shorter_refetch
     = Go.Panic nil_assertion
  /\ Splash_run reference Splash_projects shorter_refetch
     = Go.Panic nil_assertion.
Proof.
  split.
  - eexists. split; [vm_compute; reflexivity |]. repeat split.
  - split; vm_compute; reflexivity.
Qed.

(** ** Rendering *)

(** C3, as stated, fails: the full-screen program draws the wall clock in
    its footer, so the same model is rendered differently one second
    later. *)
Lemma View_reads_the_clock :
  exists t1 t2,
    Splash.View reference "" Splash_menu t1
    <> Splash.View reference "" Splash_menu t2.
Proof.
  exists 0, 1. intro H. vm_compute in H. discriminate H.
Qed.

(** C3, amended.  The frame of the full-screen program is a function of
    the model and of the time that [time.Now()] reads: two calls on the
    same model return the same frame when the clock shows the same
    hh:mm:ss at both, and always while the splash screen is shown. *)
Theorem View_is_a_function_of_model_and_clock
    (W : Widgets) (nameArt : string) (s : Splash.model) (t t' : Go.Time) :
  Splash.showSplash s = true
  \/ Go.Format_15_04_05 t = Go.Format_15_04_05 t' ->
  Splash.View W nameArt s t = Splash.View W nameArt s t'.
Proof.
  unfold Splash.View. intros [H | H].
  - rewrite H. reflexivity.
  - rewrite H. reflexivity.
Qed.

Lemma View_is_a_function_of_model_and_clock_witness :
  Splash.View reference "" Splash_menu 0
  = Splash.View reference "" Splash_menu 86400.
Proof.
  apply (View_is_a_function_of_model_and_clock reference "" Splash_menu
           0 86400).
  right. reflexivity.
Defined.

(** ** The splash screen of the full-screen program *)

Section SplashScreen.

Context (W : Widgets).

Ltac split_ifs :=
  repeat match goal with
         | |- context [if ?b then _ else _] => destruct b
         end.

Lemma Splash_after_switch_keeps (s s' : Splash.model) (swCmd : option Cmd)
    (msg : Msg) (cmd : option Cmd) :
  Splash.after_switch W s swCmd msg = Go.Ok (s', cmd) ->
  Splash.showSplash s' = Splash.showSplash s
  /\ Splash.progress s' = Splash.progress s.
Proof.
  unfold Splash.after_switch. intro H.
  destruct (streq (Splash.page s) "Projects").
  - destruct (list_Update W (Splash.reposList s) msg).
    injection H as <- _. split; reflexivity.
  - destruct (streq (Splash.page s) "Skills").
    + destruct (table_Update W (Splash.skillsTable s) msg).
      injection H as <- _. split; reflexivity.
    + injection H as <- _. split; reflexivity.
Qed.

Lemma Splash_keys_keep (s : Splash.model) :
  (Splash.showSplash (Splash.key_up s) = Splash.showSplash s
   /\ Splash.progress (Splash.key_up s) = Splash.progress s)
  /\ (Splash.showSplash (Splash.key_down s) = Splash.showSplash s
      /\ Splash.progress (Splash.key_down s) = Splash.progress s)
  /\ (Splash.showSplash (Splash.key_b s) = Splash.showSplash s
      /\ Splash.progress (Splash.key_b s) = Splash.progress s).
Proof.
  unfold Splash.key_up, Splash.key_down, Splash.key_b.
  repeat split; split_ifs; reflexivity.
Qed.

(** Once the splash screen is gone it stays gone, and the target of the
    progress bar stays a quarter. *)
Lemma Splash_Update_keeps (s s' : Splash.model) (msg : Msg)
    (cmd : option Cmd) :
  Splash.showSplash s = false ->
  quarter (Percent (Splash.progress s)) ->
  Splash.Update W s msg = Go.Ok (s', cmd) ->
  Splash.showSplash s' = false /\ quarter (Percent (Splash.progress s')).
Proof.
  intros Hsh Hq H.
  destruct msg as [k | w h | t | repos | err | u | f | o];
    try (destruct (Splash_tick W s t Hsh Hq)
           as (s1 & c1 & Hu1 & Hsh1 & Hq1 & _);
         rewrite Hu1 in H; injection H as <- _; split; assumption);
    unfold Splash.Update in H;
    destruct (stopwatch_Update W (Splash.stopwatch s) _) as [sw swCmd];
    set (s0 := Splash.with_stopwatch s sw) in *;
    assert (Hsh0 : Splash.showSplash s0 = false) by exact Hsh;
    assert (Hq0 : quarter (Percent (Splash.progress s0))) by exact Hq;
    clearbody s0; clear Hsh Hq s; rewrite Hsh0 in H;
    destruct (Splash_keys_keep s0) as ((Hu1 & Hu2) & (Hd1 & Hd2) & (Hb1 & Hb2)).
  - cbn in H.
    destruct (streq k "q"); [injection H as <- _; split; assumption |].
    destruct (streq k "up" || streq k "k").
    { destruct (Splash_after_switch_keeps _ _ _ _ _ H) as [-> ->].
      rewrite Hu1, Hu2. split; assumption. }
    destruct (streq k "down" || streq k "j").
    { destruct (Splash_after_switch_keeps _ _ _ _ _ H) as [-> ->].
      rewrite Hd1, Hd2. split; assumption. }
    destruct (streq k "enter").
    { unfold Splash.key_enter in H.
      destruct (streq (Splash.page s0) "menu").
      - destruct (Go.index (Splash.sections s0) (Splash.cursor s0))
          as [tg |]; cbn in H; [| discriminate].
        destruct (streq tg "Exit");
          [injection H as <- _; split; assumption |].
        cbn in H. destruct (String.eqb tg "Projects");
          injection H as <- _; cbn; (split; [exact Hsh0 | left; reflexivity]).
      - assert (Hsw : forall r,
                   Splash.after_switch W s0 swCmd (KeyMsg k) = Go.Ok r ->
                   Splash.showSplash (fst r) = false
                   /\ quarter (Percent (Splash.progress (fst r)))).
        { intros [s1 c1] Hr. cbn.
          destruct (Splash_after_switch_keeps _ _ _ _ _ Hr) as [-> ->].
          split; assumption. }
        destruct (streq (Splash.page s0) "Projects" && Splash.loaded s0);
          [| exact (Hsw _ H)].
        destruct (0 <? Go.len (Items (Splash.reposList s0)));
          [| exact (Hsw _ H)].
        destruct (SelectedItem (Splash.reposList s0)) as [it |];
          [| discriminate].
        destruct (negb (streq (url it) "")); [| exact (Hsw _ H)].
        injection H as <- _. split; assumption. }
    destruct (streq k "b").
    { destruct (Splash_after_switch_keeps _ _ _ _ _ H) as [-> ->].
      rewrite Hb1, Hb2. split; assumption. }
    destruct (Splash_after_switch_keeps _ _ _ _ _ H) as [-> ->].
    split; assumption.
  - cbn in H. injection H as <- _. split_ifs; cbn; split; assumption.
  - cbn in H. injection H as <- _. split; assumption.
  - cbn in H. injection H as <- _. split; assumption.
  - cbn in H. injection H as <- _. split; assumption.
  - cbn in H. unfold progress_Update in H.
    destruct (progress_animate W (Splash.progress s0) f).
    injection H as <- _. split; assumption.
  - cbn in H. destruct (Splash_after_switch_keeps _ _ _ _ _ H) as [-> ->].
    split; assumption.
Qed.

(** While the splash screen is shown no message touches the progress bar,
    the page, the cursor or the two flags. *)
Lemma Splash_Update_on_splash (s s' : Splash.model) (msg : Msg)
    (cmd : option Cmd) :
  Splash.showSplash s = true ->
  Splash.Update W s msg = Go.Ok (s', cmd) ->
  Splash.progress s' = Splash.progress s
  /\ Splash.page s' = Splash.page s
  /\ Splash.cursor s' = Splash.cursor s
  /\ Splash.loading s' = Splash.loading s
  /\ Splash.loaded s' = Splash.loaded s
  /\ cmd <> Some Quit.
Proof.
  intros Hsh H. unfold Splash.Update in H.
  destruct (stopwatch_Update W (Splash.stopwatch s) msg) as [sw swCmd].
  cbn in H. rewrite Hsh in H.
  destruct msg; cbn in H;
    try (injection H as <- <-; repeat split; discriminate).
  destruct (_ <=? 0); injection H as <- <-; repeat split; discriminate.
Qed.

(** The targets of the progress bar are quarters in every state the
    full-screen program reaches. *)
Lemma Splash_Update_quarter (s s' : Splash.model) (msg : Msg)
    (cmd : option Cmd) :
  quarter (Percent (Splash.progress s)) ->
  Splash.Update W s msg = Go.Ok (s', cmd) ->
  quarter (Percent (Splash.progress s')).
Proof.
  intros Hq H. destruct (Splash.showSplash s) eqn:Hsh.
  - destruct (Splash_Update_on_splash s s' msg cmd Hsh H) as (-> & _).
    exact Hq.
  - exact (proj2 (Splash_Update_keeps s s' msg cmd Hsh Hq H)).
Qed.

End SplashScreen.

(** * Further properties of the code *)

(** ** The fetch command *)

(** The command of [fetchGitHubRepos] answers with the repositories exactly
    when the status is 200 and the body decodes; a status other than 200,
    also one inside 2xx, gives the error with the status text whatever the
    body is; and only the answer for the fixed address is read. *)
Theorem fetch_result_characterised (http_Get : string -> GetResult) :
  (forall repos,
      Main.fetchGitHubRepos http_Get = repoMsg repos
      <-> exists resp,
            http_Get repos_url = GetResponse resp
            /\ StatusCode resp = 200
            /\ body resp = Decoded repos)
  /\ (forall resp,
         http_Get repos_url = GetResponse resp ->
         StatusCode resp <> 200 ->
         Main.fetchGitHubRepos http_Get
         = errMsg ("failed to fetch repositories: " ++ Status resp))
  /\ ((exists e, Main.fetchGitHubRepos http_Get = errMsg e)
      \/ (exists repos, Main.fetchGitHubRepos http_Get = repoMsg repos))
  /\ (forall other : string -> GetResult,
         other repos_url = http_Get repos_url ->
         Main.fetchGitHubRepos other = Main.fetchGitHubRepos http_Get).
Proof.
  unfold Main.fetchGitHubRepos, repos_url.
  generalize (http_Get
    "https://api.github.com/users/mhommet/repos?sort=updated&per_page=100").
  intro a. repeat split.
  - destruct a as [err | resp]; [discriminate |].
    destruct (Z.eqb_spec (StatusCode resp) StatusOK) as [E | E]; cbn.
    + destruct (body resp) as [err | rs] eqn:Hb; [discriminate |].
      intro H. injection H as ->. exists resp. auto.
    + discriminate.
  - intros (resp & -> & Hs & Hb). rewrite Hb.
    destruct (Z.eqb_spec (StatusCode resp) StatusOK) as [E | E]; cbn.
    + reflexivity.
    + contradiction.
  - intros resp -> Hs.
    destruct (Z.eqb_spec (StatusCode resp) StatusOK) as [E | E]; cbn.
    + contradiction.
    + reflexivity.
  - destruct a as [err | resp]; [left; eexists; reflexivity |].
    destruct (negb (StatusCode resp =? StatusOK));
      [left; eexists; reflexivity |].
    destruct (body resp); [left | right]; eexists; reflexivity.
  - intros other ->. reflexivity.
Qed.

(** ** Opening a URL *)

(** [openBrowser] starts one process: [cmd /c start url] on windows,
    [open url] on darwin, [xdg-open url] on every other system; the URL is
    always the last argument, on its own.  [openURL] answers with the
    error of the start when there is one, and with the URL otherwise. *)
Theorem openURL_outcome (GOOS : string) (start : Starter) (u : string) :
  Main.openBrowser "windows" start u = start "cmd" ["/c"; "start"; u]
  /\ Main.openBrowser "darwin" start u = start "open" [u]
  /\ (GOOS <> "windows" -> GOOS <> "darwin" ->
      Main.openBrowser GOOS start u = start "xdg-open" [u])
  /\ (forall e, Main.openBrowser GOOS start u = Some e <->
                Main.openURL GOOS start u = errMsg e)
  /\ (Main.openBrowser GOOS start u = None <->
      Main.openURL GOOS start u = openURLMsg u).
Proof.
  unfold Main.openURL. repeat split.
  - intros Hw Hd. apply streq_false in Hw, Hd.
    unfold Main.openBrowser. rewrite Hw, Hd. reflexivity.
  - intros ->. reflexivity.
  - destruct (Main.openBrowser GOOS start u); intro H;
      [injection H as -> | discriminate]; reflexivity.
  - intros ->. reflexivity.
  - destruct (Main.openBrowser GOOS start u); intro H;
      [discriminate | reflexivity].
Qed.

(** A browser that cannot be started takes the page away: the error of the
    start is stored in errorMsg like the error of a fetch, the page is
    marked loaded, and the frame is the error banner alone.  A browser that
    starts changes nothing in the model. *)
Theorem failed_browser_launch_shows_banner
    (W : Widgets) (GOOS : string) (start : Starter)
    (m : Main.model) (s : Splash.model) (u : string) (e : Go.error) :
  Main.openBrowser GOOS start u = Some e ->
  e <> "" ->
  Splash.showSplash s = false ->
  (exists m',
      Main.Update W m (Main.openURL GOOS start u) = Go.Ok (m', None)
      /\ Main.errorMsg m' = e
      /\ Main.loading m' = false
      /\ Main.loaded m' = true
      /\ Main.page m' = Main.page m
      /\ Main.reposList m' = Main.reposList m
      /\ Main.View m' = Main_banner e)
  /\ (exists s',
         Splash.Update W s (Splash.openURL GOOS start u) = Go.Ok (s', None)
         /\ Splash.errorMsg s' = e
         /\ Splash.loaded s' = true
         /\ Splash.page s' = Splash.page s)
  /\ Main.Update W m (Main.openURL GOOS working_starter u) = Go.Ok (m, None).
Proof.
  intros Hs He Hsh. unfold Splash.openURL, Main.openURL. rewrite Hs.
  apply streq_false in He. unfold streq in He.
  split; [| split].
  - eexists. split; [reflexivity |]. cbn. repeat split.
    unfold Main.View, Main_banner. cbn. rewrite He. reflexivity.
  - unfold Splash.Update.
    destruct (stopwatch_Update W (Splash.stopwatch s) (errMsg e)) as [sw c].
    cbn. rewrite Hsh. eexists. split; [reflexivity |]. repeat split.
  - unfold Main.openBrowser, working_starter.
    destruct (streq GOOS "windows"), (streq GOOS "darwin"); reflexivity.
Qed.

Lemma failed_browser_launch_shows_banner_witness :
  exists m',
    Main.Update reference Main_listed
      (Main.openURL "linux" (failing_starter "exec: not found")
         "https://github.com/mhommet/cli_portfolio") = Go.Ok (m', None)
    /\ Main.View m' = Main_banner "exec: not found".
Proof.
  destruct (failed_browser_launch_shows_banner reference "linux"
              (failing_starter "exec: not found") Main_listed Splash_projects
              "https://github.com/mhommet/cli_portfolio" "exec: not found")
    as ((m' & H1 & _ & _ & _ & _ & _ & H7) & _).
  - reflexivity.
  - discriminate.
  - reflexivity.
  - exists m'. auto.
Defined.

(** ** What every message keeps *)

Lemma index_in_range {A : Type} (l : list A) (i : Z) :
  0 <= i <= Go.len l - 1 -> exists a, Go.index l i = Go.Ok a /\ In a l.
Proof.
  unfold Go.index, Go.len. intros Hi.
  destruct (Z.ltb_spec i 0); [lia |].
  destruct (nth_error l (Z.to_nat i)) as [a |] eqn:Hn.
  - exists a. split; [reflexivity |]. eapply nth_error_In. exact Hn.
  - apply nth_error_None in Hn. lia.
Qed.

Lemma index_Ok_In {A : Type} (l : list A) (i : Z) (a : A) :
  Go.index l i = Go.Ok a -> In a l /\ 0 <= i <= Go.len l - 1.
Proof.
  unfold Go.index, Go.len.
  destruct (Z.ltb_spec i 0); [discriminate |].
  destruct (nth_error l (Z.to_nat i)) as [b |] eqn:Hn; [| discriminate].
  intro E. injection E as ->. split.
  - eapply nth_error_In. exact Hn.
  - assert (Z.to_nat i < List.length l)%nat
      by (apply nth_error_Some; rewrite Hn; discriminate).
    lia.
Qed.

Section MainFrame.

Context (W : Widgets).

Ltac split_ifs :=
  repeat match goal with
         | |- context [if ?b then _ else _] => destruct b
         end.

Lemma Main_after_switch_core (m m' : Main.model) (msg : Msg)
    (cmd : option Cmd) :
  Main.after_switch W m msg = Go.Ok (m', cmd) -> Main_core m' = Main_core m.
Proof.
  unfold Main.after_switch. intro H.
  destruct (streq (Main.page m) "Projects").
  - destruct (list_Update W (Main.reposList m) msg).
    injection H as <- _. reflexivity.
  - destruct (streq (Main.page m) "Skills").
    + destruct (table_Update W (Main.skillsTable m) msg).
      injection H as <- _. reflexivity.
    + injection H as <- _. reflexivity.
Qed.

Lemma Main_after_switch_total (m : Main.model) (msg : Msg) :
  exists r, Main.after_switch W m msg = Go.Ok r.
Proof.
  unfold Main.after_switch.
  destruct (streq (Main.page m) "Projects").
  - destruct (list_Update W (Main.reposList m) msg). eexists. reflexivity.
  - destruct (streq (Main.page m) "Skills").
    + destruct (table_Update W (Main.skillsTable m) msg).
      eexists. reflexivity.
    + eexists. reflexivity.
Qed.

Lemma Main_after_switch_fields (m m' : Main.model) (msg : Msg)
    (cmd : option Cmd) :
  Main.after_switch W m msg = Go.Ok (m', cmd) ->
  Main.cursor m' = Main.cursor m /\ Main.sections m' = Main.sections m
  /\ Main.page m' = Main.page m /\ Main.errorMsg m' = Main.errorMsg m.
Proof.
  intro H. apply Main_after_switch_core in H. unfold Main_core in H.
  inversion H. auto.
Qed.

Lemma Main_key_up_fields (m : Main.model) :
  Main.sections (Main.key_up m) = Main.sections m
  /\ Main.page (Main.key_up m) = Main.page m
  /\ Main.errorMsg (Main.key_up m) = Main.errorMsg m
  /\ (Main_cursor_ok m -> Main_cursor_ok (Main.key_up m)).
Proof.
  unfold Main.key_up, Main_cursor_ok.
  destruct (streq (Main.page m) "menu").
  - destruct (Z.ltb_spec 0 (Main.cursor m)); cbn; repeat split; lia.
  - split_ifs; cbn; auto.
Qed.

Lemma Main_key_down_fields (m : Main.model) :
  Main.sections (Main.key_down m) = Main.sections m
  /\ Main.page (Main.key_down m) = Main.page m
  /\ Main.errorMsg (Main.key_down m) = Main.errorMsg m
  /\ (Main_cursor_ok m -> Main_cursor_ok (Main.key_down m)).
Proof.
  unfold Main.key_down, Main_cursor_ok.
  destruct (streq (Main.page m) "menu").
  - destruct (Z.ltb_spec (Main.cursor m) (Go.len (Main.sections m) - 1));
      cbn; repeat split; lia.
  - split_ifs; cbn; auto.
Qed.

Lemma Main_key_b_fields (m : Main.model) :
  Main.sections (Main.key_b m) = Main.sections m
  /\ Main.errorMsg (Main.key_b m) = Main.errorMsg m
  /\ (Main_cursor_ok m -> Main_cursor_ok (Main.key_b m))
  /\ (Main_page_ok m -> Main_page_ok (Main.key_b m)).
Proof.
  unfold Main.key_b, Main_cursor_ok, Main_page_ok.
  destruct (negb (streq (Main.page m) "menu")); cbn; repeat split; auto; lia.
Qed.

(** One step of main.go: the sections never change, errorMsg changes only
    on an [errMsg], and the cursor and the page stay valid. *)
Lemma Main_Update_step (m m' : Main.model) (msg : Msg) (cmd : option Cmd) :
  Main.Update W m msg = Go.Ok (m', cmd) ->
  Main.sections m' = Main.sections m
  /\ (is_errMsg msg = false -> Main.errorMsg m' = Main.errorMsg m)
  /\ (Main_cursor_ok m -> Main_cursor_ok m')
  /\ (Main_page_ok m -> Main_page_ok m').
Proof.
  intro H.
  assert (Hsame : forall x,
             Main.after_switch W x msg = Go.Ok (m', cmd) ->
             Main.sections x = Main.sections m ->
             Main.errorMsg x = Main.errorMsg m ->
             (Main_cursor_ok m -> Main_cursor_ok x) ->
             (Main_page_ok m -> Main_page_ok x) ->
             Main.sections m' = Main.sections m
             /\ (is_errMsg msg = false -> Main.errorMsg m' = Main.errorMsg m)
             /\ (Main_cursor_ok m -> Main_cursor_ok m')
             /\ (Main_page_ok m -> Main_page_ok m')).
  { intros x Hx Hs He Hc Hp.
    destruct (Main_after_switch_fields _ _ _ _ Hx) as (Ec & Es & Ep & Ee).
    unfold Main_cursor_ok, Main_page_ok in *.
    rewrite Ec, Es, Ep, Ee. rewrite Hs in *. auto. }
  assert (Hid : Main.sections m = Main.sections m
                /\ (is_errMsg msg = false ->
                    Main.errorMsg m = Main.errorMsg m)
                /\ (Main_cursor_ok m -> Main_cursor_ok m)
                /\ (Main_page_ok m -> Main_page_ok m)) by auto.
  destruct msg as [k | w h | t | repos | err | u | f | o]; cbn in H.
  - destruct (streq k "q"); [injection H as <- _; exact Hid |].
    destruct (streq k "up" || streq k "k").
    { destruct (Main_key_up_fields m) as (Es & Ep & Ee & Ec).
      apply (Hsame _ H Es Ee Ec). unfold Main_page_ok.
      rewrite Es, Ep. auto. }
    destruct (streq k "down" || streq k "j").
    { destruct (Main_key_down_fields m) as (Es & Ep & Ee & Ec).
      apply (Hsame _ H Es Ee Ec). unfold Main_page_ok.
      rewrite Es, Ep. auto. }
    destruct (streq k "enter").
    { unfold Main.key_enter in H.
      destruct (streq (Main.page m) "menu").
      - destruct (Go.index (Main.sections m) (Main.cursor m)) as [tg |] eqn:Hi;
          cbn in H; [| discriminate].
        destruct (streq tg "Exit") eqn:Hex;
          [injection H as <- _; exact Hid |].
        apply streq_false in Hex. apply index_Ok_In in Hi.
        cbn in H. destruct (String.eqb tg "Projects");
          injection H as <- _; clear Hsame Hid;
          (split; [reflexivity |]); (split; [intros _; reflexivity |]);
          (split; [intro Hc; exact Hc |]);
          intros _; right; cbn; tauto.
      - destruct (streq (Main.page m) "Projects" && Main.loaded m);
          [| apply (Hsame m H); auto].
        destruct (0 <? Go.len (Items (Main.reposList m)));
          [| apply (Hsame m H); auto].
        destruct (SelectedItem (Main.reposList m)) as [it |];
          [| discriminate].
        destruct (negb (streq (url it) "")); [| apply (Hsame m H); auto].
        injection H as <- _. exact Hid. }
    destruct (streq k "b").
    { destruct (Main_key_b_fields m) as (Es & Ee & Ec & Ep).
      apply (Hsame _ H Es Ee Ec Ep). }
    apply (Hsame m H); auto.
  - injection H as <- _. split_ifs; cbn; exact Hid.
  - destruct (PrimFloat.eqb _ _).
    + injection H as <- _. exact Hid.
    + injection H as <- _. exact Hid.
  - injection H as <- _. exact Hid.
  - injection H as <- _. clear Hsame Hid.
    split; [reflexivity |]. split; [discriminate |].
    split; intro X; exact X.
  - injection H as <- _. exact Hid.
  - unfold progress_Update in H.
    destruct (progress_animate W (Main.progress m) f).
    injection H as <- _. exact Hid.
  - apply (Hsame m H); auto.
Qed.

End MainFrame.

Section MainRuns.

Context (W : Widgets).

(** The only panic of one step of main.go, when the cursor is inside the
    menu, is the type assertion on a nil selected item. *)
Lemma Main_Update_panic (m : Main.model) (msg : Msg) (why : string) :
  Main_cursor_ok m ->
  Main.Update W m msg = Go.Panic why ->
  why = nil_assertion
  /\ msg = KeyMsg "enter"
  /\ Main.page m = "Projects"
  /\ Main.loaded m = true
  /\ 0 < Go.len (Items (Main.reposList m))
  /\ SelectedItem (Main.reposList m) = None.
Proof.
  intros Hc H.
  assert (Hsw : forall x, Main.after_switch W x msg <> Go.Panic why).
  { intros x Hx. destruct (Main_after_switch_total W x msg) as [r Hr].
    rewrite Hr in Hx. discriminate. }
  destruct msg as [k | w h | t | repos | err | u | f | o]; cbn in H;
    try discriminate; try (exfalso; exact (Hsw _ H)).
  - destruct (streq k "q"); [discriminate |].
    destruct (streq k "up" || streq k "k"); [exfalso; exact (Hsw _ H) |].
    destruct (streq k "down" || streq k "j"); [exfalso; exact (Hsw _ H) |].
    destruct (streq k "enter") eqn:Hk.
    + apply streq_true in Hk. subst k. unfold Main.key_enter in H.
      destruct (streq (Main.page m) "menu").
      * destruct (index_in_range (Main.sections m) (Main.cursor m) Hc)
          as (tg & Hi & _).
        rewrite Hi in H. cbn in H.
        destruct (streq tg "Exit"); [discriminate |].
        cbn in H. destruct (String.eqb tg "Projects"); discriminate.
      * destruct (streq (Main.page m) "Projects") eqn:Hp;
          [| exfalso; exact (Hsw _ H)].
        destruct (Main.loaded m) eqn:Hl; [| exfalso; exact (Hsw _ H)].
        cbn in H.
        destruct (Z.ltb_spec 0 (Go.len (Items (Main.reposList m))));
          [| exfalso; exact (Hsw _ H)].
        destruct (SelectedItem (Main.reposList m)) as [it |].
        -- destruct (negb (streq (url it) ""));
             [discriminate | exfalso; exact (Hsw _ H)].
        -- injection H as <-. apply streq_true in Hp. auto 6.
    + destruct (streq k "b"); exfalso; exact (Hsw _ H).
  - destruct (PrimFloat.eqb _ _); discriminate.
  - unfold progress_Update in H.
    destruct (progress_animate W (Main.progress m) f). discriminate.
Qed.

Lemma Main_run_keeps (msgs : list Msg) :
  forall m m' : Main.model,
    Main_run W m msgs = Go.Ok m' ->
    Main.sections m' = Main.sections m
    /\ (forallb (fun x => negb (is_errMsg x)) msgs = true ->
        Main.errorMsg m' = Main.errorMsg m)
    /\ (Main_cursor_ok m -> Main_cursor_ok m')
    /\ (Main_page_ok m -> Main_page_ok m').
Proof.
  induction msgs as [| msg msgs IH]; intros m m' H.
  - injection H as <-. auto.
  - cbn [Main_run] in H.
    destruct (Main.Update W m msg) as [[m1 c1] | why] eqn:Hu;
      cbn in H; [| discriminate].
    destruct (Main_Update_step W _ _ _ _ Hu) as (Es & Ee & Ec & Ep).
    destruct (IH _ _ H) as (Es' & Ee' & Ec' & Ep').
    split; [congruence |]. split; [| auto].
    cbn [forallb]. intro Hf. apply andb_prop in Hf. destruct Hf as [Hf1 Hf2].
    apply negb_true_iff in Hf1. rewrite (Ee' Hf2). exact (Ee Hf1).
Qed.

Lemma Main_run_panic (msgs : list Msg) :
  forall (m : Main.model) (why : string),
    Main_cursor_ok m ->
    Main_run W m msgs = Go.Panic why -> why = nil_assertion.
Proof.
  induction msgs as [| msg msgs IH]; intros m why Hc H.
  - discriminate.
  - cbn [Main_run] in H.
    destruct (Main.Update W m msg) as [[m1 c1] | why1] eqn:Hu; cbn in H.
    + destruct (Main_Update_step W _ _ _ _ Hu) as (_ & _ & Ec & _).
      exact (IH m1 why (Ec Hc) H).
    + injection H as <-.
      exact (proj1 (Main_Update_panic m msg why1 Hc Hu)).
Qed.

End MainRuns.

Section SplashFrame.

Context (W : Widgets).

Ltac split_ifs :=
  repeat match goal with
         | |- context [if ?b then _ else _] => destruct b
         end.

Lemma Splash_after_switch_fields (s s' : Splash.model) (swCmd : option Cmd)
    (msg : Msg) (cmd : option Cmd) :
  Splash.after_switch W s swCmd msg = Go.Ok (s', cmd) ->
  Splash.cursor s' = Splash.cursor s
  /\ Splash.sections s' = Splash.sections s
  /\ Splash.page s' = Splash.page s
  /\ Splash.errorMsg s' = Splash.errorMsg s.
Proof.
  unfold Splash.after_switch. intro H.
  destruct (streq (Splash.page s) "Projects").
  - destruct (list_Update W (Splash.reposList s) msg).
    injection H as <- _. auto.
  - destruct (streq (Splash.page s) "Skills").
    + destruct (table_Update W (Splash.skillsTable s) msg).
      injection H as <- _. auto.
    + injection H as <- _. auto.
Qed.

Lemma Splash_after_switch_total (s : Splash.model) (swCmd : option Cmd)
    (msg : Msg) :
  exists r, Splash.after_switch W s swCmd msg = Go.Ok r.
Proof.
  unfold Splash.after_switch.
  destruct (streq (Splash.page s) "Projects").
  - destruct (list_Update W (Splash.reposList s) msg). eexists. reflexivity.
  - destruct (streq (Splash.page s) "Skills").
    + destruct (table_Update W (Splash.skillsTable s) msg).
      eexists. reflexivity.
    + eexists. reflexivity.
Qed.

Lemma Splash_key_up_fields (s : Splash.model) :
  Splash.sections (Splash.key_up s) = Splash.sections s
  /\ Splash.page (Splash.key_up s) = Splash.page s
  /\ Splash.errorMsg (Splash.key_up s) = Splash.errorMsg s
  /\ (Splash_cursor_ok s -> Splash_cursor_ok (Splash.key_up s)).
Proof.
  unfold Splash.key_up, Splash_cursor_ok.
  destruct (streq (Splash.page s) "menu").
  - destruct (Z.ltb_spec 0 (Splash.cursor s)); cbn; repeat split; lia.
  - split_ifs; cbn; auto.
Qed.

Lemma Splash_key_down_fields (s : Splash.model) :
  Splash.sections (Splash.key_down s) = Splash.sections s
  /\ Splash.page (Splash.key_down s) = Splash.page s
  /\ Splash.errorMsg (Splash.key_down s) = Splash.errorMsg s
  /\ (Splash_cursor_ok s -> Splash_cursor_ok (Splash.key_down s)).
Proof.
  unfold Splash.key_down, Splash_cursor_ok.
  destruct (streq (Splash.page s) "menu").
  - destruct (Z.ltb_spec (Splash.cursor s)
                (Go.len (Splash.sections s) - 1));
      cbn; repeat split; lia.
  - split_ifs; cbn; auto.
Qed.

Lemma Splash_key_b_fields (s : Splash.model) :
  Splash.sections (Splash.key_b s) = Splash.sections s
  /\ Splash.errorMsg (Splash.key_b s) = Splash.errorMsg s
  /\ (Splash_cursor_ok s -> Splash_cursor_ok (Splash.key_b s))
  /\ (Splash_page_ok s -> Splash_page_ok (Splash.key_b s)).
Proof.
  unfold Splash.key_b, Splash_cursor_ok, Splash_page_ok.
  destruct (negb (streq (Splash.page s) "menu")); cbn; repeat split;
    auto; lia.
Qed.

(** One step of the full-screen program. *)
Lemma Splash_Update_step (s s' : Splash.model) (msg : Msg)
    (cmd : option Cmd) :
  Splash.Update W s msg = Go.Ok (s', cmd) ->
  Splash.sections s' = Splash.sections s
  /\ (is_errMsg msg = false -> Splash.errorMsg s' = Splash.errorMsg s)
  /\ (Splash_cursor_ok s -> Splash_cursor_ok s')
  /\ (Splash_page_ok s -> Splash_page_ok s').
Proof.
  unfold Splash.Update. intro H.
  destruct (stopwatch_Update W (Splash.stopwatch s) msg) as [sw swCmd].
  change (Splash.sections s) with
    (Splash.sections (Splash.with_stopwatch s sw)).
  change (Splash.errorMsg s) with
    (Splash.errorMsg (Splash.with_stopwatch s sw)).
  change (Splash_cursor_ok s) with
    (Splash_cursor_ok (Splash.with_stopwatch s sw)).
  change (Splash_page_ok s) with
    (Splash_page_ok (Splash.with_stopwatch s sw)).
  set (m := Splash.with_stopwatch s sw) in *. clearbody m. clear s sw.
  assert (Hid : Splash.sections m = Splash.sections m
                /\ (is_errMsg msg = false ->
                    Splash.errorMsg m = Splash.errorMsg m)
                /\ (Splash_cursor_ok m -> Splash_cursor_ok m)
                /\ (Splash_page_ok m -> Splash_page_ok m)) by auto.
  destruct (Splash.showSplash m).
  { destruct msg; cbn in H; try (injection H as <- _; exact Hid).
    destruct (_ <=? 0); injection H as <- _; exact Hid. }
  assert (Hsame : forall x,
             Splash.after_switch W x swCmd msg = Go.Ok (s', cmd) ->
             Splash.sections x = Splash.sections m ->
             Splash.errorMsg x = Splash.errorMsg m ->
             (Splash_cursor_ok m -> Splash_cursor_ok x) ->
             (Splash_page_ok m -> Splash_page_ok x) ->
             Splash.sections s' = Splash.sections m
             /\ (is_errMsg msg = false ->
                 Splash.errorMsg s' = Splash.errorMsg m)
             /\ (Splash_cursor_ok m -> Splash_cursor_ok s')
             /\ (Splash_page_ok m -> Splash_page_ok s')).
  { intros x Hx Hs He Hc Hp.
    destruct (Splash_after_switch_fields _ _ _ _ _ Hx) as (Ec & Es & Ep & Ee).
    unfold Splash_cursor_ok, Splash_page_ok in *.
    rewrite Ec, Es, Ep, Ee. rewrite Hs in *. auto. }
  destruct msg as [k | w h | t | repos | err | u | f | o]; cbn in H.
  - destruct (streq k "q"); [injection H as <- _; exact Hid |].
    destruct (streq k "up" || streq k "k").
    { destruct (Splash_key_up_fields m) as (Es & Ep & Ee & Ec).
      apply (Hsame _ H Es Ee Ec). unfold Splash_page_ok.
      rewrite Es, Ep. auto. }
    destruct (streq k "down" || streq k "j").
    { destruct (Splash_key_down_fields m) as (Es & Ep & Ee & Ec).
      apply (Hsame _ H Es Ee Ec). unfold Splash_page_ok.
      rewrite Es, Ep. auto. }
    destruct (streq k "enter").
    { unfold Splash.key_enter in H.
      destruct (streq (Splash.page m) "menu").
      - destruct (Go.index (Splash.sections m) (Splash.cursor m))
          as [tg |] eqn:Hi; cbn in H; [| discriminate].
        destruct (streq tg "Exit") eqn:Hex;
          [injection H as <- _; exact Hid |].
        apply streq_false in Hex. apply index_Ok_In in Hi.
        cbn in H. destruct (String.eqb tg "Projects");
          injection H as <- _; clear Hsame Hid;
          (split; [reflexivity |]); (split; [intros _; reflexivity |]);
          (split; [intro Hc; exact Hc |]);
          intros _; right; cbn; tauto.
      - destruct (streq (Splash.page m) "Projects" && Splash.loaded m);
          [| apply (Hsame m H); auto].
        destruct (0 <? Go.len (Items (Splash.reposList m)));
          [| apply (Hsame m H); auto].
        destruct (SelectedItem (Splash.reposList m)) as [it |];
          [| discriminate].
        destruct (negb (streq (url it) "")); [| apply (Hsame m H); auto].
        injection H as <- _. exact Hid. }
    destruct (streq k "b").
    { destruct (Splash_key_b_fields m) as (Es & Ee & Ec & Ep).
      apply (Hsame _ H Es Ee Ec Ep). }
    apply (Hsame m H); auto.
  - injection H as <- _. split_ifs; cbn; exact Hid.
  - destruct (PrimFloat.eqb _ _).
    + injection H as <- _. exact Hid.
    + injection H as <- _. exact Hid.
  - injection H as <- _. exact Hid.
  - injection H as <- _. clear Hsame Hid.
    split; [reflexivity |]. split; [discriminate |].
    split; intro X; exact X.
  - injection H as <- _. exact Hid.
  - unfold progress_Update in H.
    destruct (progress_animate W (Splash.progress m) f).
    injection H as <- _. exact Hid.
  - apply (Hsame m H); auto.
Qed.

Lemma Splash_Update_panic (s : Splash.model) (msg : Msg) (why : string) :
  Splash_cursor_ok s ->
  Splash.Update W s msg = Go.Panic why ->
  why = nil_assertion
  /\ msg = KeyMsg "enter"
  /\ Splash.showSplash s = false
  /\ Splash.page s = "Projects"
  /\ Splash.loaded s = true
  /\ 0 < Go.len (Items (Splash.reposList s))
  /\ SelectedItem (Splash.reposList s) = None.
Proof.
  unfold Splash.Update. intros Hc H.
  destruct (stopwatch_Update W (Splash.stopwatch s) msg) as [sw swCmd].
  change (Splash.showSplash s) with
    (Splash.showSplash (Splash.with_stopwatch s sw)).
  change (Splash.page s) with (Splash.page (Splash.with_stopwatch s sw)).
  change (Splash.loaded s) with (Splash.loaded (Splash.with_stopwatch s sw)).
  change (Splash.reposList s) with
    (Splash.reposList (Splash.with_stopwatch s sw)).
  change (Splash_cursor_ok (Splash.with_stopwatch s sw)) in Hc.
  set (m := Splash.with_stopwatch s sw) in *. clearbody m. clear s sw.
  destruct (Splash.showSplash m).
  { destruct msg; cbn in H; try discriminate.
    destruct (_ <=? 0); discriminate. }
  assert (Hsw : forall x, Splash.after_switch W x swCmd msg <> Go.Panic why).
  { intros x Hx. destruct (Splash_after_switch_total x swCmd msg) as [r Hr].
    rewrite Hr in Hx. discriminate. }
  destruct msg as [k | w h | t | repos | err | u | f | o]; cbn in H;
    try discriminate; try (exfalso; exact (Hsw _ H)).
  - destruct (streq k "q"); [discriminate |].
    destruct (streq k "up" || streq k "k"); [exfalso; exact (Hsw _ H) |].
    destruct (streq k "down" || streq k "j"); [exfalso; exact (Hsw _ H) |].
    destruct (streq k "enter") eqn:Hk.
    + apply streq_true in Hk. subst k. unfold Splash.key_enter in H.
      destruct (streq (Splash.page m) "menu").
      * destruct (index_in_range (Splash.sections m) (Splash.cursor m) Hc)
          as (tg & Hi & _).
        rewrite Hi in H. cbn in H.
        destruct (streq tg "Exit"); [discriminate |].
        cbn in H. destruct (String.eqb tg "Projects"); discriminate.
      * destruct (streq (Splash.page m) "Projects") eqn:Hp;
          [| exfalso; exact (Hsw _ H)].
        destruct (Splash.loaded m) eqn:Hl; [| exfalso; exact (Hsw _ H)].
        cbn in H.
        destruct (Z.ltb_spec 0 (Go.len (Items (Splash.reposList m))));
          [| exfalso; exact (Hsw _ H)].
        destruct (SelectedItem (Splash.reposList m)) as [it |].
        -- destruct (negb (streq (url it) ""));
             [discriminate | exfalso; exact (Hsw _ H)].
        -- injection H as <-. apply streq_true in Hp. auto 7.
    + destruct (streq k "b"); exfalso; exact (Hsw _ H).
  - destruct (PrimFloat.eqb _ _); discriminate.
  - unfold progress_Update in H.
    destruct (progress_animate W (Splash.progress m) f). discriminate.
Qed.

Lemma Splash_run_keeps (msgs : list Msg) :
  forall s s' : Splash.model,
    Splash_run W s msgs = Go.Ok s' ->
    Splash.sections s' = Splash.sections s
    /\ (forallb (fun x => negb (is_errMsg x)) msgs = true ->
        Splash.errorMsg s' = Splash.errorMsg s)
    /\ (Splash_cursor_ok s -> Splash_cursor_ok s')
    /\ (Splash_page_ok s -> Splash_page_ok s').
Proof.
  induction msgs as [| msg msgs IH]; intros s s' H.
  - injection H as <-. auto.
  - cbn [Splash_run] in H.
    destruct (Splash.Update W s msg) as [[s1 c1] | why] eqn:Hu;
      cbn in H; [| discriminate].
    destruct (Splash_Update_step _ _ _ _ Hu) as (Es & Ee & Ec & Ep).
    destruct (IH _ _ H) as (Es' & Ee' & Ec' & Ep').
    split; [congruence |]. split; [| auto].
    cbn [forallb]. intro Hf. apply andb_prop in Hf. destruct Hf as [Hf1 Hf2].
    apply negb_true_iff in Hf1. rewrite (Ee' Hf2). exact (Ee Hf1).
Qed.

Lemma Splash_run_panic (msgs : list Msg) :
  forall (s : Splash.model) (why : string),
    Splash_cursor_ok s ->
    Splash_run W s msgs = Go.Panic why -> why = nil_assertion.
Proof.
  induction msgs as [| msg msgs IH]; intros s why Hc H.
  - discriminate.
  - cbn [Splash_run] in H.
    destruct (Splash.Update W s msg) as [[s1 c1] | why1] eqn:Hu; cbn in H.
    + destruct (Splash_Update_step _ _ _ _ Hu) as (_ & _ & Ec & _).
      exact (IH s1 why (Ec Hc) H).
    + injection H as <-.
      exact (proj1 (Splash_Update_panic s msg why1 Hc Hu)).
Qed.

End SplashFrame.

(** The error text is sticky: along a run without [errMsg] messages,
    whatever the keys, ticks, sizes and fetch results in it, errorMsg at the
    end is errorMsg at the start, in both programs. *)
Theorem errorMsg_changes_only_on_errMsg (W : Widgets) (msgs : list Msg) :
  forallb (fun x => negb (is_errMsg x)) msgs = true ->
  (forall m m' : Main.model,
      Main_run W m msgs = Go.Ok m' -> Main.errorMsg m' = Main.errorMsg m)
  /\ (forall s s' : Splash.model,
         Splash_run W s msgs = Go.Ok s' ->
         Splash.errorMsg s' = Splash.errorMsg s).
Proof.
  intro Hf. split.
  - intros m m' H. exact (proj1 (proj2 (Main_run_keeps W msgs m m' H)) Hf).
  - intros s s' H. exact (proj1 (proj2 (Splash_run_keeps W msgs s s' H)) Hf).
Qed.

Lemma errorMsg_changes_only_on_errMsg_witness :
  Main.errorMsg
    (final Main_projects
       (Main_run reference Main_projects
          [not_found; KeyMsg "b"; KeyMsg "enter"; tickMsg 0;
           repoMsg three_repos]))
  = "failed to fetch repositories: 404 Not Found".
Proof.
  pose proof (errorMsg_changes_only_on_errMsg reference
                [KeyMsg "b"; KeyMsg "enter"; tickMsg 0; repoMsg three_repos]
                eq_refl) as [H _].
  rewrite (H (fst (final (Main_projects, None)
                     (Main.Update reference Main_projects not_found)))
             (final Main_projects
                (Main_run reference Main_projects
                   [not_found; KeyMsg "b"; KeyMsg "enter"; tickMsg 0;
                    repoMsg three_repos]))).
  - reflexivity.
  - vm_compute. reflexivity.
Defined.

(** Every state that either program reaches from its first state has the
    seven sections of the first state, the cursor inside the menu, and a
    page that is the menu or one of the sections and never "Exit". *)
Theorem reachable_states_are_valid (W : Widgets) (msgs : list Msg) :
  (forall m : Main.model,
      Main_from_start W msgs = Go.Ok m ->
      Main.sections m = Main.sections (Main.initialModel W)
      /\ 0 <= Main.cursor m <= 6
      /\ Main_page_ok m)
  /\ (forall s : Splash.model,
         Splash_from_start W msgs = Go.Ok s ->
         Splash.sections s = Splash.sections (Splash.initialModel W)
         /\ 0 <= Splash.cursor s <= 6
         /\ Splash_page_ok s).
Proof.
  split.
  - intros m H.
    destruct (Main_run_keeps W msgs _ _ H) as (Es & _ & Ec & Ep).
    split; [exact Es |]. split.
    + assert (Hc : Main_cursor_ok m)
        by (apply Ec; unfold Main_cursor_ok; cbn; lia).
      unfold Main_cursor_ok in Hc. rewrite Es in Hc. cbn in Hc. lia.
    + apply Ep. left. reflexivity.
  - intros s H.
    destruct (Splash_run_keeps W msgs _ _ H) as (Es & _ & Ec & Ep).
    split; [exact Es |]. split.
    + assert (Hc : Splash_cursor_ok s)
        by (apply Ec; unfold Splash_cursor_ok; cbn; lia).
      unfold Splash_cursor_ok in Hc. rewrite Es in Hc. cbn in Hc. lia.
    + apply Ep. left. reflexivity.
Qed.

(** From the first state, the index into the sections is never out of
    range: the only panic a run can end with is the type assertion on a nil
    selected item; and one step panics only on the enter key, on the loaded
    Projects page, with a list that is not empty and a selected index
    outside it. *)
Theorem only_panic_is_the_nil_assertion (W : Widgets) (msgs : list Msg) :
  (forall why, Main_from_start W msgs = Go.Panic why -> why = nil_assertion)
  /\ (forall why,
         Splash_from_start W msgs = Go.Panic why -> why = nil_assertion)
  /\ (forall (m : Main.model) (msg : Msg) (why : string),
         Main_cursor_ok m ->
         Main.Update W m msg = Go.Panic why ->
         msg = KeyMsg "enter"
         /\ Main.page m = "Projects"
         /\ Main.loaded m = true
         /\ 0 < Go.len (Items (Main.reposList m))
         /\ ~ (0 <= Index (Main.reposList m)
                < Go.len (Items (Main.reposList m))))
  /\ (forall (s : Splash.model) (msg : Msg) (why : string),
         Splash_cursor_ok s ->
         Splash.Update W s msg = Go.Panic why ->
         msg = KeyMsg "enter"
         /\ Splash.page s = "Projects"
         /\ Splash.loaded s = true
         /\ 0 < Go.len (Items (Splash.reposList s))
         /\ ~ (0 <= Index (Splash.reposList s)
                < Go.len (Items (Splash.reposList s)))).
Proof.
  split; [| split; [| split]].
  - intros why H. apply (Main_run_panic W msgs (Main.initialModel W) why);
      [unfold Main_cursor_ok; cbn; lia | exact H].
  - intros why H. apply (Splash_run_panic W msgs (Splash.initialModel W) why);
      [unfold Splash_cursor_ok; cbn; lia | exact H].
  - intros m msg why Hc H.
    destruct (Main_Update_panic W m msg why Hc H)
      as (_ & Hm & Hp & Hl & Hn & Hs).
    apply SelectedItem_nil in Hs. auto.
  - intros s msg why Hc H.
    destruct (Splash_Update_panic W s msg why Hc H)
      as (_ & Hm & _ & Hp & Hl & Hn & Hs).
    apply SelectedItem_nil in Hs. auto.
Qed.

Lemma only_panic_is_the_nil_assertion_witness :
  Main_from_start reference (open_projects ++ shorter_refetch)
  = Go.Panic nil_assertion.
Proof.
  destruct (Main_from_start reference (open_projects ++ shorter_refetch))
    as [m | why] eqn:H.
  - vm_compute in H. discriminate H.
  - f_equal.
    exact (proj1 (only_panic_is_the_nil_assertion reference
                    (open_projects ++ shorter_refetch)) why H).
Defined.

(** ** Keys that mean nothing on the current page *)

(** In main.go a key changes nothing and asks for nothing when it has no
    meaning where it is pressed: on the menu, every key but q, enter and
    the four move keys ("b" too); on a page other than the menu, Projects
    and Skills, every key but q and "b" (enter and the move keys too). *)
Theorem keys_without_meaning_change_nothing
    (W : Widgets) (m : Main.model) (k : string) :
  k <> "q" ->
  (Main.page m = "menu" /\ is_move k = false /\ k <> "enter")
  \/ (Main.page m <> "menu" /\ Main.page m <> "Projects"
      /\ Main.page m <> "Skills" /\ k <> "b") ->
  Main.Update W m (KeyMsg k) = Go.Ok (m, None).
Proof.
  intros Hq Hcase. destruct m as [c secs ld pr pg done rl st e].
  cbn [Main.page] in Hcase. apply streq_false in Hq.
  unfold Main.Update, Main.key_up, Main.key_down, Main.key_enter, Main.key_b,
    Main.after_switch.
  destruct Hcase as [(-> & Hm & He) | (Hp1 & Hp2 & Hp3 & Hb)].
  - unfold is_move, is_up, is_down in Hm.
    apply orb_false_elim in Hm. destruct Hm as [Hu Hd].
    apply streq_false in He. unfold streq in *. cbn.
    rewrite Hq, Hu, Hd, He.
    destruct (String.eqb k "b"); reflexivity.
  - apply streq_false in Hp1, Hp2, Hp3, Hb. unfold streq in *. cbn.
    rewrite Hq.
    destruct (String.eqb k "up" || String.eqb k "k"); cbn;
      [rewrite ?Hp1, ?Hp2, ?Hp3; cbn; rewrite ?Hp1, ?Hp2, ?Hp3;
       reflexivity |].
    destruct (String.eqb k "down" || String.eqb k "j"); cbn;
      [rewrite ?Hp1, ?Hp2, ?Hp3; cbn; rewrite ?Hp1, ?Hp2, ?Hp3;
       reflexivity |].
    rewrite Hb.
    destruct (String.eqb k "enter"); cbn;
      rewrite ?Hp1, ?Hp2, ?Hp3; cbn; rewrite ?Hp1, ?Hp2, ?Hp3; reflexivity.
Qed.

Lemma keys_without_meaning_change_nothing_witness :
  Main.Update reference (Main.initialModel reference) (KeyMsg "b")
  = Go.Ok (Main.initialModel reference, None).
Proof.
  apply (keys_without_meaning_change_nothing reference
           (Main.initialModel reference) "b").
  - discriminate.
  - left. repeat split. discriminate.
Defined.

(** ** When the browser is launched *)

Lemma reference_never_opens : widgets_never_open reference.
Proof.
  unfold widgets_never_open. cbn. split; [| split].
  - intros l msg u.
    unfold reference_list_Update, list_handleBrowsing.
    destruct msg as [k | | | | | | | o]; cbn; try discriminate.
    + repeat match goal with
             | |- context [if ?b then _ else _] => destruct b; cbn
             | |- context [match ?x with _ => _ end] => destruct x; cbn
             end; discriminate.
    + destruct o; cbn; discriminate.
  - intros t msg u. unfold reference_table_Update.
    destruct (negb (focus t)); cbn; [discriminate |].
    destruct msg; cbn; try discriminate.
    repeat match goal with
           | |- context [if ?b then _ else _] => destruct b; cbn
           end; discriminate.
  - intros p f u. unfold reference_progress_animate.
    destruct (PrimFloat.eqb _ _); cbn; discriminate.
Qed.

(** main.go asks for a browser launch in one place only: a step returns
    the launch of [u] only for the enter key on the loaded Projects page,
    with [u] the URL of the selected item and not empty; the model is left
    as it is.  (The widgets' handlers ask for none.) *)
Theorem browser_opens_only_on_enter
    (W : Widgets) (m m' : Main.model) (msg : Msg) (u : string) :
  widgets_never_open W ->
  Main.Update W m msg = Go.Ok (m', Some (OpenURL u)) ->
  msg = KeyMsg "enter"
  /\ Main.page m = "Projects"
  /\ Main.loaded m = true
  /\ (exists it, SelectedItem (Main.reposList m) = Some it /\ url it = u)
  /\ u <> ""
  /\ m' = m.
Proof.
  intros (Hl & Ht & Hp) H.
  assert (Hsw : forall x, Main.after_switch W x msg
                          <> Go.Ok (m', Some (OpenURL u))).
  { intros x Hx. unfold Main.after_switch in Hx.
    destruct (streq (Main.page x) "Projects").
    - pose proof (Hl (Main.reposList x) msg u) as Hn.
      destruct (list_Update W (Main.reposList x) msg) as [l c].
      injection Hx as _ Hc. cbn in Hn. congruence.
    - destruct (streq (Main.page x) "Skills").
      + pose proof (Ht (Main.skillsTable x) msg u) as Hn.
        destruct (table_Update W (Main.skillsTable x) msg) as [t c].
        injection Hx as _ Hc. cbn in Hn. congruence.
      + discriminate. }
  destruct msg as [k | w h | t | repos | err | v | f | o]; cbn in H;
    try discriminate; try (exfalso; exact (Hsw _ H)).
  - destruct (streq k "q"); [discriminate |].
    destruct (streq k "up" || streq k "k"); [exfalso; exact (Hsw _ H) |].
    destruct (streq k "down" || streq k "j"); [exfalso; exact (Hsw _ H) |].
    destruct (streq k "enter") eqn:Hk.
    + apply streq_true in Hk. subst k. unfold Main.key_enter in H.
      destruct (streq (Main.page m) "menu").
      * destruct (Go.index (Main.sections m) (Main.cursor m)) as [tg |];
          cbn in H; [| discriminate].
        destruct (streq tg "Exit"); [discriminate |].
        cbn in H. destruct (String.eqb tg "Projects"); discriminate.
      * destruct (streq (Main.page m) "Projects") eqn:Hpg;
          [| exfalso; exact (Hsw _ H)].
        destruct (Main.loaded m) eqn:Hld; [| exfalso; exact (Hsw _ H)].
        cbn in H.
        destruct (0 <? Go.len (Items (Main.reposList m)));
          [| exfalso; exact (Hsw _ H)].
        destruct (SelectedItem (Main.reposList m)) as [it |];
          [| discriminate].
        destruct (streq (url it) "") eqn:Hu; cbn in H;
          [exfalso; exact (Hsw _ H) |].
        injection H as <- <-. apply streq_true in Hpg.
        apply streq_false in Hu. repeat split; auto. exists it. auto.
    + destruct (streq k "b"); exfalso; exact (Hsw _ H).
  - destruct (PrimFloat.eqb _ _); discriminate.
  - unfold progress_Update in H.
    pose proof (Hp (Main.progress m) f u) as Hn.
    destruct (progress_animate W (Main.progress m) f) as [x c].
    injection H as _ Hc. cbn in Hn. congruence.
Qed.

Lemma browser_opens_only_on_enter_witness :
  exists it,
    SelectedItem (Main.reposList Main_listed) = Some it
    /\ url it = "https://github.com/mhommet/cli_portfolio".
Proof.
  destruct (browser_opens_only_on_enter reference Main_listed Main_listed
              (KeyMsg "enter") "https://github.com/mhommet/cli_portfolio"
              reference_never_opens eq_refl)
    as (_ & _ & _ & H & _).
  exact H.
Defined.

(** ** Window sizes *)

Lemma wrap_small (z : Z) : - 2 ^ 63 <= z < 2 ^ 63 -> Go.wrap z = z.
Proof.
  intro H. unfold Go.wrap. rewrite Z.mod_small; lia.
Qed.

Lemma wrap_range (z : Z) : - 2 ^ 63 <= Go.wrap z < 2 ^ 63.
Proof.
  unfold Go.wrap.
  pose proof (Z.mod_pos_bound (z + 2 ^ 63) (2 ^ 64) ltac:(lia)). lia.
Qed.

(** A window size changes the width of the progress bar and nothing else
    of the session in main.go (the list is resized on the Projects page
    only).  The width is the window's width less 8, cut at maxWidth = 80
    from above and not cut from below: under 8 columns it is negative. *)
Theorem resize_sets_the_progress_width
    (W : Widgets) (m : Main.model) (w h : Z) :
  exists m',
    Main.Update W m (WindowSizeMsg w h) = Go.Ok (m', None)
    /\ progress_Width (Main.progress m') <= Main.maxWidth
    /\ (- 2 ^ 63 + 8 <= w <= 88 ->
        progress_Width (Main.progress m') = w - 8)
    /\ (88 <= w < 2 ^ 63 -> progress_Width (Main.progress m') = 80)
    /\ Percent (Main.progress m') = Percent (Main.progress m)
    /\ Main_core (Main.with_progress m' (Main.progress m)) = Main_core m
    /\ Main.skillsTable m' = Main.skillsTable m
    /\ (Main.page m <> "Projects" -> Main.reposList m' = Main.reposList m).
Proof.
  destruct m as [c secs ld pr pg done rl st e].
  unfold Main.Update, Main.padding, Main.maxWidth. cbn.
  set (pw := Go.sub (Go.sub w 4) 4).
  eexists. split; [reflexivity |].
  destruct (String.eqb pg "Projects") eqn:Hp; cbn;
    (split; [destruct (Z.ltb_spec 80 pw); cbn; lia |]);
    (split; [intro Hw; subst pw; unfold Go.sub;
             rewrite (wrap_small (w - 4)) by lia;
             rewrite (wrap_small (w - 4 - 4)) by lia;
             destruct (Z.ltb_spec 80 (w - 4 - 4)); cbn; lia |]);
    (split; [intro Hw; subst pw; unfold Go.sub;
             rewrite (wrap_small (w - 4)) by lia;
             rewrite (wrap_small (w - 4 - 4)) by lia;
             destruct (Z.ltb_spec 80 (w - 4 - 4)); cbn; lia |]);
    (split; [reflexivity |]); (split; [reflexivity |]);
    (split; [reflexivity |]).
  - intro Hn. apply String.eqb_eq in Hp. contradiction.
  - reflexivity.
Qed.

(** ** The splash screen *)

(** While the splash screen is shown it takes every message: a key closes
    it, a tick counts down and closes it when the count reaches zero, and
    nothing else closes it; no message, a key, a fetch result or an error
    included, reaches the session (page, cursor, flags, error text,
    progress bar, list, table), and none ends the program. *)
Theorem splash_screen_takes_every_message
    (W : Widgets) (s s' : Splash.model) (msg : Msg) (cmd : option Cmd) :
  Splash.showSplash s = true ->
  Splash.Update W s msg = Go.Ok (s', cmd) ->
  Splash.showSplash s'
  = match msg with
    | KeyMsg _ => false
    | tickMsg _ => negb (Go.sub (Splash.splashTimer s) 1 <=? 0)
    | _ => true
    end
  /\ Splash.page s' = Splash.page s
  /\ Splash.cursor s' = Splash.cursor s
  /\ Splash.loading s' = Splash.loading s
  /\ Splash.loaded s' = Splash.loaded s
  /\ Splash.errorMsg s' = Splash.errorMsg s
  /\ Splash.progress s' = Splash.progress s
  /\ Splash.reposList s' = Splash.reposList s
  /\ Splash.skillsTable s' = Splash.skillsTable s
  /\ cmd <> Some Quit
  /\ cmd <> Some FetchGitHubRepos.
Proof.
  intros Hsh H. unfold Splash.Update in H.
  destruct (stopwatch_Update W (Splash.stopwatch s) msg) as [sw swCmd].
  cbn in H. rewrite Hsh in H.
  destruct msg; cbn in H;
    try (injection H as <- <-; cbn; repeat split; auto; discriminate).
  destruct (Go.sub (Splash.splashTimer s) 1 <=? 0);
    injection H as <- <-; cbn; repeat split; try discriminate; exact Hsh.
Qed.

Lemma splash_screen_takes_every_message_witness :
  Items
    (Splash.reposList
       (final (Splash.initialModel reference)
          (Splash_run reference (Splash.initialModel reference)
             [repoMsg three_repos]))) = [].
Proof.
  destruct (Splash.Update reference (Splash.initialModel reference)
              (repoMsg three_repos)) as [[s' cmd] | why] eqn:H.
  - destruct (splash_screen_takes_every_message reference
                (Splash.initialModel reference) s' (repoMsg three_repos) cmd
                eq_refl H) as (_ & _ & _ & _ & _ & _ & _ & Hr & _).
    cbn [Splash_run]. rewrite H. cbn [Go.bind fst final]. rewrite Hr.
    reflexivity.
  - vm_compute in H. discriminate H.
Defined.

Section Countdown.

Context (W : Widgets).

Lemma splash_tick (s : Splash.model) (t : Go.Time) :
  Splash.showSplash s = true ->
  1 <= Splash.splashTimer s < 2 ^ 63 ->
  exists s' cmd,
    Splash.Update W s (tickMsg t) = Go.Ok (s', cmd)
    /\ Splash.splashTimer s' = Splash.splashTimer s - 1
    /\ Splash.showSplash s' = (1 <? Splash.splashTimer s)
    /\ cmd = (if 1 <? Splash.splashTimer s then Some (Tick 50) else None)
    /\ Splash.progress s' = Splash.progress s
    /\ Splash.page s' = Splash.page s
    /\ Splash.cursor s' = Splash.cursor s.
Proof.
  intros Hsh Ht. unfold Splash.Update.
  destruct (stopwatch_Update W (Splash.stopwatch s) (tickMsg t))
    as [sw swCmd].
  cbn. rewrite Hsh. cbn. unfold Go.sub.
  rewrite (wrap_small (Splash.splashTimer s - 1)) by lia.
  destruct (Z.leb_spec (Splash.splashTimer s - 1) 0),
           (Z.ltb_spec 1 (Splash.splashTimer s)); try lia;
    do 2 eexists; (split; [reflexivity |]); cbn; auto 7.
Qed.

Lemma splash_countdown (ts : list Go.Time) :
  forall s : Splash.model,
    Splash.showSplash s = true ->
    1 <= Splash.splashTimer s < 2 ^ 63 ->
    Z.of_nat (List.length ts) <= Splash.splashTimer s ->
    exists s',
      Splash_run W s (map tickMsg ts) = Go.Ok s'
      /\ Splash.splashTimer s'
         = Splash.splashTimer s - Z.of_nat (List.length ts)
      /\ Splash.showSplash s'
         = (Z.of_nat (List.length ts) <? Splash.splashTimer s)
      /\ Splash.progress s' = Splash.progress s
      /\ Splash.page s' = Splash.page s
      /\ Splash.cursor s' = Splash.cursor s.
Proof.
  induction ts as [| t ts IH]; intros s Hsh Ht Hn.
  - exists s. cbn [map Splash_run List.length]. rewrite Z.sub_0_r.
    destruct (Z.ltb_spec (Z.of_nat 0) (Splash.splashTimer s));
      [auto 7 | cbn in *; lia].
  - destruct (splash_tick s t Hsh Ht)
      as (s1 & cmd & Hu & Ht1 & Hs1 & _ & Hp1 & Hg1 & Hc1).
    cbn [map Splash_run List.length]. cbn [List.length] in Hn.
    rewrite Hu. cbn [Go.bind fst].
    rewrite Nat2Z.inj_succ in *.
    destruct (Z.ltb_spec 1 (Splash.splashTimer s)) as [Hlt | Hge].
    + destruct (IH s1 Hs1) as (s' & Hr & Ht' & Hs' & Hp' & Hg' & Hc');
        [lia | lia |].
      exists s'. split; [exact Hr |]. rewrite Ht', Hs', Hp', Hg', Hc', Ht1.
      repeat split; auto; try lia.
      destruct (Z.ltb_spec (Z.of_nat (List.length ts))
                  (Splash.splashTimer s - 1)),
               (Z.ltb_spec (Z.succ (Z.of_nat (List.length ts)))
                  (Splash.splashTimer s)); try lia; reflexivity.
    + assert (Hts : ts = []).
      { destruct ts; [reflexivity | cbn in Hn; lia]. }
      subst ts. exists s1. cbn [map Splash_run List.length].
      split; [reflexivity |]. rewrite Ht1, Hs1.
      repeat split; auto.
      cbn. destruct (Z.ltb_spec 1 (Splash.splashTimer s)); try lia.
Qed.

End Countdown.

(** The splash screen closes by itself: after [k] ticks, [k] at most the
    count of the timer, the count is [k] less and the splash screen is
    still shown exactly when [k] is under the count; these ticks touch
    neither the progress bar, nor the page, nor the cursor. *)
Theorem splash_closes_when_its_timer_runs_out
    (W : Widgets) (s : Splash.model) (ts : list Go.Time) :
  Splash.showSplash s = true ->
  1 <= Splash.splashTimer s < 2 ^ 63 ->
  Z.of_nat (List.length ts) <= Splash.splashTimer s ->
  exists s',
    Splash_run W s (map tickMsg ts) = Go.Ok s'
    /\ Splash.splashTimer s'
       = Splash.splashTimer s - Z.of_nat (List.length ts)
    /\ Splash.showSplash s'
       = (Z.of_nat (List.length ts) <? Splash.splashTimer s)
    /\ Splash.progress s' = Splash.progress s
    /\ Splash.page s' = Splash.page s
    /\ Splash.cursor s' = Splash.cursor s.
Proof. intros Hsh Ht Hn. exact (splash_countdown W ts s Hsh Ht Hn). Qed.

Lemma splash_closes_when_its_timer_runs_out_witness :
  exists s',
    Splash_run reference (Splash.initialModel reference)
      (map tickMsg (repeat 0 20)) = Go.Ok s'
    /\ Splash.showSplash s' = false
    /\ Splash.splashTimer s' = 0.
Proof.
  destruct (splash_closes_when_its_timer_runs_out reference
              (Splash.initialModel reference) (repeat 0 20))
    as (s' & Hr & Ht & Hs & _).
  - reflexivity.
  - cbn. lia.
  - cbn. lia.
  - exists s'. split; [exact Hr |]. split; [exact Hs | exact Ht].
Defined.

(** ** The frame of main.go *)

Lemma menu_lines_from (cur : Z) (secs : list string) :
  forall (i : Z) (s : text),
  exists lines,
    Main.menu_lines cur i secs s = append_lines s lines
    /\ List.length lines = List.length secs
    /\ (forall (k : nat) (section : string),
           nth_error secs k = Some section ->
           nth_error lines k
           = Some (menu_line cur (i + Z.of_nat k) section)).
Proof.
  induction secs as [| x secs IH]; intros i s.
  - exists []. repeat split. intros k section H. destruct k; discriminate.
  - cbn [Main.menu_lines].
    destruct (IH (i + 1)
                (if i =? cur
                 then (s +++ Lit (" > " ++ x ++ nl))%text
                 else (s +++ Lit ("   " ++ x ++ nl))%text))
      as (lines & Hl & Hn & Hk).
    exists (menu_line cur i x :: lines). split; [| split].
    + rewrite Hl. unfold append_lines, menu_line. cbn [fold_left].
      destruct (i =? cur); reflexivity.
    + cbn. rewrite Hn. reflexivity.
    + intros k section H. destruct k as [| k].
      * injection H as ->. cbn. rewrite Z.add_0_r. reflexivity.
      * cbn in H |- *. rewrite (Hk k section H). f_equal. f_equal. lia.
Qed.

(** The menu of [View] lists every section, in order, one line each, and
    marks with " > " the line of the cursor and no other line (no line at
    all when the cursor is outside the sections). *)
Theorem menu_marks_the_cursor_line
    (cur : Z) (secs : list string) (s : text) :
  exists lines,
    Main.menu_lines cur 0 secs s = append_lines s lines
    /\ List.length lines = List.length secs
    /\ (forall (k : nat) (section : string),
           nth_error secs k = Some section ->
           nth_error lines k
           = Some ((if Z.of_nat k =? cur then " > " else "   ")
                   ++ section ++ nl)).
Proof.
  destruct (menu_lines_from cur secs 0 s) as (lines & Hl & Hn & Hk).
  exists lines. split; [exact Hl |]. split; [exact Hn |].
  intros k section H. rewrite (Hk k section H). reflexivity.
Qed.

(** [View] shows one screen at a time, in a fixed order of precedence.
    With an error text the frame depends on that text alone; without one,
    on the menu it depends on the cursor and the sections alone; without
    one, on another page and while loading, it depends on the progress bar
    alone, not even on the page. *)
Theorem View_shows_one_screen (m1 m2 : Main.model) :
  (Main.errorMsg m1 <> "" -> Main.errorMsg m2 = Main.errorMsg m1 ->
   Main.View m1 = Main.View m2)
  /\ (Main.errorMsg m1 = "" -> Main.errorMsg m2 = "" ->
      Main.page m1 = "menu" -> Main.page m2 = "menu" ->
      Main.cursor m2 = Main.cursor m1 ->
      Main.sections m2 = Main.sections m1 ->
      Main.View m1 = Main.View m2)
  /\ (Main.errorMsg m1 = "" -> Main.errorMsg m2 = "" ->
      Main.page m1 <> "menu" -> Main.page m2 <> "menu" ->
      Main.loading m1 = true -> Main.loading m2 = true ->
      Main.progress m2 = Main.progress m1 ->
      Main.View m1 = Main.View m2).
Proof.
  destruct m1 as [c1 secs1 ld1 pr1 pg1 done1 rl1 st1 e1].
  destruct m2 as [c2 secs2 ld2 pr2 pg2 done2 rl2 st2 e2].
  unfold Main.View. cbn. split; [| split].
  - intros Hne ->. apply streq_false in Hne. unfold streq in *.
    rewrite Hne. reflexivity.
  - intros -> -> -> -> -> ->. reflexivity.
  - intros -> -> Hp1 Hp2 -> -> ->.
    apply streq_false in Hp1, Hp2. unfold streq in *. cbn.
    rewrite Hp1, Hp2. reflexivity.
Qed.

(** ** Navigation *)

Section Navigation.

Context (W : Widgets).

Lemma Main_after_switch_widgets (m m' : Main.model) (msg : Msg)
    (cmd : option Cmd) :
  Main.after_switch W m msg = Go.Ok (m', cmd) ->
  Main.page m' = Main.page m
  /\ (Main.page m <> "Projects" -> Main.reposList m' = Main.reposList m)
  /\ (Main.page m <> "Skills" -> Main.skillsTable m' = Main.skillsTable m).
Proof.
  unfold Main.after_switch. intro H.
  destruct (streq (Main.page m) "Projects") eqn:Hp.
  - apply streq_true in Hp.
    destruct (list_Update W (Main.reposList m) msg).
    injection H as <- _. cbn. repeat split; auto. intro Hn. contradiction.
  - destruct (streq (Main.page m) "Skills") eqn:Hs.
    + apply streq_true in Hs.
      destruct (table_Update W (Main.skillsTable m) msg).
      injection H as <- _. cbn. repeat split; auto. intro Hn. contradiction.
    + injection H as <- _. auto.
Qed.

Lemma Main_move_widgets (m : Main.model) :
  (Main.page (Main.key_up m) = Main.page m
   /\ (Main.page m <> "Projects" ->
       Main.reposList (Main.key_up m) = Main.reposList m)
   /\ (Main.page m <> "Skills" ->
       Main.skillsTable (Main.key_up m) = Main.skillsTable m))
  /\ (Main.page (Main.key_down m) = Main.page m
      /\ (Main.page m <> "Projects" ->
          Main.reposList (Main.key_down m) = Main.reposList m)
      /\ (Main.page m <> "Skills" ->
          Main.skillsTable (Main.key_down m) = Main.skillsTable m)).
Proof.
  unfold Main.key_up, Main.key_down.
  destruct (streq (Main.page m) "menu");
    [destruct (0 <? Main.cursor m),
       (Main.cursor m <? Go.len (Main.sections m) - 1); cbn; auto 8 |].
  destruct (streq (Main.page m) "Projects") eqn:Hp.
  - apply streq_true in Hp. cbn. repeat split; auto; intro Hn; contradiction.
  - destruct (streq (Main.page m) "Skills") eqn:Hs.
    + apply streq_true in Hs. cbn.
      repeat split; auto; intro Hn; contradiction.
    + auto 8.
Qed.

End Navigation.

(** Only the user navigates: a step of main.go changes the page only on
    the enter key pressed on the menu and on the "b" key (which lands on
    the menu with the cursor at 0): no tick, size, fetch result or error
    does.  And the list of repositories, with its selection, changes only
    on a fetch result or while Projects is the page: leaving the page and
    coming back keeps both; likewise the table outside Skills. *)
Theorem only_enter_and_back_navigate
    (W : Widgets) (m m' : Main.model) (msg : Msg) (cmd : option Cmd) :
  Main.Update W m msg = Go.Ok (m', cmd) ->
  (Main.page m' <> Main.page m ->
   (msg = KeyMsg "enter" /\ Main.page m = "menu")
   \/ (msg = KeyMsg "b" /\ Main.page m' = "menu" /\ Main.cursor m' = 0))
  /\ (Main.page m <> "Projects" -> (forall r, msg <> repoMsg r) ->
      Main.reposList m' = Main.reposList m)
  /\ (Main.page m <> "Skills" -> Main.skillsTable m' = Main.skillsTable m).
Proof.
  intro H.
  assert (Hid : (Main.page m <> Main.page m ->
                 (msg = KeyMsg "enter" /\ Main.page m = "menu")
                 \/ (msg = KeyMsg "b" /\ Main.page m = "menu"
                     /\ Main.cursor m = 0))
                /\ (Main.page m <> "Projects" -> (forall r, msg <> repoMsg r) ->
                    Main.reposList m = Main.reposList m)
                /\ (Main.page m <> "Skills" ->
                    Main.skillsTable m = Main.skillsTable m)).
  { repeat split; auto. intro Hn. contradiction. }
  assert (Hsame : forall x,
             Main.after_switch W x msg = Go.Ok (m', cmd) ->
             Main.page x = Main.page m ->
             (Main.page m <> "Projects" ->
              Main.reposList x = Main.reposList m) ->
             (Main.page m <> "Skills" ->
              Main.skillsTable x = Main.skillsTable m) ->
             (Main.page m' <> Main.page m ->
              (msg = KeyMsg "enter" /\ Main.page m = "menu")
              \/ (msg = KeyMsg "b" /\ Main.page m' = "menu"
                  /\ Main.cursor m' = 0))
             /\ (Main.page m <> "Projects" -> (forall r, msg <> repoMsg r) ->
                 Main.reposList m' = Main.reposList m)
             /\ (Main.page m <> "Skills" ->
                 Main.skillsTable m' = Main.skillsTable m)).
  { intros x Hx Ep Er Et.
    destruct (Main_after_switch_widgets W _ _ _ _ Hx) as (Ep' & Er' & Et').
    rewrite Ep in *. split; [| split].
    - intro Hn. rewrite Ep' in Hn. contradiction.
    - intros Hp _. rewrite (Er' Hp). exact (Er Hp).
    - intros Hp. rewrite (Et' Hp). exact (Et Hp). }
  destruct (Main_move_widgets m) as ((Up & Ur & Ut) & (Dp & Dr & Dt)).
  destruct msg as [k | w h | t | repos | err | u | f | o]; cbn in H.
  - destruct (streq k "q"); [injection H as <- _; exact Hid |].
    destruct (streq k "up" || streq k "k");
      [exact (Hsame _ H Up Ur Ut) |].
    destruct (streq k "down" || streq k "j");
      [exact (Hsame _ H Dp Dr Dt) |].
    destruct (streq k "enter") eqn:Hk.
    { apply streq_true in Hk. subst k. unfold Main.key_enter in H.
      destruct (streq (Main.page m) "menu") eqn:Hm.
      - apply streq_true in Hm.
        destruct (Go.index (Main.sections m) (Main.cursor m)) as [tg |];
          cbn in H; [| discriminate].
        destruct (streq tg "Exit"); [injection H as <- _; exact Hid |].
        cbn in H. destruct (String.eqb tg "Projects");
          injection H as <- _; cbn; repeat split; auto.
      - destruct (streq (Main.page m) "Projects" && Main.loaded m);
          [| exact (Hsame m H eq_refl (fun _ => eq_refl) (fun _ => eq_refl))].
        destruct (0 <? Go.len (Items (Main.reposList m)));
          [| exact (Hsame m H eq_refl (fun _ => eq_refl) (fun _ => eq_refl))].
        destruct (SelectedItem (Main.reposList m)) as [it |];
          [| discriminate].
        destruct (negb (streq (url it) ""));
          [| exact (Hsame m H eq_refl (fun _ => eq_refl) (fun _ => eq_refl))].
        injection H as <- _. exact Hid. }
    destruct (streq k "b") eqn:Hb.
    { apply streq_true in Hb. subst k.
      destruct (Main_after_switch_widgets W _ _ _ _ H) as (Ep' & Er' & Et').
      destruct (Main_after_switch_fields W _ _ _ _ H) as (Ec & _).
      clear H Hsame Hid. unfold Main.key_b in *.
      destruct (streq (Main.page m) "menu") eqn:Hm; cbn in *.
      - apply streq_true in Hm. split; [| split].
        + intro Hn. rewrite Ep' in Hn. contradiction.
        + intros Hp _. exact (Er' Hp).
        + intros Hp. exact (Et' Hp).
      - split; [| split].
        + intros _. right. auto.
        + intros _ _. apply Er'. discriminate.
        + intros _. apply Et'. discriminate. }
    exact (Hsame m H eq_refl (fun _ => eq_refl) (fun _ => eq_refl)).
  - injection H as <- _. clear Hsame. cbn.
    destruct (String.eqb (Main.page m) "Projects") eqn:Hp; cbn.
    + apply String.eqb_eq in Hp.
      repeat split; auto; intro Hn; contradiction.
    + exact Hid.
  - destruct (PrimFloat.eqb _ _); injection H as <- _; exact Hid.
  - injection H as <- _. cbn. repeat split; auto.
    + intro Hn. contradiction.
    + intros _ Hr. exfalso. exact (Hr repos eq_refl).
  - injection H as <- _. exact Hid.
  - injection H as <- _. exact Hid.
  - unfold progress_Update in H.
    destruct (progress_animate W (Main.progress m) f).
    injection H as <- _. exact Hid.
  - exact (Hsame m H eq_refl (fun _ => eq_refl) (fun _ => eq_refl)).
Qed.

Lemma only_enter_and_back_navigate_witness :
  exists m',
    Main_run reference Main_listed [KeyMsg "b"] = Go.Ok m'
    /\ Main.page m' = "menu"
    /\ Main.cursor m' = 0.
Proof.
  destruct (Main.Update reference Main_listed (KeyMsg "b"))
    as [[m' c] | why] eqn:H.
  - destruct (only_enter_and_back_navigate reference Main_listed m'
                (KeyMsg "b") c H) as (Hnav & _).
    exists m'. cbn [Main_run]. rewrite H. split; [reflexivity |].
    destruct Hnav as [[E _] | (_ & Hp & Hc)].
    + vm_compute in H. injection H as <- _. discriminate.
    + discriminate E.
    + auto.
  - vm_compute in H. discriminate H.
Defined.

(** In the full-screen program, with the splash screen gone, a message
    that no case handles on a page other than Projects and Skills (a key
    without meaning there, a message of a library) leaves the model as it
    is but for the stopwatch, and asks, beside the stopwatch's command, for
    a tick one second later. *)
Theorem unhandled_messages_schedule_a_tick
    (W : Widgets) (s : Splash.model) (msg : Msg) :
  Splash.showSplash s = false ->
  Splash.page s <> "Projects" ->
  Splash.page s <> "Skills" ->
  (exists o, msg = OtherMsg o)
  \/ (exists k, msg = KeyMsg k /\ k <> "q" /\ k <> "b" /\ k <> "enter"
                /\ is_move k = false) ->
  Splash.Update W s msg
  = Go.Ok (Splash.with_stopwatch s
             (fst (stopwatch_Update W (Splash.stopwatch s) msg)),
           Some (Batch [snd (stopwatch_Update W (Splash.stopwatch s) msg);
                        Some (Tick 1000)])).
Proof.
  intros Hsh Hp Hs Hmsg.
  destruct s as [c secs ld pr pg done rl st e w h show timer sw].
  cbn in Hsh, Hp, Hs. subst show. apply streq_false in Hp, Hs.
  unfold Splash.Update. cbn [Splash.stopwatch].
  destruct (stopwatch_Update W sw msg) as [sw' swCmd]. cbn [fst snd].
  destruct Hmsg as [(o & ->) | (k & -> & Hq & Hb & He & Hm)].
  - unfold streq in *. cbn. unfold Splash.after_switch. cbn.
    unfold streq. rewrite Hp, Hs. reflexivity.
  - unfold is_move, is_up, is_down in Hm.
    apply orb_false_elim in Hm. destruct Hm as [Hu Hd].
    apply streq_false in Hq, Hb, He. unfold streq in *. cbn.
    rewrite Hq, Hu, Hd, He, Hb. unfold Splash.after_switch. cbn.
    unfold streq. rewrite Hp, Hs. reflexivity.
Qed.

Lemma unhandled_messages_schedule_a_tick_witness :
  exists s',
    Splash.Update reference Splash_menu (KeyMsg "x")
    = Go.Ok (s', Some (Batch [None; Some (Tick 1000)])).
Proof.
  eexists.
  rewrite (unhandled_messages_schedule_a_tick reference Splash_menu
             (KeyMsg "x")).
  - reflexivity.
  - reflexivity.
  - discriminate.
  - discriminate.
  - right. exists "x". repeat split; discriminate.
Defined.
